(** * ECG Research Console: the derived-metrics core

    A shallow embedding of the pure client-side computations of the console:
    the session normalizer ([coerceNumber], [evaluateSignalQuality],
    [normalizeFeatures], [adaptCollectResponse]), the participant aggregator
    ([buildParticipantsFromSessions]), the attempt ledger (the two state
    updaters of [attemptLogs]), the analytics engine (FAR / FRR / EER of
    [AnalyticsTab]) and the continuous-monitor summary ([summary] of
    [ContinuousMonitor]); and, around them, the verification adapters, the
    label distribution, the score meter, the handlers of the verification
    panel and of the monitor controls, and the capture payload of the
    enrollment wizard.

    Numbers are JavaScript numbers, that is IEEE 754 binary64 values: they are
    embedded as Rocq's primitive [float], whose operations are the same
    correctly rounded binary64 operations. *)

From Stdlib Require Import Floats ZArith Ascii String.
From stdpp Require Import gmap strings list pretty.

Set Warnings "-inexact-float".

(** ** The JavaScript runtime, as far as the console uses it *)

Module JS.

(** A value received from the backend's JSON. Objects and arrays are only
    ever observed through [typeof] by the code below, so they carry no
    contents. *)
Inductive Value : Type :=
| VUndefined
| VNull
| VBoolean (b : bool)
| VNumber (n : float)
| VString (s : string)
| VObject.

(** A JSON object read by property name; a missing key reads as
    [undefined]. *)
Definition get (o : gmap string Value) (k : string) : Value :=
  default VUndefined (o !! k).

(** [a ?? b] *)
Definition nullish (a b : Value) : Value :=
  match a with
  | VUndefined | VNull => b
  | _ => a
  end.

(** Truthiness of a number: [+0], [-0] and [NaN] are falsy. *)
Definition truthy (n : float) : bool :=
  negb (PrimFloat.eqb n 0 || PrimFloat.is_nan n).

(** [a || b] on numbers. *)
Definition or (a b : float) : float := if truthy a then a else b.

(** [a >= b] and [a > b]; false as soon as one side is [NaN]. *)
Definition geb (a b : float) : bool := PrimFloat.leb b a.
Definition gtb (a b : float) : bool := PrimFloat.ltb b a.

Definition isPosZero (n : float) : bool :=
  match PrimFloat.classify n with PZero => true | _ => false end.
Definition isNegZero (n : float) : bool :=
  match PrimFloat.classify n with NZero => true | _ => false end.

(** [Math.max]: [NaN] if an argument is [NaN], and [+0] counts as larger
    than [-0]. *)
Definition Math_max (args : list float) : float :=
  if existsb PrimFloat.is_nan args then PrimFloat.nan
  else fold_left
         (fun highest n =>
            if isPosZero n && isNegZero highest then n
            else if gtb n highest then n else highest)
         args PrimFloat.neg_infinity.

(** [Math.min], symmetrically. *)
Definition Math_min (args : list float) : float :=
  if existsb PrimFloat.is_nan args then PrimFloat.nan
  else fold_left
         (fun lowest n =>
            if isNegZero n && isPosZero lowest then n
            else if PrimFloat.ltb n lowest then n else lowest)
         args PrimFloat.infinity.

(** [a.length]: an array's length is an integer below 2^32. Lengths and
    their differences are kept as integers, on which the arithmetic of
    numbers is exact, and turned into a number where they are divided. *)
Definition length {A} (a : list A) : Z := Z.of_nat (List.length a).

(** The number that an integer denotes (the nearest one, for an integer
    of more than 53 bits). *)
Definition ofZ (z : Z) : float :=
  SF2Prim (binary_normalize prec emax z 0 false).

(** *** Strings

    A string is a sequence of code units; the embedding covers the code
    units below 256. *)

Definition isStrWhiteSpaceChar (c : ascii) : bool :=
  let n := N_of_ascii c in
  ((9 <=? n) && (n <=? 13) || (n =? 32) || (n =? 160))%N.

Fixpoint dropWhile {A} (p : A -> bool) (l : list A) : list A :=
  match l with
  | [] => []
  | x :: r => if p x then dropWhile p r else l
  end.

Definition trimChars (l : list ascii) : list ascii :=
  rev (dropWhile isStrWhiteSpaceChar (rev (dropWhile isStrWhiteSpaceChar l))).

(** [s.trim()] *)
Definition trim (s : string) : string :=
  string_of_list_ascii (trimChars (list_ascii_of_string s)).

(** *** [Number(s)] on a string: the StringNumericLiteral grammar *)

Definition digitValue (c : ascii) : option Z :=
  let n := Z.of_N (N_of_ascii c) in
  if (48 <=? n)%Z && (n <=? 57)%Z then Some (n - 48)%Z
  else if (97 <=? n)%Z && (n <=? 102)%Z then Some (n - 87)%Z
  else if (65 <=? n)%Z && (n <=? 70)%Z then Some (n - 55)%Z
  else None.

Definition isDigitIn (radix : Z) (c : ascii) : bool :=
  match digitValue c with
  | Some d => (d <? radix)%Z
  | None => false
  end.

Fixpoint span {A} (p : A -> bool) (l : list A) : list A * list A :=
  match l with
  | [] => ([], [])
  | x :: r => if p x then let '(a, b) := span p r in (x :: a, b) else ([], l)
  end.

Definition digitsValue (radix : Z) (ds : list ascii) : Z :=
  fold_left (fun acc c => acc * radix + default 0 (digitValue c))%Z ds 0%Z.

(** ExponentPart, when present, up to the end of the text. *)
Definition parseExponent (l : list ascii) : option Z :=
  match l with
  | [] => Some 0%Z
  | c :: r =>
      if (Ascii.eqb c "e" || Ascii.eqb c "E")%char then
        let '(neg, r') :=
          match r with
          | "+"%char :: t => (false, t)
          | "-"%char :: t => (true, t)
          | _ => (false, r)
          end in
        match span (isDigitIn 10) r' with
        | ((_ :: _) as ds, []) =>
            Some (if neg then - digitsValue 10 ds else digitsValue 10 ds)%Z
        | _ => None
        end
      else None
  end.

(** StrUnsignedDecimalLiteral other than [Infinity]: the digits read as an
    integer, and the power of ten that scales it. *)
Definition parseUnsignedDecimal (l : list ascii) : option (Z * Z) :=
  let '(ip, r1) := span (isDigitIn 10) l in
  let '(fp, r2) :=
    match r1 with
    | "."%char :: t => span (isDigitIn 10) t
    | _ => ([], r1)
    end in
  match ip ++ fp with
  | [] => None
  | ds =>
      match parseExponent r2 with
      | Some e => Some (digitsValue 10 ds, e - Z.of_nat (List.length fp))%Z
      | None => None
      end
  end.

(** The binary64 value nearest to [(-1)^neg * m * 10^e], ties to even. *)
Definition roundDecimal (neg : bool) (m e : Z) : float :=
  match m with
  | Z0 => if neg then PrimFloat.neg_zero else PrimFloat.zero
  | _ =>
      if (0 <=? e)%Z then
        SF2Prim (binary_normalize prec emax (cond_Zopp neg (m * 10 ^ e)) 0 false)
      else
        let '(q, eq, loc) := SFdiv_core_binary prec emax m 0 (10 ^ (- e)) 0 in
        SF2Prim (binary_round_aux prec emax neg q eq loc)
  end.

Definition radixOfPrefix (c : ascii) : option Z :=
  if (Ascii.eqb c "x" || Ascii.eqb c "X")%char then Some 16%Z
  else if (Ascii.eqb c "o" || Ascii.eqb c "O")%char then Some 8%Z
  else if (Ascii.eqb c "b" || Ascii.eqb c "B")%char then Some 2%Z
  else None.

Definition parseDecimalLiteral (t : list ascii) : float :=
  let '(neg, u) :=
    match t with
    | "+"%char :: r => (false, r)
    | "-"%char :: r => (true, r)
    | _ => (false, t)
    end in
  if String.eqb (string_of_list_ascii u) "Infinity" then
    if neg then PrimFloat.neg_infinity else PrimFloat.infinity
  else
    match parseUnsignedDecimal u with
    | Some (m, e) => roundDecimal neg m e
    | None => PrimFloat.nan
    end.

Definition StringToNumber (s : string) : float :=
  match trimChars (list_ascii_of_string s) with
  | [] => PrimFloat.zero
  | ("0"%char :: p :: ds) as t =>
      match radixOfPrefix p with
      | Some radix =>
          match ds with
          | _ :: _ =>
              if forallb (isDigitIn radix) ds
              then roundDecimal false (digitsValue radix ds) 0
              else PrimFloat.nan
          | [] => PrimFloat.nan
          end
      | None => parseDecimalLiteral t
      end
  | t => parseDecimalLiteral t
  end.

(** [Boolean(v)] *)
Definition toBoolean (v : Value) : bool :=
  match v with
  | VUndefined | VNull => false
  | VBoolean b => b
  | VNumber n => truthy n
  | VString s => (0 <? String.length s)%nat
  | VObject => true
  end.

(** [s.split(sep)] for a separator of one code unit: the pieces between
    the separators, at least one. *)
Fixpoint splitChars (sep : ascii) (l : list ascii) : list (list ascii) :=
  match l with
  | [] => [[]]
  | c :: r =>
      if Ascii.eqb c sep then [] :: splitChars sep r
      else match splitChars sep r with
           | piece :: pieces => (c :: piece) :: pieces
           | [] => [[c]]
           end
  end.

Definition split (sep : ascii) (s : string) : list string :=
  map string_of_list_ascii (splitChars sep (list_ascii_of_string s)).

End JS.

Open Scope float_scope.

Notation "a ?? b" := (JS.nullish a b) (at level 45, right associativity).
Notation "o .[ k ]" := (JS.get o k) (at level 1, left associativity, format "o .[ k ]").

(** ** Data model (types.ts) *)

Inductive SignalQuality : Type := good | medium | poor.

Module EcgFeatureSet.
Record t : Type := mk {
  estimatedBpm : float;
  peakCount : float;
  mean : float;
  std : float;
  rms : float;
  min : float;
  max : float;
  skewness : float;
  kurtosis : float;
  rrMeanMs : float;
  rrStdMs : float;
  qrsWidthMs : float;
  lowFreqPowerRatio : float;
  midFreqPowerRatio : float;
  highFreqPowerRatio : float;
  spectralCentroidHz : float;
  spectralEntropy : float;
  veryLowFreqPowerRatio : float;
  motionArtifactIndex : float;
  baselineDriftRatio : float;
  signalQualityScore : float;
  hrvDailyRmssd : float;
  signalQuality : SignalQuality
}.

(** [{ ...f, signalQuality: q }] *)
Definition withSignalQuality (f : t) (q : SignalQuality) : t :=
  mk (estimatedBpm f) (peakCount f) (mean f) (std f) (rms f) (min f) (max f)
     (skewness f) (kurtosis f) (rrMeanMs f) (rrStdMs f) (qrsWidthMs f)
     (lowFreqPowerRatio f) (midFreqPowerRatio f) (highFreqPowerRatio f)
     (spectralCentroidHz f) (spectralEntropy f) (veryLowFreqPowerRatio f)
     (motionArtifactIndex f) (baselineDriftRatio f) (signalQualityScore f)
     (hrvDailyRmssd f) q.
End EcgFeatureSet.

(** [Partial<EcgFeatureSet>], restricted to the five properties that
    [evaluateSignalQuality] destructures; [None] is a property that is
    missing or [undefined]. *)
Module PartialEcgFeatureSet.
Record t : Type := mk {
  peakCount : option float;
  std : option float;
  estimatedBpm : option float;
  signalQualityScore : option float;
  motionArtifactIndex : option float
}.

(** A complete feature set passed where a partial one is expected. *)
Definition ofFull (f : EcgFeatureSet.t) : t :=
  mk (Some (EcgFeatureSet.peakCount f)) (Some (EcgFeatureSet.std f))
     (Some (EcgFeatureSet.estimatedBpm f))
     (Some (EcgFeatureSet.signalQualityScore f))
     (Some (EcgFeatureSet.motionArtifactIndex f)).
End PartialEcgFeatureSet.

Module SessionMetadata.
Record t : Type := mk {
  activityLabel : option string;
  stressLevel : option string;
  sensorPlacement : option string;
  deviceModel : option string
}.
End SessionMetadata.

(** The wire shape of a session. The properties that the adapter passes
    through [coerceNumber] hold arbitrary JSON values; the others are taken
    at their declared type, [None] standing for [undefined] or [null]. *)
Module CollectSessionApiResponse.
Record t : Type := mk {
  documentId : string;
  fitbitUserId : option string;
  ecgStartTime : option string;
  hrvDailyRmssd : option float;
  features : option (gmap string JS.Value);
  metadata : option SessionMetadata.t;
  waveformPreview : option (list JS.Value);
  signalQualityScore : JS.Value;
  motionArtifactIndex : JS.Value;
  baselineDriftRatio : JS.Value;
  samplingHz : JS.Value;
  scalingFactor : JS.Value;
  tags : option (list (option string));
  notes : option string
}.
End CollectSessionApiResponse.

Module CollectSessionResponse.
Record t : Type := mk {
  documentId : string;
  fitbitUserId : option string;
  ecgStartTime : option string;
  hrvDailyRmssd : option float;
  features : EcgFeatureSet.t;
  metadata : option SessionMetadata.t;
  waveformPreview : list float;
  signalQualityScore : float;
  motionArtifactIndex : float;
  baselineDriftRatio : float;
  samplingHz : float;
  scalingFactor : float;
  tags : list string;
  notes : option string
}.
End CollectSessionResponse.

(** [type EcgSessionRecord = CollectSessionResponse] *)
Abbreviation EcgSessionRecord := CollectSessionResponse.t.

(** ** Session normalizer (api/client.ts) *)

Definition coerceNumber (value : JS.Value) : float :=
  match value with
  | JS.VNumber n => n
  | JS.VString s => JS.StringToNumber s
  | _ => 0
  end.

Definition evaluateSignalQuality (features : PartialEcgFeatureSet.t) : SignalQuality :=
  let peakCount := default 0 (PartialEcgFeatureSet.peakCount features) in
  let std := default 0 (PartialEcgFeatureSet.std features) in
  let estimatedBpm := default 0 (PartialEcgFeatureSet.estimatedBpm features) in
  let signalQualityScore := default 0 (PartialEcgFeatureSet.signalQualityScore features) in
  let motionArtifactIndex := default 0 (PartialEcgFeatureSet.motionArtifactIndex features) in
  if JS.geb signalQualityScore 0.75 && (motionArtifactIndex <=? 0.35) then good
  else if JS.geb signalQualityScore 0.5 && (motionArtifactIndex <=? 0.6) then medium
  else if JS.geb signalQualityScore 0.5 then medium
  else if (peakCount <? 10) || (std <? 0.05) || (estimatedBpm <? 40)
          || JS.gtb estimatedBpm 160 then poor
  else if (peakCount <? 25) || (std <? 0.08) then medium
  else good.

Definition normalizeFeatures (payload : gmap string JS.Value) (hrv : option float)
  : EcgFeatureSet.t :=
  let rrMeanMs := coerceNumber (payload.["RrMeanMs"] ?? payload.["rrMeanMs"]) in
  let rrStdMs := coerceNumber (payload.["RrStdMs"] ?? payload.["rrStdMs"]) in
  let qrsWidthMs := coerceNumber (payload.["QrsWidthMs"] ?? payload.["qrsWidthMs"]) in
  let lowFreqPowerRatio :=
    coerceNumber (payload.["LowFreqPowerRatio"] ?? payload.["lowFreqPowerRatio"]) in
  let midFreqPowerRatio :=
    coerceNumber (payload.["MidFreqPowerRatio"] ?? payload.["midFreqPowerRatio"]) in
  let highFreqPowerRatio :=
    coerceNumber (payload.["HighFreqPowerRatio"] ?? payload.["highFreqPowerRatio"]) in
  let veryLowFreqPowerRatio :=
    coerceNumber (payload.["VeryLowFreqPowerRatio"] ?? payload.["veryLowFreqPowerRatio"]) in
  let spectralCentroidHz :=
    coerceNumber (payload.["SpectralCentroidHz"] ?? payload.["spectralCentroidHz"]) in
  let spectralEntropy :=
    coerceNumber (payload.["SpectralEntropy"] ?? payload.["spectralEntropy"]) in
  let motionArtifactIndex :=
    coerceNumber (payload.["MotionArtifactIndex"] ?? payload.["motionArtifactIndex"]) in
  let baselineDriftRatio :=
    coerceNumber (payload.["BaselineDriftRatio"] ?? payload.["baselineDriftRatio"]) in
  let rawSignalQualityScore :=
    coerceNumber (payload.["SignalQualityScore"] ?? payload.["signalQualityScore"]) in
  let signalQualityScore :=
    if JS.gtb rawSignalQualityScore 0 then rawSignalQualityScore
    else JS.Math_max [0; 1 - motionArtifactIndex] in
  let normalized :=
    {| EcgFeatureSet.estimatedBpm :=
         coerceNumber (payload.["EstimatedBpm"] ?? payload.["estimatedBpm"]);
       EcgFeatureSet.peakCount :=
         coerceNumber (payload.["PeakCount"] ?? payload.["peakCount"]);
       EcgFeatureSet.mean := coerceNumber (payload.["Mean"] ?? payload.["mean"]);
       EcgFeatureSet.std := coerceNumber (payload.["Std"] ?? payload.["std"]);
       EcgFeatureSet.rms := coerceNumber (payload.["Rms"] ?? payload.["rms"]);
       EcgFeatureSet.min := coerceNumber (payload.["Min"] ?? payload.["min"]);
       EcgFeatureSet.max := coerceNumber (payload.["Max"] ?? payload.["max"]);
       EcgFeatureSet.skewness :=
         coerceNumber (payload.["Skewness"] ?? payload.["skewness"]);
       EcgFeatureSet.kurtosis :=
         coerceNumber (payload.["Kurtosis"] ?? payload.["kurtosis"]);
       EcgFeatureSet.rrMeanMs := rrMeanMs;
       EcgFeatureSet.rrStdMs := rrStdMs;
       EcgFeatureSet.qrsWidthMs := qrsWidthMs;
       EcgFeatureSet.lowFreqPowerRatio := lowFreqPowerRatio;
       EcgFeatureSet.midFreqPowerRatio := midFreqPowerRatio;
       EcgFeatureSet.highFreqPowerRatio := highFreqPowerRatio;
       EcgFeatureSet.spectralCentroidHz := spectralCentroidHz;
       EcgFeatureSet.spectralEntropy := spectralEntropy;
       EcgFeatureSet.veryLowFreqPowerRatio := veryLowFreqPowerRatio;
       EcgFeatureSet.motionArtifactIndex := motionArtifactIndex;
       EcgFeatureSet.baselineDriftRatio := baselineDriftRatio;
       EcgFeatureSet.signalQualityScore := signalQualityScore;
       EcgFeatureSet.hrvDailyRmssd :=
         default (coerceNumber (payload.["HrvDailyRmssd"] ?? payload.["hrvDailyRmssd"])) hrv;
       EcgFeatureSet.signalQuality := good |} in
  EcgFeatureSet.withSignalQuality normalized
    (evaluateSignalQuality (PartialEcgFeatureSet.ofFull normalized)).

Definition sanitizeString (value : option string) : option string :=
  match value with
  | None => None
  | Some v =>
      let trimmed := JS.trim v in
      if (0 <? String.length trimmed)%nat then Some trimmed else None
  end.

(** [Boolean(v)] for an optional string. *)
Definition stringTruthy (v : option string) : bool :=
  match v with
  | Some s => (0 <? String.length s)%nat
  | None => false
  end.

Definition adaptMetadata (metadata : option SessionMetadata.t) : option SessionMetadata.t :=
  match metadata with
  | None => None
  | Some metadata =>
      let normalized :=
        {| SessionMetadata.activityLabel :=
             sanitizeString (SessionMetadata.activityLabel metadata);
           SessionMetadata.stressLevel :=
             sanitizeString (SessionMetadata.stressLevel metadata);
           SessionMetadata.sensorPlacement :=
             sanitizeString (SessionMetadata.sensorPlacement metadata);
           SessionMetadata.deviceModel :=
             sanitizeString (SessionMetadata.deviceModel metadata) |} in
      if existsb stringTruthy
           [SessionMetadata.activityLabel normalized;
            SessionMetadata.stressLevel normalized;
            SessionMetadata.sensorPlacement normalized;
            SessionMetadata.deviceModel normalized]
      then Some normalized else None
  end.

Definition adaptWaveformPreview (preview : option (list JS.Value)) : list float :=
  match preview with
  | None => []
  | Some preview => map coerceNumber preview
  end.

Definition adaptTags (tags : option (list (option string))) : list string :=
  match tags with
  | None => []
  | Some tags =>
      omap (fun tag => if stringTruthy tag then tag else None)
           (map sanitizeString tags)
  end.

Definition adaptCollectResponse (data : CollectSessionApiResponse.t)
  : CollectSessionResponse.t :=
  let features :=
    normalizeFeatures (default ∅ (CollectSessionApiResponse.features data))
                      (CollectSessionApiResponse.hrvDailyRmssd data) in
  let signalQualityScore :=
    coerceNumber (CollectSessionApiResponse.signalQualityScore data) in
  let motionArtifactIndex :=
    coerceNumber (CollectSessionApiResponse.motionArtifactIndex data) in
  let baselineDriftRatio :=
    coerceNumber (CollectSessionApiResponse.baselineDriftRatio data) in
  {| CollectSessionResponse.documentId := CollectSessionApiResponse.documentId data;
     CollectSessionResponse.fitbitUserId := CollectSessionApiResponse.fitbitUserId data;
     CollectSessionResponse.ecgStartTime := CollectSessionApiResponse.ecgStartTime data;
     CollectSessionResponse.hrvDailyRmssd := CollectSessionApiResponse.hrvDailyRmssd data;
     CollectSessionResponse.features := features;
     CollectSessionResponse.metadata :=
       adaptMetadata (CollectSessionApiResponse.metadata data);
     CollectSessionResponse.waveformPreview :=
       adaptWaveformPreview (CollectSessionApiResponse.waveformPreview data);
     CollectSessionResponse.signalQualityScore :=
       JS.or signalQualityScore (EcgFeatureSet.signalQualityScore features);
     CollectSessionResponse.motionArtifactIndex :=
       JS.or motionArtifactIndex (EcgFeatureSet.motionArtifactIndex features);
     CollectSessionResponse.baselineDriftRatio :=
       JS.or baselineDriftRatio (EcgFeatureSet.baselineDriftRatio features);
     CollectSessionResponse.samplingHz :=
       coerceNumber (CollectSessionApiResponse.samplingHz data);
     CollectSessionResponse.scalingFactor :=
       coerceNumber (CollectSessionApiResponse.scalingFactor data);
     CollectSessionResponse.tags := adaptTags (CollectSessionApiResponse.tags data);
     CollectSessionResponse.notes := sanitizeString (CollectSessionApiResponse.notes data) |}.

Definition adaptSessionRecord (record : CollectSessionApiResponse.t) : EcgSessionRecord :=
  adaptCollectResponse record.

(** ** Participant aggregator (App.tsx) *)

Module ParticipantModelStatus.
Record t : Type := mk {
  trainedPairs : float;
  lastTrainedAt : option string;
  accuracy : option float;
  auc : option float;
  f1 : option float
}.
End ParticipantModelStatus.

Module Participant.
Record t : Type := mk {
  id : string;
  alias : option string;
  sessionCount : float;
  lastSessionAt : option string;
  enrollmentProgress : option float;
  modelStatus : option ParticipantModelStatus.t
}.
End Participant.

(** A [Map] with string keys: its entries in insertion order. [set] on a
    key that is present replaces the value and keeps the position. *)
Module JsMap.
Definition t (V : Type) : Type := list (string * V).

Definition empty {V} : t V := [].

Fixpoint get {V} (m : t V) (k : string) : option V :=
  match m with
  | [] => None
  | (k', v) :: r => if String.eqb k' k then Some v else get r k
  end.

Fixpoint set {V} (m : t V) (k : string) (v : V) : t V :=
  match m with
  | [] => [(k, v)]
  | (k', v') :: r =>
      if String.eqb k' k then (k, v) :: r else (k', v') :: set r k v
  end.

Definition entries {V} (m : t V) : list (string * V) := m.
End JsMap.

(** The value type of [grouped]. *)
Module GroupInfo.
Record t : Type := mk {
  sessionCount : float;
  lastSessionAt : option string
}.
End GroupInfo.

Definition progressFromSessions (count : float) : float :=
  JS.Math_min [1; count / 12].

Section Aggregator.

(** [new Date(s).getTime()] *)
Variable Date_getTime : string -> float.

(** One iteration of [sessions.forEach]. *)
Definition groupSession (grouped : JsMap.t GroupInfo.t) (session : EcgSessionRecord)
  : JsMap.t GroupInfo.t :=
  if negb (stringTruthy (CollectSessionResponse.fitbitUserId session)) then grouped
  else
    let fitbitUserId := default EmptyString (CollectSessionResponse.fitbitUserId session) in
    let entry :=
      default {| GroupInfo.sessionCount := 0; GroupInfo.lastSessionAt := None |}
              (JsMap.get grouped fitbitUserId) in
    let entry :=
      {| GroupInfo.sessionCount := GroupInfo.sessionCount entry + 1;
         GroupInfo.lastSessionAt := GroupInfo.lastSessionAt entry |} in
    let entry :=
      if stringTruthy (CollectSessionResponse.ecgStartTime session) then
        let ecgStartTime :=
          default EmptyString (CollectSessionResponse.ecgStartTime session) in
        if negb (stringTruthy (GroupInfo.lastSessionAt entry))
           || JS.gtb (Date_getTime ecgStartTime)
                     (Date_getTime (default EmptyString (GroupInfo.lastSessionAt entry)))
        then {| GroupInfo.sessionCount := GroupInfo.sessionCount entry;
                GroupInfo.lastSessionAt := Some ecgStartTime |}
        else entry
      else entry in
    JsMap.set grouped fitbitUserId entry.

Definition buildParticipantsFromSessions (sessions : list EcgSessionRecord)
  : list Participant.t :=
  let grouped := fold_left groupSession sessions JsMap.empty in
  map (fun '(id, info) =>
         {| Participant.id := id;
            Participant.alias := None;
            Participant.sessionCount := GroupInfo.sessionCount info;
            Participant.lastSessionAt := GroupInfo.lastSessionAt info;
            Participant.enrollmentProgress :=
              Some (progressFromSessions (GroupInfo.sessionCount info));
            Participant.modelStatus := None |})
      (JsMap.entries grouped).

End Aggregator.

(** The participant identity that a session carries, when it is present and
    not empty; and the identities of a session list. *)
Definition identityOf (session : EcgSessionRecord) : option string :=
  match CollectSessionResponse.fitbitUserId session with
  | Some id => if String.eqb id EmptyString then None else Some id
  | None => None
  end.

Definition identities (sessions : list EcgSessionRecord) : list string :=
  omap identityOf sessions.

(** ** Attempt ledger (App.tsx) *)

Inductive Label : Type := genuine | impostor.

Definition Label_eqb (a b : Label) : bool :=
  match a, b with
  | genuine, genuine | impostor, impostor => true
  | _, _ => false
  end.

Module VerifyComparison.
Record t : Type := mk {
  id : string;
  sessionLabel : string;
  timestampLabel : string;
  probability : float
}.
End VerifyComparison.

Module VerifyAttempt.
Record t : Type := mk {
  id : string;
  participantId : string;
  alias : option string;
  timestamp : string;
  score : float;
  threshold : float;
  passed : bool;
  label : option Label;
  notes : option string;
  hrv : option float;
  comparisons : list VerifyComparison.t
}.

(** [{ ...attempt, label, notes }] *)
Definition withLabelNotes (attempt : t) (label' : option Label) (notes' : option string) : t :=
  mk (id attempt) (participantId attempt) (alias attempt) (timestamp attempt)
     (score attempt) (threshold attempt) (passed attempt) label' notes'
     (hrv attempt) (comparisons attempt).
End VerifyAttempt.

Inductive TabId : Type := participants | enrollment | verification | analytics.

(** The part of the state of [App] that the verification handlers write. *)
Module AppState.
Record t : Type := mk {
  activeTab : TabId;
  latestVerify : option VerifyAttempt.t;
  attemptLogs : list VerifyAttempt.t
}.

Definition initial : t := mk participants None [].
End AppState.

(** The updater of [attemptLogs] in [verifyMutation.onSuccess]:
    [[attempt, ...prev].slice(0, 400)]. *)
Definition recordAttempt (attempt : VerifyAttempt.t) (prev : list VerifyAttempt.t)
  : list VerifyAttempt.t :=
  take 400 (attempt :: prev).

(** The updater of [attemptLogs] in [handleLabelUpdate]. *)
Definition relabel (attemptId : string) (label : Label) (notes : option string)
    (prev : list VerifyAttempt.t) : list VerifyAttempt.t :=
  map (fun attempt =>
         if String.eqb (VerifyAttempt.id attempt) attemptId
         then VerifyAttempt.withLabelNotes attempt (Some label) notes
         else attempt)
      prev.

Definition verifyMutation_onSuccess (attempt : VerifyAttempt.t) (st : AppState.t)
  : AppState.t :=
  {| AppState.latestVerify := Some attempt;
     AppState.attemptLogs := recordAttempt attempt (AppState.attemptLogs st);
     AppState.activeTab := verification |}.

Definition handleLabelUpdate (attemptId : string) (label : Label) (notes : option string)
    (st : AppState.t) : AppState.t :=
  {| AppState.activeTab := AppState.activeTab st;
     AppState.attemptLogs := relabel attemptId label notes (AppState.attemptLogs st);
     AppState.latestVerify :=
       match AppState.latestVerify st with
       | Some prev =>
           if String.eqb (VerifyAttempt.id prev) attemptId
           then Some (VerifyAttempt.withLabelNotes prev (Some label) notes)
           else Some prev
       | None => None
       end |}.

(** The events that write the ledger, and the states they lead to. *)
Inductive Event : Type :=
| VerifySucceeded (attempt : VerifyAttempt.t)
| LabelUpdated (attemptId : string) (label : Label) (notes : option string).

Definition step (st : AppState.t) (ev : Event) : AppState.t :=
  match ev with
  | VerifySucceeded attempt => verifyMutation_onSuccess attempt st
  | LabelUpdated attemptId label notes => handleLabelUpdate attemptId label notes st
  end.

Inductive reachable : AppState.t -> Prop :=
| reachable_initial : reachable AppState.initial
| reachable_step st ev : reachable st -> reachable (step st ev).

(** ** Analytics engine (components/AnalyticsTab.tsx) *)

Definition labelIs (l : Label) (attempt : VerifyAttempt.t) : bool :=
  match VerifyAttempt.label attempt with
  | Some l' => Label_eqb l' l
  | None => false
  end.

Definition genuineAttempts (attempts : list VerifyAttempt.t) : list VerifyAttempt.t :=
  List.filter (labelIs genuine) attempts.

Definition impostorAttempts (attempts : list VerifyAttempt.t) : list VerifyAttempt.t :=
  List.filter (labelIs impostor) attempts.

Definition far (attempts : list VerifyAttempt.t) : float :=
  let impostorAttempts := impostorAttempts attempts in
  if (JS.length impostorAttempts =? 0)%Z then 0
  else JS.ofZ (JS.length (List.filter VerifyAttempt.passed impostorAttempts))
       / JS.ofZ (JS.length impostorAttempts).

Definition frr (attempts : list VerifyAttempt.t) : float :=
  let genuineAttempts := genuineAttempts attempts in
  if (JS.length genuineAttempts =? 0)%Z then 0
  else JS.ofZ (JS.length (List.filter (fun attempt => negb (VerifyAttempt.passed attempt))
                                      genuineAttempts))
       / JS.ofZ (JS.length genuineAttempts).

Definition eer (attempts : list VerifyAttempt.t) : float :=
  (far attempts + frr attempts) / 2.

(** ** Continuous-monitor summary (components/ContinuousMonitor.tsx) *)

Module ContinuousVerifySample.
Record t : Type := mk {
  windowStartUtc : string;
  windowEndUtc : string;
  score : float;
  passes : bool
}.
End ContinuousVerifySample.

Module ContinuousVerifyResponse.
Record t : Type := mk {
  authenticated : bool;
  rollingMeanScore : float;
  rollingWorstScore : float;
  samples : list ContinuousVerifySample.t
}.
End ContinuousVerifyResponse.

Module Summary.
Record t : Type := mk {
  count : Z;
  passCount : Z;
  failCount : Z;
  passRate : float;
  windowRange : option string
}.
End Summary.

Section ContinuousMonitor.

(** [new Date(s).getTime()], which is NaN for a text that is not a date,
    and what [format] of date-fns prints with the pattern ['MMM d HH:mm']
    for the time of a valid date (it depends on the local time zone). *)
Variable Date_getTime : string -> float.
Variable formatTime : float -> string.

(** [format(new Date(s), 'MMM d HH:mm')]: date-fns throws a RangeError on
    an invalid date; [None] stands for the throw. *)
Definition formatDate (s : string) : option string :=
  let time := Date_getTime s in
  if PrimFloat.is_nan time then None else Some (formatTime time).

(** The memoized [summary]; [None] when computing it throws. *)
Definition summary (latestResult : option ContinuousVerifyResponse.t)
  : option Summary.t :=
  let samples :=
    match latestResult with
    | Some r => ContinuousVerifyResponse.samples r
    | None => []
    end in
  let count := JS.length samples in
  let passCount := JS.length (List.filter ContinuousVerifySample.passes samples) in
  let failCount := (count - passCount)%Z in
  let passRate := if (0 <? count)%Z then JS.ofZ passCount / JS.ofZ count else 0 in
  match head samples, last samples with
  | Some first, Some final =>
      match formatDate (ContinuousVerifySample.windowStartUtc first) with
      | None => None
      | Some startLabel =>
          match formatDate (ContinuousVerifySample.windowEndUtc final) with
          | None => None
          | Some endLabel =>
              Some {| Summary.count := count;
                      Summary.passCount := passCount;
                      Summary.failCount := failCount;
                      Summary.passRate := passRate;
                      Summary.windowRange :=
                        Some (startLabel ++ " - " ++ endLabel)%string |}
          end
      end
  | _, _ =>
      Some {| Summary.count := count;
              Summary.passCount := passCount;
              Summary.failCount := failCount;
              Summary.passRate := passRate;
              Summary.windowRange := None |}
  end.

End ContinuousMonitor.

(** ** Verification and continuous-verification adapters (api/client.ts) *)

Module VerifyApiResponse.
Record t : Type := mk {
  fitbitUserId : string;
  authenticated : bool;
  score : float;
  threshold : float;
  ecgStartTime : option string;
  hrvDailyRmssd : option float;
  comparisonScores : option (list float)
}.
End VerifyApiResponse.

(** [scores.map((probability, idx) => ...)], from index [idx] on. An index
    prints in decimal. *)
Fixpoint adaptVerifyComparisonsFrom (idx : nat) (scores : list float)
  : list VerifyComparison.t :=
  match scores with
  | [] => []
  | probability :: rest =>
      {| VerifyComparison.id := "baseline-" +:+ pretty (idx + 1)%nat;
         VerifyComparison.sessionLabel := "Session " +:+ pretty (idx + 1)%nat;
         VerifyComparison.timestampLabel := "Baseline #" +:+ pretty (idx + 1)%nat;
         VerifyComparison.probability := probability |}
      :: adaptVerifyComparisonsFrom (S idx) rest
  end.

Definition adaptVerifyComparisons (scores : list float) : list VerifyComparison.t :=
  adaptVerifyComparisonsFrom 0 scores.

(** [adaptVerifyResponse]; [id] is what [randomId()] returns and [now] what
    [new Date().toISOString()] returns at the call. *)
Definition adaptVerifyResponse (id now : string) (response : VerifyApiResponse.t)
  : VerifyAttempt.t :=
  let timestamp := default now (VerifyApiResponse.ecgStartTime response) in
  {| VerifyAttempt.id := id;
     VerifyAttempt.participantId := VerifyApiResponse.fitbitUserId response;
     VerifyAttempt.alias := None;
     VerifyAttempt.timestamp := timestamp;
     VerifyAttempt.score := VerifyApiResponse.score response;
     VerifyAttempt.threshold := VerifyApiResponse.threshold response;
     VerifyAttempt.passed := VerifyApiResponse.authenticated response;
     VerifyAttempt.label := None;
     VerifyAttempt.notes := None;
     VerifyAttempt.hrv := VerifyApiResponse.hrvDailyRmssd response;
     VerifyAttempt.comparisons :=
       adaptVerifyComparisons (default [] (VerifyApiResponse.comparisonScores response)) |}.

Module VerifyOptions.
Record t : Type := mk {
  threshold : float;
  label : option Label;
  notes : option string;
  alias : option string
}.
End VerifyOptions.

(** What [verifyAttempt] resolves to, given the response [data] of the
    backend. *)
Definition verifyAttempt (id now : string) (options : VerifyOptions.t)
    (data : VerifyApiResponse.t) : VerifyAttempt.t :=
  let attempt := adaptVerifyResponse id now data in
  {| VerifyAttempt.id := VerifyAttempt.id attempt;
     VerifyAttempt.participantId := VerifyAttempt.participantId attempt;
     VerifyAttempt.alias := VerifyOptions.alias options;
     VerifyAttempt.timestamp := VerifyAttempt.timestamp attempt;
     VerifyAttempt.score := VerifyAttempt.score attempt;
     VerifyAttempt.threshold := VerifyAttempt.threshold attempt;
     VerifyAttempt.passed := VerifyAttempt.passed attempt;
     VerifyAttempt.label := VerifyOptions.label options;
     VerifyAttempt.notes := VerifyOptions.notes options;
     VerifyAttempt.hrv := VerifyAttempt.hrv attempt;
     VerifyAttempt.comparisons := VerifyAttempt.comparisons attempt |}.

(** A sample on the wire: the adapter coerces its score and its flag. *)
Module ContinuousSampleApi.
Record t : Type := mk {
  windowStartUtc : string;
  windowEndUtc : string;
  score : JS.Value;
  passes : JS.Value
}.
End ContinuousSampleApi.

Module ContinuousVerifyApiResponse.
Record t : Type := mk {
  authenticated : JS.Value;
  rollingMeanScore : JS.Value;
  rollingWorstScore : JS.Value;
  samples : option (list ContinuousSampleApi.t)
}.
End ContinuousVerifyApiResponse.

Section ContinuousAdapter.

(** [new Date(s).getTime()] and [Array.prototype.sort] with a comparator. *)
Variable Date_getTime : string -> float.
Variable Array_sort :
  (ContinuousVerifySample.t -> ContinuousVerifySample.t -> float) ->
  list ContinuousVerifySample.t -> list ContinuousVerifySample.t.

Definition adaptContinuousSamples (samples : list ContinuousSampleApi.t)
  : list ContinuousVerifySample.t :=
  Array_sort
    (fun a b =>
       Date_getTime (ContinuousVerifySample.windowStartUtc a)
       - Date_getTime (ContinuousVerifySample.windowStartUtc b))
    (map (fun sample =>
            {| ContinuousVerifySample.windowStartUtc :=
                 ContinuousSampleApi.windowStartUtc sample;
               ContinuousVerifySample.windowEndUtc :=
                 ContinuousSampleApi.windowEndUtc sample;
               ContinuousVerifySample.score :=
                 coerceNumber (ContinuousSampleApi.score sample);
               ContinuousVerifySample.passes :=
                 JS.toBoolean (ContinuousSampleApi.passes sample) |})
         samples).

Definition adaptContinuousResponse (response : ContinuousVerifyApiResponse.t)
  : ContinuousVerifyResponse.t :=
  {| ContinuousVerifyResponse.authenticated :=
       JS.toBoolean (ContinuousVerifyApiResponse.authenticated response);
     ContinuousVerifyResponse.rollingMeanScore :=
       coerceNumber (ContinuousVerifyApiResponse.rollingMeanScore response);
     ContinuousVerifyResponse.rollingWorstScore :=
       coerceNumber (ContinuousVerifyApiResponse.rollingWorstScore response);
     ContinuousVerifyResponse.samples :=
       adaptContinuousSamples
         (default [] (ContinuousVerifyApiResponse.samples response)) |}.

End ContinuousAdapter.

(** ** Score meter (components/ScoreMeter.tsx) *)

Definition scorePercent (score : float) : float :=
  JS.Math_min [100; JS.Math_max [0; score * 100]].

Definition thresholdPercent (threshold : float) : float :=
  JS.Math_min [100; JS.Math_max [0; threshold * 100]].

Definition meterPass (score threshold : float) : bool := JS.geb score threshold.

(** ** Label distribution (components/AnalyticsTab.tsx) *)

Module DistributionRow.
Record t : Type := mk {
  label : string;
  pass : Z;
  fail : Z
}.
End DistributionRow.

Definition distributionData (attempts : list VerifyAttempt.t) : list DistributionRow.t :=
  let genuineAttempts := genuineAttempts attempts in
  let impostorAttempts := impostorAttempts attempts in
  [ {| DistributionRow.label := "Genuine";
       DistributionRow.pass :=
         JS.length (List.filter VerifyAttempt.passed genuineAttempts);
       DistributionRow.fail :=
         JS.length (List.filter (fun attempt => negb (VerifyAttempt.passed attempt))
                                genuineAttempts) |};
    {| DistributionRow.label := "Impostor";
       DistributionRow.pass :=
         JS.length (List.filter VerifyAttempt.passed impostorAttempts);
       DistributionRow.fail :=
         JS.length (List.filter (fun attempt => negb (VerifyAttempt.passed attempt))
                                impostorAttempts) |} ].

(** ** Verification panel (components/VerificationPanel.tsx) *)

Definition thresholds : list float := [0.6; 0.7; 0.8; 0.85; 0.9].

Definition sweepResults (latestResult : option VerifyAttempt.t) : list (float * bool) :=
  map (fun value =>
         (value, JS.geb (default 0 (VerifyAttempt.score <$> latestResult)) value))
      thresholds.

(** [latestResult?.comparisons.reduce(..., undefined)] *)
Definition bestComparison (latestResult : option VerifyAttempt.t)
  : option VerifyComparison.t :=
  match latestResult with
  | None => None
  | Some latestResult =>
      fold_left
        (fun prev current =>
           if JS.gtb (VerifyComparison.probability current)
                     (default 0 (VerifyComparison.probability <$> prev))
           then Some current else prev)
        (VerifyAttempt.comparisons latestResult) None
  end.

(** [notes.trim() || undefined] *)
Definition trimmedOrUndefined (notes : string) : option string :=
  let trimmed := JS.trim notes in
  if (0 <? String.length trimmed)%nat then Some trimmed else None.

(** The arguments that the panel's [handleVerify] passes to [onVerify]. *)
Definition panelHandleVerify (threshold : float) (impostorMode : bool) (notes : string)
  : float * option Label * option string :=
  (threshold, Some (if impostorMode then impostor else genuine), trimmedOrUndefined notes).

(** The panel's [handleLabelChange]: the arguments passed to
    [onLabelUpdate], if it is called. *)
Definition panelHandleLabelChange (latestResult : option VerifyAttempt.t)
    (notes : string) (label : Label) : option (string * Label * option string) :=
  match latestResult with
  | None => None
  | Some latestResult =>
      Some (VerifyAttempt.id latestResult, label, trimmedOrUndefined notes)
  end.

(** ** Continuous monitor controls (components/ContinuousMonitor.tsx) *)

Module ContinuousVerifyOptions.
Record t : Type := mk {
  threshold : float;
  windowMinutes : float;
  strideMinutes : float
}.
End ContinuousVerifyOptions.

(** The state of the component. *)
Module MonitorState.
Record t : Type := mk {
  threshold : float;
  windowMinutes : float;
  strideMinutes : float;
  lastRun : option ContinuousVerifyOptions.t
}.

Definition initial : t := mk 0.85 15 5 None.
End MonitorState.

(** The handlers of the controls; an input event carries the text of the
    control. *)
Inductive MonitorEvent : Type :=
| ThresholdChanged (value : string)
| WindowMinutesChanged (value : string)
| StrideMinutesChanged (value : string)
| RunClicked.

Definition handleRun (st : MonitorState.t) : MonitorState.t * ContinuousVerifyOptions.t :=
  let payload :=
    {| ContinuousVerifyOptions.threshold := MonitorState.threshold st;
       ContinuousVerifyOptions.windowMinutes := MonitorState.windowMinutes st;
       ContinuousVerifyOptions.strideMinutes := MonitorState.strideMinutes st |} in
  ({| MonitorState.threshold := MonitorState.threshold st;
      MonitorState.windowMinutes := MonitorState.windowMinutes st;
      MonitorState.strideMinutes := MonitorState.strideMinutes st;
      MonitorState.lastRun := Some payload |},
   payload).

Definition monitorStep (st : MonitorState.t) (ev : MonitorEvent) : MonitorState.t :=
  match ev with
  | ThresholdChanged value =>
      {| MonitorState.threshold := JS.StringToNumber value;
         MonitorState.windowMinutes := MonitorState.windowMinutes st;
         MonitorState.strideMinutes := MonitorState.strideMinutes st;
         MonitorState.lastRun := MonitorState.lastRun st |}
  | WindowMinutesChanged value =>
      {| MonitorState.threshold := MonitorState.threshold st;
         MonitorState.windowMinutes := JS.StringToNumber value;
         MonitorState.strideMinutes := MonitorState.strideMinutes st;
         MonitorState.lastRun := MonitorState.lastRun st |}
  | StrideMinutesChanged value =>
      {| MonitorState.threshold := MonitorState.threshold st;
         MonitorState.windowMinutes := MonitorState.windowMinutes st;
         MonitorState.strideMinutes := JS.StringToNumber value;
         MonitorState.lastRun := MonitorState.lastRun st |}
  | RunClicked => fst (handleRun st)
  end.

Definition appliedThreshold (st : MonitorState.t) : float :=
  default (MonitorState.threshold st)
          (ContinuousVerifyOptions.threshold <$> MonitorState.lastRun st).

(** ** Capture payload (components/EnrollmentWizard.tsx) *)

Module SessionCapturePayload.
Record t : Type := mk {
  metadata : option SessionMetadata.t;
  tags : option (list string);
  notes : option string
}.
End SessionCapturePayload.

(** [draft?.trim() || undefined] *)
Definition trimmedField (draft : option string) : option string :=
  match draft with
  | None => None
  | Some text => trimmedOrUndefined text
  end.

Definition buildCapturePayload (metadataDraft : SessionMetadata.t)
    (tagsInput notes : string) : SessionCapturePayload.t :=
  let trimmedMetadata :=
    {| SessionMetadata.activityLabel :=
         trimmedField (SessionMetadata.activityLabel metadataDraft);
       SessionMetadata.stressLevel :=
         trimmedField (SessionMetadata.stressLevel metadataDraft);
       SessionMetadata.sensorPlacement :=
         trimmedField (SessionMetadata.sensorPlacement metadataDraft);
       SessionMetadata.deviceModel :=
         trimmedField (SessionMetadata.deviceModel metadataDraft) |} in
  let hasMetadata :=
    existsb stringTruthy
      [SessionMetadata.activityLabel trimmedMetadata;
       SessionMetadata.stressLevel trimmedMetadata;
       SessionMetadata.sensorPlacement trimmedMetadata;
       SessionMetadata.deviceModel trimmedMetadata] in
  let tags :=
    List.filter (fun tag => (0 <? String.length tag)%nat)
                (map JS.trim (JS.split "," tagsInput)) in
  let trimmedNotes := JS.trim notes in
  {| SessionCapturePayload.metadata := if hasMetadata then Some trimmedMetadata else None;
     SessionCapturePayload.tags :=
       if (0 <? JS.length tags)%Z then Some tags else None;
     SessionCapturePayload.notes :=
       if (0 <? String.length trimmedNotes)%nat then Some trimmedNotes else None |}.

(** [handleVerify] of [App]: the options handed to [verifyMutation.mutate];
    the alias is that of the selected participant, or else its identity. *)
Definition appHandleVerify (selectedParticipant : option Participant.t)
    (threshold : float) (label : option Label) (notes : option string)
  : VerifyOptions.t :=
  {| VerifyOptions.threshold := threshold;
     VerifyOptions.label := label;
     VerifyOptions.notes := notes;
     VerifyOptions.alias :=
       match selectedParticipant with
       | Some participant =>
           match Participant.alias participant with
           | Some alias => Some alias
           | None => Some (Participant.id participant)
           end
       | None => None
       end |}.

(** ** Definitions used to state the further properties *)

(** The number of sessions of a list that carry a given identity. *)
Definition sessionsOf (id : string) (sessions : list EcgSessionRecord) : nat :=
  List.length (List.filter (String.eqb id) (identities sessions)).

(** A non-empty start time of a session of a given participant. *)
Definition startTimeOf (id : string) (sessions : list EcgSessionRecord) (time : string)
  : Prop :=
  exists session,
    In session sessions
    /\ identityOf session = Some id
    /\ CollectSessionResponse.ecgStartTime session = Some time
    /\ time <> EmptyString.

(** A text without white space at either end. *)
Definition isTrimmed (s : string) : Prop := JS.trim s = s.

(** A list without its longest suffix of elements that satisfy [p]. *)
Definition trimEnd {A} (p : A -> bool) (l : list A) : list A :=
  rev (JS.dropWhile p (rev l)).

(** A text that is not empty and has no white space at either end. *)
Definition isClean (s : string) : Prop := s <> EmptyString /\ isTrimmed s.

(** An optional text that is either absent or clean. *)
Definition isCleanOrAbsent (v : option string) : Prop :=
  match v with
  | Some s => isClean s
  | None => True
  end.

(** ** Payloads used to state the claims *)

(** The camelCase names of the feature fields that [normalizeFeatures]
    reads. *)
Definition featureFields : list string :=
  ["estimatedBpm"; "peakCount"; "mean"; "std"; "rms"; "min"; "max"; "skewness";
   "kurtosis"; "rrMeanMs"; "rrStdMs"; "qrsWidthMs"; "lowFreqPowerRatio";
   "midFreqPowerRatio"; "highFreqPowerRatio"; "veryLowFreqPowerRatio";
   "spectralCentroidHz"; "spectralEntropy"; "motionArtifactIndex";
   "baselineDriftRatio"; "signalQualityScore"; "hrvDailyRmssd"]%string.

(** The PascalCase spelling of a camelCase name: its first letter in upper
    case. *)
Definition pascalCase (name : string) : string :=
  match name with
  | EmptyString => EmptyString
  | String.String c rest =>
      let n := N_of_ascii c in
      String.String (if (97 <=? n)%N && (n <=? 122)%N then ascii_of_N (n - 32) else c) rest
  end.

(** The payload that carries the assignment [values] (indexed by camelCase
    name) under camelCase keys, and the one that carries it under
    PascalCase keys. *)
Definition camelPayload (values : string -> JS.Value) : gmap string JS.Value :=
  list_to_map (map (fun name => (name, values name)) featureFields).

Definition pascalPayload (values : string -> JS.Value) : gmap string JS.Value :=
  list_to_map (map (fun name => (pascalCase name, values name)) featureFields).

(** What the backend supplied for a field, under either spelling. *)
Definition supplied (payload : gmap string JS.Value) (name : string) : JS.Value :=
  payload.[pascalCase name] ?? payload.[name].

Definition isAbsent (v : JS.Value) : Prop := v = JS.VUndefined \/ v = JS.VNull.

(** A value that is neither a number nor a string: a boolean, an object or
    an array, or nothing at all. *)
Definition notNumberNorString (v : JS.Value) : Prop :=
  match v with
  | JS.VNumber _ | JS.VString _ => False
  | _ => True
  end.

(** The numeric field of a feature set that carries a given camelCase
    name. *)
Definition numericField (name : string) (f : EcgFeatureSet.t) : option float :=
  if String.eqb name "estimatedBpm" then Some (EcgFeatureSet.estimatedBpm f)
  else if String.eqb name "peakCount" then Some (EcgFeatureSet.peakCount f)
  else if String.eqb name "mean" then Some (EcgFeatureSet.mean f)
  else if String.eqb name "std" then Some (EcgFeatureSet.std f)
  else if String.eqb name "rms" then Some (EcgFeatureSet.rms f)
  else if String.eqb name "min" then Some (EcgFeatureSet.min f)
  else if String.eqb name "max" then Some (EcgFeatureSet.max f)
  else if String.eqb name "skewness" then Some (EcgFeatureSet.skewness f)
  else if String.eqb name "kurtosis" then Some (EcgFeatureSet.kurtosis f)
  else if String.eqb name "rrMeanMs" then Some (EcgFeatureSet.rrMeanMs f)
  else if String.eqb name "rrStdMs" then Some (EcgFeatureSet.rrStdMs f)
  else if String.eqb name "qrsWidthMs" then Some (EcgFeatureSet.qrsWidthMs f)
  else if String.eqb name "lowFreqPowerRatio" then Some (EcgFeatureSet.lowFreqPowerRatio f)
  else if String.eqb name "midFreqPowerRatio" then Some (EcgFeatureSet.midFreqPowerRatio f)
  else if String.eqb name "highFreqPowerRatio" then Some (EcgFeatureSet.highFreqPowerRatio f)
  else if String.eqb name "veryLowFreqPowerRatio"
       then Some (EcgFeatureSet.veryLowFreqPowerRatio f)
  else if String.eqb name "spectralCentroidHz" then Some (EcgFeatureSet.spectralCentroidHz f)
  else if String.eqb name "spectralEntropy" then Some (EcgFeatureSet.spectralEntropy f)
  else if String.eqb name "motionArtifactIndex"
       then Some (EcgFeatureSet.motionArtifactIndex f)
  else if String.eqb name "baselineDriftRatio" then Some (EcgFeatureSet.baselineDriftRatio f)
  else if String.eqb name "signalQualityScore" then Some (EcgFeatureSet.signalQualityScore f)
  else if String.eqb name "hrvDailyRmssd" then Some (EcgFeatureSet.hrvDailyRmssd f)
  else None.

(** The three quality fields that [adaptCollectResponse] reads at the top
    level of the response and, failing that, in the feature set. *)
Inductive QualityField : Type :=
  QSignalQualityScore | QMotionArtifactIndex | QBaselineDriftRatio.

Definition topLevel (q : QualityField) (data : CollectSessionApiResponse.t) : JS.Value :=
  match q with
  | QSignalQualityScore => CollectSessionApiResponse.signalQualityScore data
  | QMotionArtifactIndex => CollectSessionApiResponse.motionArtifactIndex data
  | QBaselineDriftRatio => CollectSessionApiResponse.baselineDriftRatio data
  end.

Definition ofRecord (q : QualityField) (r : CollectSessionResponse.t) : float :=
  match q with
  | QSignalQualityScore => CollectSessionResponse.signalQualityScore r
  | QMotionArtifactIndex => CollectSessionResponse.motionArtifactIndex r
  | QBaselineDriftRatio => CollectSessionResponse.baselineDriftRatio r
  end.

Definition ofFeatures (q : QualityField) (f : EcgFeatureSet.t) : float :=
  match q with
  | QSignalQualityScore => EcgFeatureSet.signalQualityScore f
  | QMotionArtifactIndex => EcgFeatureSet.motionArtifactIndex f
  | QBaselineDriftRatio => EcgFeatureSet.baselineDriftRatio f
  end.

(** Counting, as the specification words it: the number of elements of a
    list that satisfy a condition. *)
Fixpoint countWhere {A} (p : A -> bool) (l : list A) : Z :=
  match l with
  | [] => 0
  | x :: r => (if p x then 1 else 0) + countWhere p r
  end%Z.

(** Two attempts that agree on every field other than label and notes. *)
Definition sameButLabelNotes (a b : VerifyAttempt.t) : Prop :=
  VerifyAttempt.id a = VerifyAttempt.id b
  /\ VerifyAttempt.participantId a = VerifyAttempt.participantId b
  /\ VerifyAttempt.alias a = VerifyAttempt.alias b
  /\ VerifyAttempt.timestamp a = VerifyAttempt.timestamp b
  /\ VerifyAttempt.score a = VerifyAttempt.score b
  /\ VerifyAttempt.threshold a = VerifyAttempt.threshold b
  /\ VerifyAttempt.passed a = VerifyAttempt.passed b
  /\ VerifyAttempt.hrv a = VerifyAttempt.hrv b
  /\ VerifyAttempt.comparisons a = VerifyAttempt.comparisons b.

(** The ledger after a run of events from the initial state. *)
Definition run (evs : list Event) : AppState.t := fold_left step evs AppState.initial.

(** Test data: the [n]-th attempt of a session, and a run of [n] successful
    verifications (attempt 1 first, so attempt [n] is the newest). *)
Definition sampleAttempt (n : nat) : VerifyAttempt.t :=
  {| VerifyAttempt.id := "attempt-" +:+ pretty n;
     VerifyAttempt.participantId := "P1";
     VerifyAttempt.alias := None;
     VerifyAttempt.timestamp := "2024-01-01T00:00:00Z";
     VerifyAttempt.score := 0.9;
     VerifyAttempt.threshold := 0.85;
     VerifyAttempt.passed := true;
     VerifyAttempt.label := None;
     VerifyAttempt.notes := None;
     VerifyAttempt.hrv := None;
     VerifyAttempt.comparisons := [] |}.

Definition sampleRun (n : nat) : list Event :=
  map (fun i => VerifySucceeded (sampleAttempt i)) (seq 1 n).

Definition labelled (l : option Label) (passed : bool) : VerifyAttempt.t :=
  {| VerifyAttempt.id := "a";
     VerifyAttempt.participantId := "P1";
     VerifyAttempt.alias := None;
     VerifyAttempt.timestamp := "2024-01-01T00:00:00Z";
     VerifyAttempt.score := 0.5;
     VerifyAttempt.threshold := 0.85;
     VerifyAttempt.passed := passed;
     VerifyAttempt.label := l;
     VerifyAttempt.notes := None;
     VerifyAttempt.hrv := None;
     VerifyAttempt.comparisons := [] |}.

Definition isLabelled (attempt : VerifyAttempt.t) : bool :=
  match VerifyAttempt.label attempt with
  | Some _ => true
  | None => false
  end.

Definition sampleWindow (passes : bool) : ContinuousVerifySample.t :=
  {| ContinuousVerifySample.windowStartUtc := "2024-01-01T00:00:00Z";
     ContinuousVerifySample.windowEndUtc := "2024-01-01T00:15:00Z";
     ContinuousVerifySample.score := 0.9;
     ContinuousVerifySample.passes := passes |}.

(** Test data: a session of a participant, with its start time. *)
Definition sampleSession (fitbitUserId ecgStartTime : option string) : EcgSessionRecord :=
  adaptCollectResponse
    {| CollectSessionApiResponse.documentId := "doc";
       CollectSessionApiResponse.fitbitUserId := fitbitUserId;
       CollectSessionApiResponse.ecgStartTime := ecgStartTime;
       CollectSessionApiResponse.hrvDailyRmssd := None;
       CollectSessionApiResponse.features := None;
       CollectSessionApiResponse.metadata := None;
       CollectSessionApiResponse.waveformPreview := None;
       CollectSessionApiResponse.signalQualityScore := JS.VUndefined;
       CollectSessionApiResponse.motionArtifactIndex := JS.VNumber 0.25;
       CollectSessionApiResponse.baselineDriftRatio := JS.VString "oops";
       CollectSessionApiResponse.samplingHz := JS.VNumber 250;
       CollectSessionApiResponse.scalingFactor := JS.VUndefined;
       CollectSessionApiResponse.tags := Some [Some " rest "; None; Some "  "];
       CollectSessionApiResponse.notes := Some "  " |}.

(** The samples that a summary is computed from. *)
Definition samplesOf (latestResult : option ContinuousVerifyResponse.t)
  : list ContinuousVerifySample.t :=
  match latestResult with
  | Some r => ContinuousVerifyResponse.samples r
  | None => []
  end.

(** The two dates that the window range prints are valid: the start of the
    first window and the end of the last one. *)
Definition windowDatesValid (Date_getTime : string -> float)
    (samples : list ContinuousVerifySample.t) : Prop :=
  forall first final,
    head samples = Some first -> last samples = Some final ->
    PrimFloat.is_nan (Date_getTime (ContinuousVerifySample.windowStartUtc first)) = false
    /\ PrimFloat.is_nan (Date_getTime (ContinuousVerifySample.windowEndUtc final)) = false.

(** A clock and a date format for the examples. The clock reads
    the digits of a date-time text as one number, which orders the texts of
    one format as their dates, and takes a text without digits for an
    invalid date. *)
Definition sampleClock (s : string) : float :=
  match List.filter (JS.isDigitIn 10) (list_ascii_of_string s) with
  | [] => PrimFloat.nan
  | ds => JS.ofZ (JS.digitsValue 10 ds)
  end.

Definition sampleFormat (time : float) : string := "<date>".

(** A window whose start is not a date. *)
Definition brokenWindow : ContinuousVerifySample.t :=
  {| ContinuousVerifySample.windowStartUtc := "not a date";
     ContinuousVerifySample.windowEndUtc := "2024-01-01T00:15:00Z";
     ContinuousVerifySample.score := 0.9;
     ContinuousVerifySample.passes := true |}.

(** * Properties *)

(** ** Numbers and strings *)

Example StringToNumber_examples :
  JS.StringToNumber "0.35" = 0.35
  /\ JS.StringToNumber " 12.5e-1 " = 1.25
  /\ JS.StringToNumber "-.5e1" = -5
  /\ JS.StringToNumber "0x1F" = 31
  /\ JS.StringToNumber "" = 0
  /\ JS.StringToNumber "1e400" = PrimFloat.infinity
  /\ JS.StringToNumber "9007199254740993" = 9007199254740992
  /\ JS.StringToNumber "abc" = PrimFloat.nan
  /\ JS.StringToNumber "1 2" = PrimFloat.nan
  /\ JS.StringToNumber "." = PrimFloat.nan.
Proof. vm_compute. repeat split; reflexivity. Qed.

Example Math_examples :
  JS.Math_max [0; 1 - 0.25] = 0.75
  /\ JS.Math_max [0; 1 - 1.5] = 0
  /\ JS.Math_max [-0; 0] = 0
  /\ JS.Math_max [0; PrimFloat.nan] = PrimFloat.nan
  /\ JS.Math_min [1; 24 / 12] = 1
  /\ JS.ofZ 3 = 3
  /\ JS.trim "  a b  " = "a b"%string.
Proof. vm_compute. repeat split; reflexivity. Qed.

(** A number equal to zero is not greater than zero. *)
Lemma eqb_zero_not_gtb x : (x =? 0) = true -> JS.gtb x 0 = false.
Proof.
  unfold JS.gtb. rewrite FloatAxioms.eqb_spec, FloatAxioms.ltb_spec.
  change (Prim2SF 0) with (S754_zero false).
  destruct (Prim2SF x) as [sx | sx | | sx m e]; simpl;
    try destruct sx; simpl; try discriminate; reflexivity.
Qed.


(** ** Session normalizer *)

Lemma evaluateSignalQuality_good_first features :
  JS.geb (default 0 (PartialEcgFeatureSet.signalQualityScore features)) 0.75 = true ->
  (default 0 (PartialEcgFeatureSet.motionArtifactIndex features) <=? 0.35) = true ->
  evaluateSignalQuality features = good.
Proof.
  intros Hs Hm. unfold evaluateSignalQuality. rewrite Hs, Hm. reflexivity.
Qed.

Lemma normalizeFeatures_signalQuality payload hrv :
  EcgFeatureSet.signalQuality (normalizeFeatures payload hrv) =
  evaluateSignalQuality
    {| PartialEcgFeatureSet.peakCount :=
         Some (EcgFeatureSet.peakCount (normalizeFeatures payload hrv));
       PartialEcgFeatureSet.std :=
         Some (EcgFeatureSet.std (normalizeFeatures payload hrv));
       PartialEcgFeatureSet.estimatedBpm :=
         Some (EcgFeatureSet.estimatedBpm (normalizeFeatures payload hrv));
       PartialEcgFeatureSet.signalQualityScore :=
         Some (EcgFeatureSet.signalQualityScore (normalizeFeatures payload hrv));
       PartialEcgFeatureSet.motionArtifactIndex :=
         Some (EcgFeatureSet.motionArtifactIndex (normalizeFeatures payload hrv)) |}.
Proof. reflexivity. Qed.

Lemma normalizeFeatures_motionArtifactIndex payload hrv :
  EcgFeatureSet.motionArtifactIndex (normalizeFeatures payload hrv) =
  coerceNumber (supplied payload "motionArtifactIndex").
Proof. reflexivity. Qed.

Lemma normalizeFeatures_signalQualityScore payload hrv :
  EcgFeatureSet.signalQualityScore (normalizeFeatures payload hrv) =
  let raw := coerceNumber (supplied payload "signalQualityScore") in
  if JS.gtb raw 0 then raw
  else JS.Math_max
         [0; 1 - EcgFeatureSet.motionArtifactIndex (normalizeFeatures payload hrv)].
Proof. reflexivity. Qed.

(** C2: whenever the normalized signalQualityScore (after the derivation
    fallback) is at least 0.75 and the normalized motionArtifactIndex is at
    most 0.35, the normalized signalQuality is good, whatever the other
    fields are: the first branch of the policy wins. *)
Theorem normalize_good_branch_first payload hrv :
  JS.geb (EcgFeatureSet.signalQualityScore (normalizeFeatures payload hrv)) 0.75 = true ->
  (EcgFeatureSet.motionArtifactIndex (normalizeFeatures payload hrv) <=? 0.35) = true ->
  EcgFeatureSet.signalQuality (normalizeFeatures payload hrv) = good.
Proof.
  intros Hs Hm. rewrite normalizeFeatures_signalQuality.
  apply evaluateSignalQuality_good_first; assumption.
Qed.

(** A payload on which every later branch of the policy would say poor
    (no peaks, no deviation, no heart rate). *)
Lemma normalize_good_branch_first_witness :
  let payload : gmap string JS.Value :=
    <["SignalQualityScore" := JS.VNumber 0.9]>
      (<["motionArtifactIndex" := JS.VString "0.1"]>
         (<["PeakCount" := JS.VNumber 0]> ∅)) in
  EcgFeatureSet.signalQuality (normalizeFeatures payload None) = good
  /\ evaluateSignalQuality
       {| PartialEcgFeatureSet.peakCount := Some 0;
          PartialEcgFeatureSet.std := Some 0;
          PartialEcgFeatureSet.estimatedBpm := Some 0;
          PartialEcgFeatureSet.signalQualityScore := Some 0;
          PartialEcgFeatureSet.motionArtifactIndex := Some 0.1 |} = poor.
Proof.
  split.
  - apply normalize_good_branch_first; vm_compute; reflexivity.
  - vm_compute; reflexivity.
Defined.

(** C3: when the backend supplies no signalQualityScore under either
    spelling, or supplies one that reads as zero, the normalized score is
    max(0, 1 - m), where m is the reading of the motionArtifactIndex that
    the payload supplies, which is also the normalized motionArtifactIndex;
    the classification is applied to that derived score; and when
    motionArtifactIndex is absent (or the number 0) as well, the score is 1
    and the signal quality is good. *)
Theorem normalize_score_fallback payload hrv :
  isAbsent (supplied payload "signalQualityScore")
  \/ (coerceNumber (supplied payload "signalQualityScore") =? 0) = true ->
  let index := coerceNumber (supplied payload "motionArtifactIndex") in
  let derived := JS.Math_max [0; 1 - index] in
  EcgFeatureSet.motionArtifactIndex (normalizeFeatures payload hrv) = index
  /\ EcgFeatureSet.signalQualityScore (normalizeFeatures payload hrv) = derived
  /\ EcgFeatureSet.signalQuality (normalizeFeatures payload hrv)
     = evaluateSignalQuality
         {| PartialEcgFeatureSet.peakCount :=
              Some (coerceNumber (supplied payload "peakCount"));
            PartialEcgFeatureSet.std := Some (coerceNumber (supplied payload "std"));
            PartialEcgFeatureSet.estimatedBpm :=
              Some (coerceNumber (supplied payload "estimatedBpm"));
            PartialEcgFeatureSet.signalQualityScore := Some derived;
            PartialEcgFeatureSet.motionArtifactIndex := Some index |}
  /\ (isAbsent (supplied payload "motionArtifactIndex")
      \/ supplied payload "motionArtifactIndex" = JS.VNumber 0 ->
      EcgFeatureSet.signalQualityScore (normalizeFeatures payload hrv) = 1
      /\ EcgFeatureSet.signalQuality (normalizeFeatures payload hrv) = good).
Proof.
  intros Hraw index derived.
  assert (Hindex : EcgFeatureSet.motionArtifactIndex (normalizeFeatures payload hrv) = index)
    by apply normalizeFeatures_motionArtifactIndex.
  assert (Hscore : EcgFeatureSet.signalQualityScore (normalizeFeatures payload hrv) = derived).
  { rewrite normalizeFeatures_signalQualityScore. cbv zeta. rewrite Hindex.
    destruct Hraw as [[-> | ->] | Hzero]; [reflexivity | reflexivity |].
    rewrite (eqb_zero_not_gtb _ Hzero). reflexivity. }
  split; [exact Hindex |]. split; [exact Hscore |]. split.
  { rewrite normalizeFeatures_signalQuality, Hscore, Hindex. reflexivity. }
  intros Hmai.
  assert (Hm : index = 0).
  { subst index. destruct Hmai as [[-> | ->] | ->]; reflexivity. }
  assert (Hone : EcgFeatureSet.signalQualityScore (normalizeFeatures payload hrv) = 1).
  { rewrite Hscore. subst derived. rewrite Hm. reflexivity. }
  split; [exact Hone |].
  rewrite normalizeFeatures_signalQuality.
  apply evaluateSignalQuality_good_first.
  - rewrite Hone. reflexivity.
  - rewrite Hindex, Hm. reflexivity.
Qed.

(** The score is supplied as the number 0: with nothing else supplied the
    derived score is 1 and the quality good; with an artifact index of 0.9
    the derived score is 1 - 0.9 and the later branches say poor. *)
Lemma normalize_score_fallback_witness :
  let payload : gmap string JS.Value :=
    <["SignalQualityScore" := JS.VNull]>
      (<["signalQualityScore" := JS.VNumber 0]> (<["PeakCount" := JS.VNumber 3]> ∅)) in
  let shaky : gmap string JS.Value :=
    <["signalQualityScore" := JS.VNumber 0]>
      (<["MotionArtifactIndex" := JS.VNumber 0.9]> ∅) in
  (EcgFeatureSet.signalQualityScore (normalizeFeatures payload None) = 1
   /\ EcgFeatureSet.signalQuality (normalizeFeatures payload None) = good)
  /\ EcgFeatureSet.motionArtifactIndex (normalizeFeatures shaky None) = 0.9
  /\ EcgFeatureSet.signalQualityScore (normalizeFeatures shaky None) = 1 - 0.9
  /\ EcgFeatureSet.signalQuality (normalizeFeatures shaky None) = poor.
Proof.
  intros payload shaky. split.
  - apply (normalize_score_fallback payload None).
    + right. vm_compute. reflexivity.
    + left. left. vm_compute. reflexivity.
  - destruct (normalize_score_fallback shaky None) as (Hindex & Hscore & Hquality & _).
    + right. vm_compute. reflexivity.
    + split; [rewrite Hindex; vm_compute; reflexivity |].
      split; [rewrite Hscore; vm_compute; reflexivity |].
      rewrite Hquality. vm_compute. reflexivity.
Defined.

(** A payload with numeric strings, no score and a high artifact index: the
    derived score is low and the later branches decide. *)
Example normalize_example :
  let payload : gmap string JS.Value :=
    <["Std" := JS.VString "0.1"]>
      (<["peakCount" := JS.VNumber 30]>
         (<["EstimatedBpm" := JS.VString " 70 "]>
            (<["MotionArtifactIndex" := JS.VNumber 0.75]> ∅))) in
  let f := normalizeFeatures payload (Some 41.5) in
  EcgFeatureSet.std f = 0.1
  /\ EcgFeatureSet.estimatedBpm f = 70
  /\ EcgFeatureSet.signalQualityScore f = 0.25
  /\ EcgFeatureSet.hrvDailyRmssd f = 41.5
  /\ EcgFeatureSet.mean f = 0
  /\ EcgFeatureSet.signalQuality f = good.
Proof. vm_compute. repeat split; reflexivity. Qed.

(** *** The two spellings of a key *)

Lemma coerceNumber_nullish_undefined v :
  coerceNumber (v ?? JS.VUndefined) = coerceNumber v.
Proof. destruct v; reflexivity. Qed.

Ltac each_feature_field H :=
  unfold featureFields in H; simpl in H;
  repeat (destruct H as [<- | H]; [vm_compute; auto |]);
  try contradiction.

Lemma pascalPayload_lookup values name :
  In name featureFields ->
  (pascalPayload values).[pascalCase name] = values name
  /\ (pascalPayload values).[name] = JS.VUndefined.
Proof. intros H. each_feature_field H. Qed.

Lemma camelPayload_lookup values name :
  In name featureFields ->
  (camelPayload values).[pascalCase name] = JS.VUndefined
  /\ (camelPayload values).[name] = values name.
Proof. intros H. each_feature_field H. Qed.

Lemma supplied_pascalPayload values name :
  In name featureFields ->
  coerceNumber (supplied (pascalPayload values) name) = coerceNumber (values name).
Proof.
  intros H. unfold supplied.
  destruct (pascalPayload_lookup values name H) as [-> ->].
  apply coerceNumber_nullish_undefined.
Qed.

Lemma supplied_camelPayload values name :
  In name featureFields ->
  coerceNumber (supplied (camelPayload values) name) = coerceNumber (values name).
Proof.
  intros H. unfold supplied.
  destruct (camelPayload_lookup values name H) as [-> ->].
  reflexivity.
Qed.

(** [normalizeFeatures] looks at its payload through [supplied] only. *)
Ltac rewrite_field H name :=
  let E := fresh "E" in
  assert (E := H name ltac:(unfold featureFields; simpl; tauto));
  let P := eval vm_compute in (pascalCase name) in
  change (supplied ?p name) with (JS.nullish (JS.get p P) (JS.get p name)) in E;
  rewrite E; clear E.

Lemma normalizeFeatures_ext p q hrv :
  (forall name, In name featureFields ->
                coerceNumber (supplied p name) = coerceNumber (supplied q name)) ->
  normalizeFeatures p hrv = normalizeFeatures q hrv.
Proof.
  intros H. cbv beta zeta delta [normalizeFeatures].
  rewrite_field H "estimatedBpm"%string.
  rewrite_field H "peakCount"%string.
  rewrite_field H "mean"%string.
  rewrite_field H "std"%string.
  rewrite_field H "rms"%string.
  rewrite_field H "min"%string.
  rewrite_field H "max"%string.
  rewrite_field H "skewness"%string.
  rewrite_field H "kurtosis"%string.
  rewrite_field H "rrMeanMs"%string.
  rewrite_field H "rrStdMs"%string.
  rewrite_field H "qrsWidthMs"%string.
  rewrite_field H "lowFreqPowerRatio"%string.
  rewrite_field H "midFreqPowerRatio"%string.
  rewrite_field H "highFreqPowerRatio"%string.
  rewrite_field H "veryLowFreqPowerRatio"%string.
  rewrite_field H "spectralCentroidHz"%string.
  rewrite_field H "spectralEntropy"%string.
  rewrite_field H "motionArtifactIndex"%string.
  rewrite_field H "baselineDriftRatio"%string.
  rewrite_field H "signalQualityScore"%string.
  rewrite_field H "hrvDailyRmssd"%string.
  reflexivity.
Qed.

(** C4: for every assignment of values to the feature fields, the payload
    that carries it under PascalCase keys and the payload that carries it
    under camelCase keys normalize to the same feature set, derived score
    and signal quality included. *)
Theorem normalize_pascal_camel values hrv :
  normalizeFeatures (pascalPayload values) hrv
  = normalizeFeatures (camelPayload values) hrv.
Proof.
  apply normalizeFeatures_ext. intros name H.
  rewrite supplied_pascalPayload, supplied_camelPayload by assumption.
  reflexivity.
Qed.

(** An assignment with a number, a numeric string and a null, under either
    spelling. *)
Example normalize_pascal_camel_example :
  let values (name : string) :=
    if String.eqb name "mean" then JS.VNumber 1.5
    else if String.eqb name "peakCount" then JS.VString "12"
    else if String.eqb name "std" then JS.VNull
    else JS.VUndefined in
  let f := normalizeFeatures (pascalPayload values) None in
  pascalPayload values !! "Mean"%string = Some (JS.VNumber 1.5)
  /\ camelPayload values !! "Mean"%string = None
  /\ camelPayload values !! "mean"%string = Some (JS.VNumber 1.5)
  /\ EcgFeatureSet.mean f = 1.5
  /\ EcgFeatureSet.peakCount f = 12
  /\ EcgFeatureSet.std f = 0
  /\ EcgFeatureSet.signalQuality f = good.
Proof. vm_compute. repeat split; reflexivity. Qed.

(** *** Malformed values *)

Lemma coerceNumber_not_number_nor_string v :
  notNumberNorString v -> coerceNumber v = 0.
Proof. destruct v; simpl; intros H; try reflexivity; contradiction. Qed.

(** A numeric field of the normalized feature set is the reading of what
    the payload supplies for it; for hrvDailyRmssd the top-level [hrv]
    comes first. *)
Lemma numericField_normalizeFeatures payload hrv name :
  In name featureFields ->
  name <> "signalQualityScore"%string ->
  numericField name (normalizeFeatures payload hrv)
  = Some (if String.eqb name "hrvDailyRmssd"
          then default (coerceNumber (supplied payload name)) hrv
          else coerceNumber (supplied payload name)).
Proof.
  intros H Hne. unfold featureFields in H; simpl in H.
  repeat (destruct H as [<- | H]; [first [reflexivity | contradiction Hne; reflexivity] |]).
  contradiction.
Qed.

Lemma numericField_supplied_hrv payload hrv name :
  In name featureFields ->
  name <> "signalQualityScore"%string ->
  (name = "hrvDailyRmssd"%string -> hrv = None) ->
  numericField name (normalizeFeatures payload hrv)
  = Some (coerceNumber (supplied payload name)).
Proof.
  intros H Hne Hhrv. rewrite numericField_normalizeFeatures by assumption.
  destruct (String.eqb name "hrvDailyRmssd") eqn:E; [| reflexivity].
  apply String.eqb_eq in E. rewrite (Hhrv E). reflexivity.
Qed.

Lemma numericField_supplied payload name :
  In name featureFields ->
  name <> "signalQualityScore"%string ->
  numericField name (normalizeFeatures payload None)
  = Some (coerceNumber (supplied payload name)).
Proof. intros H Hne. apply numericField_supplied_hrv; auto. Qed.

Lemma adaptCollectResponse_quality q data :
  ofRecord q (adaptCollectResponse data)
  = JS.or (coerceNumber (topLevel q data))
          (ofFeatures q (CollectSessionResponse.features (adaptCollectResponse data))).
Proof. destruct q; reflexivity. Qed.

(** C8, amended: a value that is neither a number nor a string (a boolean,
    an object, an array, or nothing) is read as 0. So, whatever the
    top-level hrv is, a feature field of the payload that holds such a
    value is normalized to 0, with two fields set apart: hrvDailyRmssd is 0
    only when no top-level hrv is supplied, which otherwise takes its
    place, and signalQualityScore is derived from the motionArtifactIndex
    of the payload. In a session response, samplingHz, scalingFactor and
    the entries of waveformPreview that hold such a value become 0, and a
    top-level signalQualityScore, motionArtifactIndex or baselineDriftRatio
    that holds one gives way to the field of the normalized feature set. *)
Theorem normalize_malformed_to_zero v :
  notNumberNorString v ->
  coerceNumber v = 0
  /\ (forall payload hrv name,
        In name featureFields ->
        name <> "signalQualityScore"%string ->
        name <> "hrvDailyRmssd"%string ->
        supplied payload name = v ->
        numericField name (normalizeFeatures payload hrv) = Some 0)
  /\ (forall payload hrv,
        supplied payload "hrvDailyRmssd" = v ->
        EcgFeatureSet.hrvDailyRmssd (normalizeFeatures payload hrv) = default 0 hrv)
  /\ (forall payload hrv,
        supplied payload "signalQualityScore" = v ->
        EcgFeatureSet.signalQualityScore (normalizeFeatures payload hrv)
        = JS.Math_max [0; 1 - coerceNumber (supplied payload "motionArtifactIndex")])
  /\ (forall data,
        CollectSessionApiResponse.samplingHz data = v ->
        CollectSessionResponse.samplingHz (adaptCollectResponse data) = 0)
  /\ (forall data,
        CollectSessionApiResponse.scalingFactor data = v ->
        CollectSessionResponse.scalingFactor (adaptCollectResponse data) = 0)
  /\ (forall data preview i,
        CollectSessionApiResponse.waveformPreview data = Some preview ->
        preview !! i = Some v ->
        CollectSessionResponse.waveformPreview (adaptCollectResponse data) !! i = Some 0)
  /\ (forall q data,
        topLevel q data = v ->
        ofRecord q (adaptCollectResponse data)
        = ofFeatures q (CollectSessionResponse.features (adaptCollectResponse data))).
Proof.
  intros Hv. pose proof (coerceNumber_not_number_nor_string v Hv) as Hzero.
  split; [exact Hzero |]. split.
  { intros payload hrv name Hin Hscore Hhrv Hsupplied.
    rewrite numericField_supplied_hrv by (assumption || (intros E; contradiction)).
    rewrite Hsupplied, Hzero. reflexivity. }
  split.
  { intros payload hrv Hsupplied.
    change (EcgFeatureSet.hrvDailyRmssd (normalizeFeatures payload hrv))
      with (default (coerceNumber (supplied payload "hrvDailyRmssd")) hrv).
    rewrite Hsupplied, Hzero. reflexivity. }
  split.
  { intros payload hrv Hsupplied.
    rewrite normalizeFeatures_signalQualityScore. cbv zeta.
    rewrite Hsupplied, Hzero, normalizeFeatures_motionArtifactIndex. reflexivity. }
  split.
  { intros data Hdata.
    change (CollectSessionResponse.samplingHz (adaptCollectResponse data))
      with (coerceNumber (CollectSessionApiResponse.samplingHz data)).
    rewrite Hdata. exact Hzero. }
  split.
  { intros data Hdata.
    change (CollectSessionResponse.scalingFactor (adaptCollectResponse data))
      with (coerceNumber (CollectSessionApiResponse.scalingFactor data)).
    rewrite Hdata. exact Hzero. }
  split.
  { intros data preview i Hdata Hentry.
    change (CollectSessionResponse.waveformPreview (adaptCollectResponse data))
      with (adaptWaveformPreview (CollectSessionApiResponse.waveformPreview data)).
    rewrite Hdata. unfold adaptWaveformPreview.
    change (map coerceNumber preview) with (coerceNumber <$> preview).
    rewrite list_lookup_fmap, Hentry. simpl. rewrite Hzero. reflexivity. }
  intros q data Hdata.
  rewrite adaptCollectResponse_quality, Hdata, Hzero. reflexivity.
Qed.

(** A boolean in the payload under [Mean] and [HrvDailyRmssd], and at the
    top level of a response as motionArtifactIndex, samplingHz and an entry
    of the waveform preview, next to a feature payload whose artifact index
    is 0.4. *)
Lemma normalize_malformed_to_zero_witness :
  let payload : gmap string JS.Value :=
    <["Mean" := JS.VBoolean true]>
      (<["HrvDailyRmssd" := JS.VBoolean true]> (<["std" := JS.VObject]> ∅)) in
  let data :=
    {| CollectSessionApiResponse.documentId := "doc-1";
       CollectSessionApiResponse.fitbitUserId := Some "u1"%string;
       CollectSessionApiResponse.ecgStartTime := None;
       CollectSessionApiResponse.hrvDailyRmssd := None;
       CollectSessionApiResponse.features :=
         Some (<["motionArtifactIndex" := JS.VNumber 0.4]> ∅);
       CollectSessionApiResponse.metadata := None;
       CollectSessionApiResponse.waveformPreview :=
         Some [JS.VNumber 0.5; JS.VBoolean true];
       CollectSessionApiResponse.signalQualityScore := JS.VUndefined;
       CollectSessionApiResponse.motionArtifactIndex := JS.VBoolean true;
       CollectSessionApiResponse.baselineDriftRatio := JS.VUndefined;
       CollectSessionApiResponse.samplingHz := JS.VBoolean true;
       CollectSessionApiResponse.scalingFactor := JS.VNumber 2;
       CollectSessionApiResponse.tags := None;
       CollectSessionApiResponse.notes := None |} in
  coerceNumber (JS.VBoolean true) = 0
  /\ numericField "mean" (normalizeFeatures payload (Some 41.5)) = Some 0
  /\ EcgFeatureSet.hrvDailyRmssd (normalizeFeatures payload (Some 41.5)) = 41.5
  /\ EcgFeatureSet.hrvDailyRmssd (normalizeFeatures payload None) = 0
  /\ CollectSessionResponse.samplingHz (adaptCollectResponse data) = 0
  /\ CollectSessionResponse.waveformPreview (adaptCollectResponse data) !! 1%nat = Some 0
  /\ CollectSessionResponse.motionArtifactIndex (adaptCollectResponse data) = 0.4.
Proof.
  intros payload data.
  destruct (normalize_malformed_to_zero (JS.VBoolean true) I)
    as (Hzero & Hfield & Hhrv & _ & Hsampling & _ & Hpreview & Htop).
  split; [exact Hzero |]. split.
  { apply (Hfield payload (Some 41.5) "mean"%string).
    - unfold featureFields; simpl; tauto.
    - discriminate.
    - discriminate.
    - vm_compute. reflexivity. }
  split; [exact (Hhrv payload (Some 41.5) eq_refl) |].
  split; [exact (Hhrv payload None eq_refl) |].
  split; [exact (Hsampling data eq_refl) |].
  split; [exact (Hpreview data _ 1%nat eq_refl eq_refl) |].
  change (ofRecord QMotionArtifactIndex (adaptCollectResponse data) = 0.4).
  rewrite (Htop QMotionArtifactIndex data eq_refl). vm_compute. reflexivity.
Defined.

(** A string that is not numeric is a malformed value in a numeric field,
    and the field that reads it is NaN, not 0: C8 does not hold as stated. *)
Lemma normalize_malformed_string_is_nan :
  let payload : gmap string JS.Value := <["Mean" := JS.VString "abc"]> ∅ in
  supplied payload "mean" = JS.VString "abc"
  /\ PrimFloat.is_nan (EcgFeatureSet.mean (normalizeFeatures payload None)) = true
  /\ EcgFeatureSet.mean (normalizeFeatures payload None) <> 0.
Proof.
  intros payload.
  assert (Hnan : PrimFloat.is_nan (EcgFeatureSet.mean (normalizeFeatures payload None)) = true)
    by (vm_compute; reflexivity).
  split; [vm_compute; reflexivity | split; [exact Hnan |]].
  intros Hzero. rewrite Hzero in Hnan. vm_compute in Hnan. discriminate.
Qed.

(** *** The quality fields of a session record *)

Lemma adaptCollectResponse_features data :
  CollectSessionResponse.features (adaptCollectResponse data)
  = normalizeFeatures (default ∅ (CollectSessionApiResponse.features data))
                      (CollectSessionApiResponse.hrvDailyRmssd data).
Proof. reflexivity. Qed.

(** C10: for each of signalQualityScore, motionArtifactIndex and
    baselineDriftRatio, a top-level value that is absent or coerces to 0
    makes the session record take the field of the normalized feature set;
    a top-level value that coerces to a nonzero number is the one used; and
    the record never holds a top-level value that is zero. *)
Theorem adaptCollectResponse_quality_fallback q data :
  let top := coerceNumber (topLevel q data) in
  let record := adaptCollectResponse data in
  let feature := ofFeatures q (CollectSessionResponse.features record) in
  (isAbsent (topLevel q data) \/ (top =? 0) = true -> ofRecord q record = feature)
  /\ ((top =? 0) = false -> PrimFloat.is_nan top = false -> ofRecord q record = top)
  /\ (ofRecord q record = feature
      \/ ofRecord q record = top /\ (top =? 0) = false).
Proof.
  intros top record feature. subst top record feature.
  rewrite adaptCollectResponse_quality. unfold JS.or, JS.truthy.
  split; [| split].
  - intros [[Habs | Habs] | Hz].
    + rewrite Habs. reflexivity.
    + rewrite Habs. reflexivity.
    + rewrite Hz. reflexivity.
  - intros Hz Hn. rewrite Hz, Hn. reflexivity.
  - destruct (coerceNumber (topLevel q data) =? 0) eqn:Hz; simpl.
    + left. reflexivity.
    + destruct (PrimFloat.is_nan (coerceNumber (topLevel q data))); simpl.
      * left. reflexivity.
      * right. split; reflexivity.
Qed.

(** The top-level score is missing, the top-level artifact index is 0.25,
    and the top-level drift ratio is not a number. *)
Example adaptCollectResponse_example :
  let record := sampleSession (Some "u1") None in
  CollectSessionResponse.signalQualityScore record = 1
  /\ CollectSessionResponse.motionArtifactIndex record = 0.25
  /\ EcgFeatureSet.motionArtifactIndex (CollectSessionResponse.features record) = 0
  /\ CollectSessionResponse.baselineDriftRatio record = 0
  /\ CollectSessionResponse.samplingHz record = 250
  /\ CollectSessionResponse.tags record = ["rest"%string]
  /\ CollectSessionResponse.notes record = None.
Proof. vm_compute. repeat split; reflexivity. Qed.

(** ** Attempt ledger *)

Lemma reachable_run_from st evs : reachable st -> reachable (fold_left step evs st).
Proof.
  revert st. induction evs as [| ev evs IH]; intros st Hst; simpl.
  - exact Hst.
  - apply IH. constructor. exact Hst.
Qed.

Lemma reachable_run evs : reachable (run evs).
Proof. apply reachable_run_from. constructor. Qed.

Lemma recordAttempt_length attempt prev :
  (length (recordAttempt attempt prev) <= 400)%nat.
Proof. unfold recordAttempt. rewrite length_take. lia. Qed.

Lemma relabel_length attemptId label notes prev :
  length (relabel attemptId label notes prev) = length prev.
Proof. unfold relabel. apply length_map. Qed.

Lemma ledger_bounded st : reachable st -> (length (AppState.attemptLogs st) <= 400)%nat.
Proof.
  induction 1 as [| st ev _ IH].
  - simpl. lia.
  - destruct ev as [attempt | attemptId label notes].
    + exact (recordAttempt_length attempt (AppState.attemptLogs st)).
    + change (length (relabel attemptId label notes (AppState.attemptLogs st)) <= 400)%nat.
      rewrite relabel_length. exact IH.
Qed.

Lemma recordAttempt_full attempt prev :
  length prev = 400%nat ->
  exists kept oldest,
    prev = kept ++ [oldest] /\ recordAttempt attempt prev = attempt :: kept.
Proof.
  intros Hlen.
  destruct (exists_last (l := prev)) as [kept [oldest ->]].
  { intros ->. discriminate. }
  exists kept, oldest. split; [reflexivity |].
  rewrite length_app in Hlen. simpl in Hlen.
  unfold recordAttempt.
  change (take 400 (attempt :: kept ++ [oldest]))
    with (attempt :: take 399 (kept ++ [oldest])).
  f_equal. rewrite take_app_le by lia. apply take_ge. lia.
Qed.

(** C5: a ledger reached from the empty one never holds more than 400
    attempts; recording an attempt puts it at the head of the first 400
    entries of the extended sequence; and recording into a full ledger
    leaves exactly 400 entries, the new one first and the oldest one
    dropped. *)
Theorem ledger_capped st attempt :
  reachable st ->
  let prev := AppState.attemptLogs st in
  let next := AppState.attemptLogs (verifyMutation_onSuccess attempt st) in
  (length prev <= 400)%nat
  /\ next = take 400 (attempt :: prev)
  /\ head next = Some attempt
  /\ (length next <= 400)%nat
  /\ (length prev = 400%nat ->
      length next = 400%nat
      /\ exists kept oldest, prev = kept ++ [oldest] /\ next = attempt :: kept).
Proof.
  intros Hst prev next. subst prev next.
  change (AppState.attemptLogs (verifyMutation_onSuccess attempt st))
    with (recordAttempt attempt (AppState.attemptLogs st)).
  split; [apply ledger_bounded; exact Hst |].
  split; [reflexivity |].
  split; [reflexivity |].
  split; [apply recordAttempt_length |].
  intros Hfull.
  destruct (recordAttempt_full attempt _ Hfull) as (kept & oldest & Hprev & Hnext).
  split.
  - rewrite Hnext. rewrite Hprev, length_app in Hfull. simpl in *. lia.
  - exists kept, oldest. split; assumption.
Qed.

(** Four hundred attempts are in the ledger and the 401st arrives. *)
Lemma ledger_capped_witness :
  let st := run (sampleRun 400) in
  let next := AppState.attemptLogs (verifyMutation_onSuccess (sampleAttempt 401) st) in
  length (AppState.attemptLogs st) = 400%nat
  /\ length next = 400%nat
  /\ head next = Some (sampleAttempt 401)
  /\ last (AppState.attemptLogs st) = Some (sampleAttempt 1)
  /\ last next = Some (sampleAttempt 2).
Proof.
  intros st next.
  destruct (ledger_capped st (sampleAttempt 401) (reachable_run _))
    as (_ & _ & Hhead & _ & Hfull).
  assert (Hlen : length (AppState.attemptLogs st) = 400%nat) by (vm_compute; reflexivity).
  destruct (Hfull Hlen) as [Hnext _].
  split; [exact Hlen |].
  split; [exact Hnext |].
  split; [exact Hhead |].
  split; vm_compute; reflexivity.
Defined.

Lemma withLabelNotes_frame attempt label notes :
  sameButLabelNotes attempt (VerifyAttempt.withLabelNotes attempt label notes)
  /\ VerifyAttempt.label (VerifyAttempt.withLabelNotes attempt label notes) = label
  /\ VerifyAttempt.notes (VerifyAttempt.withLabelNotes attempt label notes) = notes.
Proof. unfold sameButLabelNotes. simpl. tauto. Qed.

Lemma relabel_absent attemptId label notes prev :
  (forall attempt, In attempt prev -> VerifyAttempt.id attempt <> attemptId) ->
  relabel attemptId label notes prev = prev.
Proof.
  induction prev as [| a prev IH]; intros Habs; simpl.
  - reflexivity.
  - destruct (String.eqb_spec (VerifyAttempt.id a) attemptId) as [Heq | _].
    + exfalso. apply (Habs a); [left; reflexivity | exact Heq].
    + f_equal. apply IH. intros b Hb. apply Habs. right. exact Hb.
Qed.

(** C6: relabeling keeps the length and the order of the ledger; at each
    position, an attempt with the given identity gets the new label and
    notes and keeps every other field, and an attempt with another identity
    is kept as it is; and when no attempt has the identity the ledger is
    returned unchanged. *)
Theorem relabel_frame attemptId label notes st :
  let prev := AppState.attemptLogs st in
  let next := AppState.attemptLogs (handleLabelUpdate attemptId label notes st) in
  length next = length prev
  /\ (forall i attempt, prev !! i = Some attempt ->
        exists attempt',
          next !! i = Some attempt'
          /\ (VerifyAttempt.id attempt = attemptId ->
                sameButLabelNotes attempt attempt'
                /\ VerifyAttempt.label attempt' = Some label
                /\ VerifyAttempt.notes attempt' = notes)
          /\ (VerifyAttempt.id attempt <> attemptId -> attempt' = attempt))
  /\ ((forall attempt, In attempt prev -> VerifyAttempt.id attempt <> attemptId) ->
      next = prev).
Proof.
  intros prev next. subst prev next.
  change (AppState.attemptLogs (handleLabelUpdate attemptId label notes st))
    with (relabel attemptId label notes (AppState.attemptLogs st)).
  split; [apply relabel_length |].
  split; [| apply relabel_absent].
  intros i attempt Hi. unfold relabel. rewrite list_lookup_fmap, Hi. simpl.
  destruct (String.eqb_spec (VerifyAttempt.id attempt) attemptId) as [Heq | Hne].
  - eexists. split; [reflexivity |]. split.
    + intros _. apply withLabelNotes_frame.
    + intros Hne. contradiction.
  - exists attempt. split; [reflexivity |]. split.
    + intros Heq. contradiction.
    + reflexivity.
Qed.

(** Three attempts are recorded, the second one is relabelled, and an
    unknown identity is relabelled. *)
Example relabel_example :
  let st := run (sampleRun 3) in
  let st' := handleLabelUpdate "attempt-2" impostor (Some "spoof"%string) st in
  map VerifyAttempt.id (AppState.attemptLogs st)
  = ["attempt-3"; "attempt-2"; "attempt-1"]%string
  /\ map VerifyAttempt.label (AppState.attemptLogs st') = [None; Some impostor; None]
  /\ map VerifyAttempt.notes (AppState.attemptLogs st') = [None; Some "spoof"%string; None]
  /\ handleLabelUpdate "attempt-9" genuine None st' = st'.
Proof. vm_compute. repeat split; reflexivity. Qed.

(** ** Participant aggregator *)

Lemma JsMap_set_keys {V} (m : JsMap.t V) k v :
  (JsMap.set m k v).*1 = if decide (k ∈ m.*1) then m.*1 else m.*1 ++ [k].
Proof.
  induction m as [| [k' v'] m IH]; cbn [JsMap.set].
  - case_decide as H; [inversion H | reflexivity].
  - destruct (String.eqb_spec k' k) as [-> | Hne]; rewrite !fmap_cons; cbn [fst].
    + clear IH. case_decide as H; [reflexivity |]. exfalso. apply H. left.
    + rewrite IH. clear IH.
      destruct (decide (k ∈ m.*1)) as [Hin | Hout];
        destruct (decide (k ∈ k' :: m.*1)) as [Hin' | Hout']; try reflexivity.
      * exfalso. apply Hout'. right. exact Hin.
      * exfalso. apply elem_of_cons in Hin' as [Heq | Hin']; [congruence | tauto].
Qed.

Lemma stringTruthy_identityOf session :
  if stringTruthy (CollectSessionResponse.fitbitUserId session)
  then identityOf session = Some (default EmptyString (CollectSessionResponse.fitbitUserId session))
  else identityOf session = None.
Proof.
  unfold identityOf.
  destruct (CollectSessionResponse.fitbitUserId session) as [[| c r] |]; reflexivity.
Qed.

Section AggregatorProperties.

Variable Date_getTime : string -> float.

Lemma groupSession_keys grouped session :
  (groupSession Date_getTime grouped session).*1
  = match identityOf session with
    | None => grouped.*1
    | Some id => if decide (id ∈ grouped.*1) then grouped.*1 else grouped.*1 ++ [id]
    end.
Proof.
  unfold groupSession.
  pose proof (stringTruthy_identityOf session) as H.
  destruct (stringTruthy (CollectSessionResponse.fitbitUserId session)); rewrite H; simpl.
  - apply JsMap_set_keys.
  - reflexivity.
Qed.

Lemma grouped_keys sessions : forall grouped,
  NoDup grouped.*1 ->
  NoDup (fold_left (groupSession Date_getTime) sessions grouped).*1
  /\ forall id,
       id ∈ (fold_left (groupSession Date_getTime) sessions grouped).*1
       <-> id ∈ grouped.*1 \/ id ∈ identities sessions.
Proof.
  induction sessions as [| session sessions IH]; intros grouped Hnd; simpl.
  - split; [exact Hnd |]. intros id. unfold identities. simpl.
    rewrite elem_of_nil. tauto.
  - assert (Hstep : NoDup (groupSession Date_getTime grouped session).*1
                    /\ forall id, id ∈ (groupSession Date_getTime grouped session).*1
                                  <-> id ∈ grouped.*1 \/ identityOf session = Some id).
    { rewrite groupSession_keys. destruct (identityOf session) as [k |].
      - destruct (decide (k ∈ grouped.*1)) as [Hin | Hout].
        + split; [exact Hnd |]. intros id. split; [tauto |].
          intros [H | H]; [exact H | congruence].
        + split.
          * apply NoDup_app. split; [exact Hnd |]. split.
            -- intros x Hx Hx'. apply list_elem_of_singleton in Hx'. congruence.
            -- apply NoDup_singleton.
          * intros id. rewrite elem_of_app, list_elem_of_singleton.
            split; intros [H | H]; auto; right; congruence.
      - split; [exact Hnd |]. intros id. split; [tauto |].
        intros [H | H]; [exact H | discriminate]. }
    destruct Hstep as [Hnd' Hkeys].
    destruct (IH _ Hnd') as [Hnd'' Hall].
    split; [exact Hnd'' |].
    intros id. rewrite Hall, Hkeys. unfold identities. simpl.
    destruct (identityOf session) as [k |]; simpl.
    + rewrite elem_of_cons. split; [intros [[H | H] | H] | intros [H | [H | H]]]; auto.
      * right. left. congruence.
      * left. right. congruence.
    + split; [intros [[H | H] | H] | intros [H | H]]; auto. discriminate.
Qed.

Lemma roster_ids sessions :
  map Participant.id (buildParticipantsFromSessions Date_getTime sessions)
  = (fold_left (groupSession Date_getTime) sessions JsMap.empty).*1.
Proof.
  unfold buildParticipantsFromSessions, JsMap.entries.
  rewrite map_map. apply map_ext. intros [id info]. reflexivity.
Qed.

(** C7: the roster has one entry per participant identity that is present
    and not empty in the session list: its identities are pairwise
    distinct, they are exactly those of the list, and its length is the
    number of distinct ones. *)
Theorem roster_one_entry_per_identity sessions :
  let roster := buildParticipantsFromSessions Date_getTime sessions in
  NoDup (map Participant.id roster)
  /\ (forall id, id ∈ map Participant.id roster <-> id ∈ identities sessions)
  /\ length roster = size (list_to_set (identities sessions) : gset string).
Proof.
  intros roster. subst roster.
  destruct (grouped_keys sessions JsMap.empty) as [Hnd Hall]; [apply NoDup_nil_2 |].
  rewrite <- roster_ids in Hnd, Hall.
  assert (Hids : forall id,
             id ∈ map Participant.id (buildParticipantsFromSessions Date_getTime sessions)
             <-> id ∈ identities sessions).
  { intros id. rewrite Hall. simpl. rewrite elem_of_nil. tauto. }
  split; [exact Hnd |]. split; [exact Hids |].
  rewrite <- (length_map Participant.id).
  rewrite <- (size_list_to_set (C := gset string)) by exact Hnd.
  f_equal. apply set_eq. intros id. rewrite !elem_of_list_to_set. apply Hids.
Qed.

End AggregatorProperties.

(** Five sessions of two participants, one session without identity and one
    with an empty identity; the start times are read as numbers. *)
Example roster_example :
  let sessions :=
    [sampleSession (Some "u2") (Some "200"); sampleSession (Some "") (Some "900");
     sampleSession None (Some "950"); sampleSession (Some "u1") None;
     sampleSession (Some "u2") (Some "300"); sampleSession (Some "u2") (Some "100")]%string in
  let roster := buildParticipantsFromSessions JS.StringToNumber sessions in
  map Participant.id roster = ["u2"; "u1"]%string
  /\ map Participant.sessionCount roster = [3; 1]
  /\ map Participant.lastSessionAt roster = [Some "300"%string; None]
  /\ map Participant.enrollmentProgress roster = [Some 0.25; Some (1 / 12)]
  /\ identities sessions = ["u2"; "u1"; "u2"; "u2"]%string.
Proof. vm_compute. repeat split; reflexivity. Qed.

(** ** Analytics engine *)

Lemma length_filter_countWhere {A} (p : A -> bool) l :
  JS.length (List.filter p l) = countWhere p l.
Proof.
  unfold JS.length. induction l as [| x l IH]; simpl.
  - reflexivity.
  - destruct (p x); simpl List.length; lia.
Qed.

Lemma filter_filter_andb {A} (p q : A -> bool) l :
  List.filter q (List.filter p l) = List.filter (fun x => p x && q x) l.
Proof.
  induction l as [| x l IH]; simpl.
  - reflexivity.
  - destruct (p x); simpl; [destruct (q x) |]; rewrite IH; reflexivity.
Qed.

Lemma filter_labelled l (attempts : list VerifyAttempt.t) :
  List.filter (labelIs l) (List.filter isLabelled attempts)
  = List.filter (labelIs l) attempts.
Proof.
  rewrite filter_filter_andb. apply List.filter_ext. intros a.
  unfold isLabelled, labelIs. destruct (VerifyAttempt.label a); reflexivity.
Qed.

Lemma far_spec attempts :
  far attempts
  = if (countWhere (labelIs impostor) attempts =? 0)%Z then 0
    else JS.ofZ (countWhere (fun a => labelIs impostor a && VerifyAttempt.passed a) attempts)
         / JS.ofZ (countWhere (labelIs impostor) attempts).
Proof.
  unfold far, impostorAttempts.
  rewrite filter_filter_andb, !length_filter_countWhere. reflexivity.
Qed.

Lemma frr_spec attempts :
  frr attempts
  = if (countWhere (labelIs genuine) attempts =? 0)%Z then 0
    else JS.ofZ (countWhere (fun a => labelIs genuine a && negb (VerifyAttempt.passed a))
                            attempts)
         / JS.ofZ (countWhere (labelIs genuine) attempts).
Proof.
  unfold frr, genuineAttempts.
  rewrite filter_filter_andb, !length_filter_countWhere. reflexivity.
Qed.

(** C1: FAR is the number of impostor attempts that passed over the number
    of impostor attempts, FRR the number of genuine attempts that failed
    over the number of genuine attempts, each 0 (a number, not NaN) when
    its class is empty; the EER estimate is their mean; and both rates
    are those of the labelled attempts alone. *)
Theorem analytics_rates attempts :
  let nImpostor := countWhere (labelIs impostor) attempts in
  let nGenuine := countWhere (labelIs genuine) attempts in
  far attempts
  = (if (nImpostor =? 0)%Z then 0
     else JS.ofZ (countWhere (fun a => labelIs impostor a && VerifyAttempt.passed a) attempts)
          / JS.ofZ nImpostor)
  /\ frr attempts
     = (if (nGenuine =? 0)%Z then 0
        else JS.ofZ (countWhere (fun a => labelIs genuine a && negb (VerifyAttempt.passed a))
                                attempts)
             / JS.ofZ nGenuine)
  /\ (nImpostor = 0%Z -> far attempts = 0 /\ PrimFloat.is_nan (far attempts) = false)
  /\ (nGenuine = 0%Z -> frr attempts = 0 /\ PrimFloat.is_nan (frr attempts) = false)
  /\ eer attempts = (far attempts + frr attempts) / 2
  /\ far attempts = far (List.filter isLabelled attempts)
  /\ frr attempts = frr (List.filter isLabelled attempts).
Proof.
  intros nImpostor nGenuine. subst nImpostor nGenuine.
  split; [apply far_spec |]. split; [apply frr_spec |].
  split; [| split; [| split; [reflexivity | split]]].
  - intros H. rewrite far_spec, H. split; reflexivity.
  - intros H. rewrite frr_spec, H. split; reflexivity.
  - unfold far, impostorAttempts. rewrite filter_labelled. reflexivity.
  - unfold frr, genuineAttempts. rewrite filter_labelled. reflexivity.
Qed.

(** Two genuine attempts (one pass, one fail), two impostor attempts (one
    pass, one fail) and an unlabelled one. *)
Example analytics_rates_half :
  let attempts :=
    [labelled (Some genuine) true; labelled None true; labelled (Some genuine) false;
     labelled (Some impostor) true; labelled (Some impostor) false] in
  far attempts = 0.5 /\ frr attempts = 0.5 /\ eer attempts = 0.5.
Proof. vm_compute. repeat split; reflexivity. Qed.

(** ** Continuous-monitor summary *)

Lemma countWhere_negb {A} (p : A -> bool) l :
  (countWhere (fun x => negb (p x)) l = JS.length l - countWhere p l)%Z.
Proof.
  unfold JS.length. induction l as [| x l IH]; simpl.
  - reflexivity.
  - destruct (p x); simpl negb; simpl List.length; lia.
Qed.

Section SummaryProperties.

Variable Date_getTime : string -> float.
Variable formatTime : float -> string.

(** What a summary holds, when there is one. *)
Lemma summary_fields latestResult s :
  summary Date_getTime formatTime latestResult = Some s ->
  Summary.count s = JS.length (samplesOf latestResult)
  /\ Summary.passCount s
     = JS.length (List.filter ContinuousVerifySample.passes (samplesOf latestResult))
  /\ Summary.failCount s = (Summary.count s - Summary.passCount s)%Z
  /\ Summary.passRate s
     = (if (0 <? Summary.count s)%Z
        then JS.ofZ (Summary.passCount s) / JS.ofZ (Summary.count s) else 0)
  /\ (Summary.windowRange s = None <-> samplesOf latestResult = [])
  /\ windowDatesValid Date_getTime (samplesOf latestResult).
Proof.
  unfold summary, windowDatesValid. fold (samplesOf latestResult).
  destruct (head (samplesOf latestResult)) as [first |] eqn:Hhead.
  - destruct (last (samplesOf latestResult)) as [final |] eqn:Hlast.
    + unfold formatDate.
      destruct (PrimFloat.is_nan (Date_getTime
                  (ContinuousVerifySample.windowStartUtc first))) eqn:Hfirst;
        [discriminate |].
      destruct (PrimFloat.is_nan (Date_getTime
                  (ContinuousVerifySample.windowEndUtc final))) eqn:Hfinal;
        [discriminate |].
      intros [= <-]. cbn [Summary.count Summary.passCount Summary.failCount
        Summary.passRate Summary.windowRange].
      repeat (split; [reflexivity |]). split.
      * split; [discriminate | intros H; rewrite H in Hhead; discriminate Hhead].
      * intros first' final' [= <-] [= <-]. split; assumption.
    + apply last_None in Hlast. rewrite Hlast in Hhead. discriminate Hhead.
  - apply head_None in Hhead. rewrite Hhead.
    intros [= <-]. cbn [Summary.count Summary.passCount Summary.failCount
      Summary.passRate Summary.windowRange].
    repeat (split; [reflexivity |]). split; [split; reflexivity |].
    intros first final H. discriminate H.
Qed.

(** A summary is produced as soon as the two dates are valid. *)
Lemma summary_produced latestResult :
  windowDatesValid Date_getTime (samplesOf latestResult) ->
  is_Some (summary Date_getTime formatTime latestResult).
Proof.
  unfold summary, windowDatesValid. fold (samplesOf latestResult). intros Hvalid.
  destruct (head (samplesOf latestResult)) as [first |]; [| eexists; reflexivity].
  destruct (last (samplesOf latestResult)) as [final |]; [| eexists; reflexivity].
  destruct (Hvalid first final eq_refl eq_refl) as [Hfirst Hfinal].
  unfold formatDate. rewrite Hfirst, Hfinal. eexists; reflexivity.
Qed.

(** C9, amended: a summary is produced exactly when there is no sample or
    the start of the first window and the end of the last one are valid
    dates; it then counts the samples, those that pass and those that do
    not, its pass rate is the passing count over the count, and 0 when
    there is no sample, and three samples passing, failing and passing
    give a pass rate of 2/3 and one failure. *)
Theorem summary_counts response :
  let samples := ContinuousVerifyResponse.samples response in
  (windowDatesValid Date_getTime samples
   <-> is_Some (summary Date_getTime formatTime (Some response)))
  /\ forall s,
       summary Date_getTime formatTime (Some response) = Some s ->
       Summary.count s = Z.of_nat (length samples)
       /\ Summary.passCount s = countWhere ContinuousVerifySample.passes samples
       /\ Summary.failCount s = (Summary.count s - Summary.passCount s)%Z
       /\ Summary.failCount s
          = countWhere (fun sample => negb (ContinuousVerifySample.passes sample)) samples
       /\ Summary.passRate s
          = (if (Summary.count s =? 0)%Z then 0
             else JS.ofZ (Summary.passCount s) / JS.ofZ (Summary.count s))
       /\ (samples = [] -> Summary.passRate s = 0)
       /\ (map ContinuousVerifySample.passes samples = [true; false; true] ->
           Summary.passRate s = JS.ofZ 2 / JS.ofZ 3 /\ Summary.failCount s = 1%Z).
Proof.
  intros samples. split.
  - split; [apply (summary_produced (Some response)) |].
    intros [s Hs]. apply (summary_fields (Some response) s Hs).
  - intros s Hs.
    destruct (summary_fields (Some response) s Hs)
      as (Hcount & Hpass & Hfail & Hrate & _ & _).
    change (samplesOf (Some response)) with samples in Hcount, Hpass.
    rewrite length_filter_countWhere in Hpass.
    split; [exact Hcount |]. split; [exact Hpass |]. split; [exact Hfail |].
    split; [rewrite Hfail, Hcount, Hpass, countWhere_negb; reflexivity |].
    split.
    { rewrite Hrate, Hcount. unfold JS.length. destruct samples; reflexivity. }
    split.
    { intros Hnil. rewrite Hrate, Hcount, Hnil. reflexivity. }
    intros Hp. rewrite Hfail, Hrate, Hcount, Hpass.
    destruct samples as [| a [| b [| c [| d rest]]]]; try discriminate Hp.
    simpl in Hp. injection Hp as Ha Hb Hc.
    unfold JS.length. cbn [countWhere List.length]. rewrite Ha, Hb, Hc.
    split; reflexivity.
Qed.

End SummaryProperties.

Lemma summary_counts_witness :
  let response :=
    {| ContinuousVerifyResponse.authenticated := false;
       ContinuousVerifyResponse.rollingMeanScore := 0.9;
       ContinuousVerifyResponse.rollingWorstScore := 0.9;
       ContinuousVerifyResponse.samples :=
         [sampleWindow true; sampleWindow false; sampleWindow true] |} in
  exists s,
    summary sampleClock sampleFormat (Some response) = Some s
    /\ Summary.passRate s = JS.ofZ 2 / JS.ofZ 3 /\ Summary.failCount s = 1%Z
    /\ Summary.windowRange s = Some "<date> - <date>"%string.
Proof.
  intros response.
  destruct (summary_counts sampleClock sampleFormat response) as [Hvalid Hfields].
  destruct (proj1 Hvalid) as [s Hs].
  { intros first final [= <-] [= <-]. split; reflexivity. }
  exists s. split; [exact Hs |].
  destruct (Hfields s Hs) as (_ & _ & _ & _ & _ & _ & Hthree).
  destruct (Hthree eq_refl) as [Hrate Hfail].
  split; [exact Hrate |]. split; [exact Hfail |].
  vm_compute in Hs. injection Hs as <-. reflexivity.
Defined.

(** With a first window whose start is not a date, computing the summary
    throws: no summary is produced, whatever the flags of the samples. *)
Lemma summary_fails_on_invalid_date :
  let response :=
    {| ContinuousVerifyResponse.authenticated := false;
       ContinuousVerifyResponse.rollingMeanScore := 0.9;
       ContinuousVerifyResponse.rollingWorstScore := 0.9;
       ContinuousVerifyResponse.samples :=
         [brokenWindow; sampleWindow false; sampleWindow true] |} in
  map ContinuousVerifySample.passes (ContinuousVerifyResponse.samples response)
  = [true; false; true]
  /\ summary sampleClock sampleFormat (Some response) = None
  /\ (forall Date_getTime formatTime,
        PrimFloat.is_nan (Date_getTime "not a date") = true ->
        summary Date_getTime formatTime (Some response) = None).
Proof.
  intros response. split; [reflexivity |]. split; [reflexivity |].
  intros Date_getTime formatTime Hnan. unfold summary, formatDate.
  cbn [response ContinuousVerifyResponse.samples head last brokenWindow
       ContinuousVerifySample.windowStartUtc].
  rewrite Hnan. reflexivity.
Qed.

(** * Further properties *)

(** ** Numbers *)

Lemma ltb_leb a b : (a <? b) = true -> (a <=? b) = true.
Proof.
  rewrite FloatAxioms.ltb_spec, FloatAxioms.leb_spec. unfold SFltb, SFleb.
  destruct (SFcompare (Prim2SF a) (Prim2SF b)) as [[| |] |]; intros H;
    first [reflexivity | discriminate H].
Qed.

Lemma Math_max_pair c y :
  PrimFloat.is_nan c = false ->
  JS.isNegZero c = false ->
  (PrimFloat.neg_infinity <? c) = true ->
  JS.Math_max [c; y]
  = if PrimFloat.is_nan y then PrimFloat.nan else if c <? y then y else c.
Proof.
  intros Hnan Hzero Hinf. unfold JS.Math_max. cbn [existsb fold_left].
  rewrite Hnan, orb_false_r. cbn [orb].
  destruct (PrimFloat.is_nan y); [reflexivity |].
  change (JS.isNegZero PrimFloat.neg_infinity) with false.
  rewrite andb_false_r. unfold JS.gtb. rewrite Hinf, Hzero, andb_false_r.
  reflexivity.
Qed.

Lemma Math_min_pair c y :
  PrimFloat.is_nan c = false ->
  JS.isPosZero c = false ->
  (c <? PrimFloat.infinity) = true ->
  JS.Math_min [c; y]
  = if PrimFloat.is_nan y then PrimFloat.nan else if y <? c then y else c.
Proof.
  intros Hnan Hzero Hinf. unfold JS.Math_min. cbn [existsb fold_left].
  rewrite Hnan, orb_false_r. cbn [orb].
  destruct (PrimFloat.is_nan y); [reflexivity |].
  change (JS.isPosZero PrimFloat.infinity) with false.
  rewrite andb_false_r, Hinf, Hzero, andb_false_r. reflexivity.
Qed.

(** A number clamped from below and then from above lies between the two
    bounds. *)
Lemma clamp_bounds lo hi x :
  PrimFloat.is_nan lo = false -> JS.isNegZero lo = false ->
  (PrimFloat.neg_infinity <? lo) = true ->
  PrimFloat.is_nan hi = false -> JS.isPosZero hi = false ->
  (hi <? PrimFloat.infinity) = true ->
  (lo <=? lo) = true -> (hi <=? hi) = true -> (lo <=? hi) = true ->
  PrimFloat.is_nan x = false ->
  (lo <=? JS.Math_min [hi; JS.Math_max [lo; x]]) = true
  /\ (JS.Math_min [hi; JS.Math_max [lo; x]] <=? hi) = true.
Proof.
  intros Hlo1 Hlo2 Hlo3 Hhi1 Hhi2 Hhi3 Hll Hhh Hlh Hx.
  rewrite (Math_max_pair lo x Hlo1 Hlo2 Hlo3), Hx.
  destruct (lo <? x) eqn:Hlt.
  - rewrite (Math_min_pair hi x Hhi1 Hhi2 Hhi3), Hx.
    destruct (x <? hi) eqn:Hxh.
    + split; apply ltb_leb; assumption.
    + split; assumption.
  - rewrite (Math_min_pair hi lo Hhi1 Hhi2 Hhi3), Hlo1.
    destruct (lo <? hi) eqn:Hlh'; split; assumption.
Qed.

(** ** Session normalizer, continued *)

(** X1: as soon as the score is at least 0.5 the classification is never
    poor: it is good when the first branch applies and medium otherwise,
    whatever motionArtifactIndex, peakCount, std and estimatedBpm are. *)
Theorem evaluateSignalQuality_score_half features :
  let score := default 0 (PartialEcgFeatureSet.signalQualityScore features) in
  let artifact := default 0 (PartialEcgFeatureSet.motionArtifactIndex features) in
  JS.geb score 0.5 = true ->
  evaluateSignalQuality features
  = (if JS.geb score 0.75 && (artifact <=? 0.35) then good else medium)
  /\ evaluateSignalQuality features <> poor.
Proof.
  intros score artifact Hhalf. subst score artifact.
  unfold evaluateSignalQuality. rewrite Hhalf.
  destruct (JS.geb _ 0.75 && (_ <=? 0.35)); cbn [andb].
  - split; [reflexivity | discriminate].
  - destruct (_ <=? 0.6); split; first [reflexivity | discriminate].
Qed.

(** A middling score with a heavy motion artifact and no peaks at all. *)
Lemma evaluateSignalQuality_score_half_witness :
  evaluateSignalQuality
    {| PartialEcgFeatureSet.peakCount := None;
       PartialEcgFeatureSet.std := None;
       PartialEcgFeatureSet.estimatedBpm := None;
       PartialEcgFeatureSet.signalQualityScore := Some 0.6;
       PartialEcgFeatureSet.motionArtifactIndex := Some 0.9 |} = medium.
Proof.
  apply (evaluateSignalQuality_score_half
           {| PartialEcgFeatureSet.peakCount := None;
              PartialEcgFeatureSet.std := None;
              PartialEcgFeatureSet.estimatedBpm := None;
              PartialEcgFeatureSet.signalQualityScore := Some 0.6;
              PartialEcgFeatureSet.motionArtifactIndex := Some 0.9 |}).
  reflexivity.
Defined.

(** X2: the normalized signalQualityScore is never negative: it is NaN or
    at least 0, whatever the payload holds. *)
Theorem normalize_score_not_negative payload hrv :
  let score := EcgFeatureSet.signalQualityScore (normalizeFeatures payload hrv) in
  PrimFloat.is_nan score = true \/ (0 <=? score) = true.
Proof.
  cbv zeta. rewrite normalizeFeatures_signalQualityScore. cbv zeta.
  destruct (JS.gtb (coerceNumber (supplied payload "signalQualityScore")) 0) eqn:Hraw.
  - right. apply ltb_leb. exact Hraw.
  - rewrite Math_max_pair by reflexivity.
    destruct (PrimFloat.is_nan (1 - _)); [left; reflexivity |].
    right. destruct (0 <? 1 - _) eqn:Hd; [apply ltb_leb; exact Hd | reflexivity].
Qed.

(** A negative score with a large artifact index, and an artifact index
    that is not a number. *)
Example normalize_score_not_negative_example :
  EcgFeatureSet.signalQualityScore
    (normalizeFeatures (<["signalQualityScore" := JS.VNumber (-3)]>
                          (<["motionArtifactIndex" := JS.VNumber 2.5]> ∅)) None) = 0
  /\ PrimFloat.is_nan
       (EcgFeatureSet.signalQualityScore
          (normalizeFeatures (<["motionArtifactIndex" := JS.VString "n/a"]> ∅) None)) = true.
Proof. vm_compute. split; reflexivity. Qed.

(** ** Enrollment progress and score meter *)

(** X3: the enrollment progress is the twelfth of the session count,
    clamped at 1. *)
Theorem progressFromSessions_clamped count :
  PrimFloat.is_nan (count / 12) = false ->
  (progressFromSessions count <=? 1) = true
  /\ progressFromSessions count = (if count / 12 <? 1 then count / 12 else 1).
Proof.
  intros Hnan. unfold progressFromSessions.
  rewrite Math_min_pair by reflexivity. rewrite Hnan.
  destruct (count / 12 <? 1) eqn:Hlt.
  - split; [apply ltb_leb; exact Hlt | reflexivity].
  - split; reflexivity.
Qed.

Lemma progressFromSessions_clamped_witness :
  progressFromSessions 24 = 1 /\ progressFromSessions 6 = 0.5
  /\ progressFromSessions 0 = 0.
Proof.
  split; [| split].
  - rewrite (proj2 (progressFromSessions_clamped 24 eq_refl)). reflexivity.
  - rewrite (proj2 (progressFromSessions_clamped 6 eq_refl)). reflexivity.
  - rewrite (proj2 (progressFromSessions_clamped 0 eq_refl)). reflexivity.
Defined.

(** X4: the width of the score bar and the position of the threshold
    marker lie between 0 and 100 percent, for every score and threshold
    whose hundredfold is a number. *)
Theorem scoreMeter_clamped score threshold :
  PrimFloat.is_nan (score * 100) = false ->
  PrimFloat.is_nan (threshold * 100) = false ->
  ((0 <=? scorePercent score) = true /\ (scorePercent score <=? 100) = true)
  /\ ((0 <=? thresholdPercent threshold) = true
      /\ (thresholdPercent threshold <=? 100) = true).
Proof.
  intros Hs Ht. unfold scorePercent, thresholdPercent.
  split; apply clamp_bounds; first [reflexivity | assumption].
Qed.

Lemma scoreMeter_clamped_witness :
  scorePercent 1.5 = 100 /\ thresholdPercent (-0.25) = 0
  /\ (scorePercent 1.5 <=? 100) = true.
Proof.
  split; [reflexivity | split; [reflexivity |]].
  apply (scoreMeter_clamped 1.5 (-0.25)); reflexivity.
Defined.

(** ** Keys of a feature payload *)

(** X5: whatever the top-level hrv is, a field supplied under its
    PascalCase key is read from there, whatever the camelCase key holds,
    and the camelCase key is read when the PascalCase one is missing or
    null; for hrvDailyRmssd this is so when no top-level hrv is supplied,
    and a supplied top-level hrv is the normalized hrvDailyRmssd whatever
    the payload holds. *)
Theorem normalize_pascal_first payload hrv name :
  In name featureFields ->
  name <> "signalQualityScore"%string ->
  ((name = "hrvDailyRmssd"%string -> hrv = None) ->
   (~ isAbsent payload.[pascalCase name] ->
    numericField name (normalizeFeatures payload hrv)
    = Some (coerceNumber payload.[pascalCase name]))
   /\ (isAbsent payload.[pascalCase name] ->
       numericField name (normalizeFeatures payload hrv)
       = Some (coerceNumber payload.[name])))
  /\ (forall h,
        hrv = Some h ->
        numericField "hrvDailyRmssd" (normalizeFeatures payload hrv) = Some h).
Proof.
  intros Hin Hne. split.
  - intros Hhrv. rewrite numericField_supplied_hrv by assumption. unfold supplied.
    split; intros Habs.
    + destruct (payload.[pascalCase name]); try reflexivity;
        exfalso; apply Habs; [left | right]; reflexivity.
    + destruct Habs as [-> | ->]; reflexivity.
  - intros h ->. reflexivity.
Qed.

(** Both spellings of two fields, and a payload hrv of 7 next to a
    top-level hrv of 41.5. *)
Lemma normalize_pascal_first_witness :
  let payload : gmap string JS.Value :=
    <["Mean" := JS.VNumber 1]> (<["mean" := JS.VNumber 2]>
      (<["Std" := JS.VNull]> (<["std" := JS.VNumber 4]>
        (<["HrvDailyRmssd" := JS.VNumber 7]> ∅)))) in
  numericField "mean" (normalizeFeatures payload (Some 41.5)) = Some 1
  /\ numericField "std" (normalizeFeatures payload (Some 41.5)) = Some 4
  /\ numericField "hrvDailyRmssd" (normalizeFeatures payload None) = Some 7
  /\ numericField "hrvDailyRmssd" (normalizeFeatures payload (Some 41.5)) = Some 41.5.
Proof.
  intros payload.
  assert (Hin : forall name, In name ["mean"; "std"; "hrvDailyRmssd"]%string ->
                             In name featureFields /\ name <> "signalQualityScore"%string).
  { intros name H. simpl in H.
    repeat (destruct H as [<- | H];
            [split; [unfold featureFields; simpl; tauto | discriminate] |]).
    contradiction. }
  split; [| split; [| split]].
  - destruct (Hin "mean"%string) as [Hfield Hne]; [simpl; tauto |].
    destruct (normalize_pascal_first payload (Some 41.5) "mean" Hfield Hne)
      as [Hread _].
    apply Hread.
    + discriminate.
    + vm_compute. intros [H | H]; discriminate H.
  - destruct (Hin "std"%string) as [Hfield Hne]; [simpl; tauto |].
    destruct (normalize_pascal_first payload (Some 41.5) "std" Hfield Hne)
      as [Hread _].
    apply Hread.
    + discriminate.
    + right. vm_compute. reflexivity.
  - destruct (Hin "hrvDailyRmssd"%string) as [Hfield Hne]; [simpl; tauto |].
    destruct (normalize_pascal_first payload None "hrvDailyRmssd" Hfield Hne)
      as [Hread _].
    apply Hread.
    + reflexivity.
    + vm_compute. intros [H | H]; discriminate H.
  - destruct (Hin "hrvDailyRmssd"%string) as [Hfield Hne]; [simpl; tauto |].
    destruct (normalize_pascal_first payload (Some 41.5) "hrvDailyRmssd" Hfield Hne)
      as [_ Hhrv].
    apply Hhrv. reflexivity.
Defined.

(** X6: a key that is not one of the feature names, in either spelling,
    has no influence on the normalized feature set. *)
Theorem normalize_ignores_other_keys payload hrv key value :
  ~ In key featureFields ->
  ~ In key (map pascalCase featureFields) ->
  normalizeFeatures (<[key := value]> payload) hrv = normalizeFeatures payload hrv.
Proof.
  intros Hcamel Hpascal. apply normalizeFeatures_ext. intros name Hin.
  unfold supplied, JS.get.
  rewrite !lookup_insert_ne; [reflexivity | |].
  - intros ->. apply Hcamel. exact Hin.
  - intros ->. apply Hpascal. apply in_map. exact Hin.
Qed.

Lemma normalize_ignores_other_keys_witness :
  normalizeFeatures (<["signal_quality" := JS.VString "poor"]>
                       (<["PeakCount" := JS.VNumber 30]> ∅)) None
  = normalizeFeatures (<["PeakCount" := JS.VNumber 30]> ∅) None.
Proof.
  apply normalize_ignores_other_keys.
  - unfold featureFields; simpl. intros H.
    repeat (destruct H as [H | H]; [discriminate H |]). exact H.
  - unfold featureFields; simpl. intros H.
    repeat (destruct H as [H | H]; [discriminate H |]). exact H.
Defined.

(** ** Trimming *)

Lemma dropWhile_idem {A} (p : A -> bool) l :
  JS.dropWhile p (JS.dropWhile p l) = JS.dropWhile p l.
Proof.
  induction l as [| x l IH]; simpl; [reflexivity |].
  destruct (p x) eqn:Hx; [exact IH |]. simpl. rewrite Hx. reflexivity.
Qed.

Lemma dropWhile_head {A} (p : A -> bool) l x r :
  JS.dropWhile p l = x :: r -> p x = false.
Proof.
  induction l as [| y l IH]; simpl; [discriminate |].
  destruct (p y) eqn:Hy; [exact IH |]. intros [= <- _]. exact Hy.
Qed.

Lemma dropWhile_app_last {A} (p : A -> bool) l x :
  JS.dropWhile p (l ++ [x])
  = match JS.dropWhile p l with
    | [] => if p x then [] else [x]
    | y :: r => (y :: r) ++ [x]
    end.
Proof.
  induction l as [| y l IH]; simpl; [reflexivity |].
  destruct (p y); [exact IH | reflexivity].
Qed.

Lemma trimEnd_cons {A} (p : A -> bool) x l :
  trimEnd p (x :: l)
  = match trimEnd p l with
    | [] => if p x then [] else [x]
    | y :: r => x :: y :: r
    end.
Proof.
  unfold trimEnd. simpl rev. rewrite dropWhile_app_last.
  destruct (JS.dropWhile p (rev l)) as [| y r] eqn:Hd.
  - simpl. destruct (p x); reflexivity.
  - rewrite rev_app_distr. simpl rev at 1. cbn [app].
    destruct (rev (y :: r)) as [| z t] eqn:Hr; [| reflexivity].
    apply (f_equal (@List.length A)) in Hr. rewrite length_rev in Hr. discriminate Hr.
Qed.

Lemma trimEnd_idem {A} (p : A -> bool) l : trimEnd p (trimEnd p l) = trimEnd p l.
Proof. unfold trimEnd. rewrite rev_involutive, dropWhile_idem. reflexivity. Qed.

Lemma trimEnd_keeps_head {A} (p : A -> bool) x l :
  p x = false -> exists r, trimEnd p (x :: l) = x :: r.
Proof.
  intros Hx. rewrite trimEnd_cons, Hx.
  destruct (trimEnd p l) as [| y r]; eexists; reflexivity.
Qed.

Lemma trimChars_trimEnd l :
  JS.trimChars l = trimEnd JS.isStrWhiteSpaceChar (JS.dropWhile JS.isStrWhiteSpaceChar l).
Proof. reflexivity. Qed.

Lemma trimChars_head l x r :
  JS.trimChars l = x :: r -> JS.isStrWhiteSpaceChar x = false.
Proof.
  rewrite trimChars_trimEnd.
  destruct (JS.dropWhile JS.isStrWhiteSpaceChar l) as [| a t] eqn:Hd.
  - discriminate.
  - pose proof (dropWhile_head _ _ _ _ Hd) as Ha.
    destruct (trimEnd_keeps_head JS.isStrWhiteSpaceChar a t Ha) as [r' ->].
    intros [= <- _]. exact Ha.
Qed.

Lemma last_rev_head {A} (l : list A) : last (rev l) = head l.
Proof. destruct l as [| x l]; simpl; [reflexivity | apply last_snoc]. Qed.

Lemma trimChars_last l x :
  last (JS.trimChars l) = Some x -> JS.isStrWhiteSpaceChar x = false.
Proof.
  unfold JS.trimChars. rewrite last_rev_head.
  destruct (JS.dropWhile _ (rev _)) as [| y t] eqn:Hd; simpl; [discriminate |].
  intros [= <-]. exact (dropWhile_head _ _ _ _ Hd).
Qed.

Lemma trimChars_idem l : JS.trimChars (JS.trimChars l) = JS.trimChars l.
Proof.
  rewrite !trimChars_trimEnd.
  destruct (JS.dropWhile JS.isStrWhiteSpaceChar l) as [| a t] eqn:Hd.
  - reflexivity.
  - pose proof (dropWhile_head _ _ _ _ Hd) as Ha.
    destruct (trimEnd_keeps_head JS.isStrWhiteSpaceChar a t Ha) as [r Hr].
    rewrite Hr. cbn [JS.dropWhile]. rewrite Ha, <- Hr. apply trimEnd_idem.
Qed.

Lemma trim_idem s : JS.trim (JS.trim s) = JS.trim s.
Proof.
  unfold JS.trim. rewrite list_ascii_of_string_of_list_ascii, trimChars_idem.
  reflexivity.
Qed.

Lemma length_positive s : (0 <? String.length s)%nat = true <-> s <> EmptyString.
Proof.
  destruct s; simpl; split; intros H; try reflexivity; try discriminate.
  contradiction.
Qed.

Lemma trimmedOrUndefined_sanitize text :
  trimmedOrUndefined text = sanitizeString (Some text).
Proof. reflexivity. Qed.

Lemma sanitizeString_clean value : isCleanOrAbsent (sanitizeString value).
Proof.
  destruct value as [v |]; simpl; [| exact I].
  destruct (0 <? String.length (JS.trim v))%nat eqn:Hlen; simpl; [| exact I].
  split; [apply length_positive; exact Hlen | apply trim_idem].
Qed.

Lemma sanitizeString_fixed text : isClean text -> sanitizeString (Some text) = Some text.
Proof.
  intros [Hne Htrim]. simpl. rewrite Htrim.
  apply length_positive in Hne. rewrite Hne. reflexivity.
Qed.

Lemma sanitizeString_fixed_option v : isCleanOrAbsent v -> sanitizeString v = v.
Proof. destruct v; [apply sanitizeString_fixed | reflexivity]. Qed.

(** X7: a sanitized text is never empty and has no white space at either
    end: trimming it again changes nothing, its first and last code units
    are not white space, and sanitizing it again returns it. *)
Theorem sanitizeString_result value text :
  sanitizeString value = Some text ->
  text <> EmptyString
  /\ JS.trim text = text
  /\ (forall c, head (list_ascii_of_string text) = Some c ->
                JS.isStrWhiteSpaceChar c = false)
  /\ (forall c, last (list_ascii_of_string text) = Some c ->
                JS.isStrWhiteSpaceChar c = false)
  /\ sanitizeString (Some text) = Some text.
Proof.
  intros H. pose proof (sanitizeString_clean value) as Hclean.
  rewrite H in Hclean. destruct Hclean as [Hne Htrim]. unfold isTrimmed in Htrim.
  split; [exact Hne |]. split; [exact Htrim |].
  assert (Hchars : list_ascii_of_string text
                   = JS.trimChars (list_ascii_of_string text)).
  { rewrite <- Htrim at 1. unfold JS.trim.
    apply list_ascii_of_string_of_list_ascii. }
  split; [| split].
  - intros c Hc. rewrite Hchars in Hc.
    destruct (JS.trimChars (list_ascii_of_string text)) as [| x r] eqn:Ht;
      [discriminate |].
    injection Hc as <-. exact (trimChars_head _ _ _ Ht).
  - intros c Hc. rewrite Hchars in Hc. exact (trimChars_last _ _ Hc).
  - apply sanitizeString_fixed. split; assumption.
Qed.

Lemma sanitizeString_result_witness :
  sanitizeString (Some "  resting, seated  "%string) = Some "resting, seated"%string
  /\ JS.trim "resting, seated" = "resting, seated"%string
  /\ sanitizeString (Some "   "%string) = None.
Proof.
  split; [reflexivity |]. split; [| reflexivity].
  apply (sanitizeString_result (Some "  resting, seated  "%string)). reflexivity.
Defined.

(** ** Tags, metadata and the capture payload *)

Lemma adaptTags_omap tags :
  adaptTags (Some tags) = omap sanitizeString tags.
Proof.
  unfold adaptTags. induction tags as [| tag tags IH]; [reflexivity |].
  cbn [map omap list_omap]. cbn [omap list_omap] in IH. rewrite IH.
  pose proof (sanitizeString_clean tag) as Hclean.
  destruct (sanitizeString tag) as [text |]; [| reflexivity].
  destruct Hclean as [Hne _]. apply length_positive in Hne.
  cbn [stringTruthy]. rewrite Hne. reflexivity.
Qed.

Lemma omap_sanitize_clean tags :
  Forall isClean tags -> omap sanitizeString (map Some tags) = tags.
Proof.
  induction 1 as [| tag tags Htag _ IH]; [reflexivity |].
  cbn [map omap list_omap]. cbn [omap list_omap] in IH.
  rewrite (sanitizeString_fixed tag Htag), IH. reflexivity.
Qed.

Lemma omap_sanitize_Forall tags : Forall isClean (omap sanitizeString tags).
Proof.
  induction tags as [| tag tags IH]; [constructor |].
  cbn [omap list_omap]. pose proof (sanitizeString_clean tag) as Hclean.
  destruct (sanitizeString tag); [constructor; assumption | exact IH].
Qed.

Lemma omap_sanitize_length tags :
  (length (omap sanitizeString tags) <= length tags)%nat.
Proof.
  induction tags as [| tag tags IH]; [reflexivity |].
  cbn [omap list_omap]. destruct (sanitizeString tag); simpl; lia.
Qed.

(** X8: the adapted tags are never empty and never carry white space at
    either end; there are at most as many as the backend sent; and adapting
    them again returns them unchanged. *)
Theorem adaptTags_clean tags :
  Forall isClean (adaptTags tags)
  /\ (length (adaptTags tags) <= length (default [] tags))%nat
  /\ adaptTags (Some (map Some (adaptTags tags))) = adaptTags tags.
Proof.
  destruct tags as [tags |].
  - rewrite adaptTags_omap. split; [apply omap_sanitize_Forall |].
    split; [apply omap_sanitize_length |].
    rewrite adaptTags_omap. apply omap_sanitize_clean, omap_sanitize_Forall.
  - split; [constructor |]. split; reflexivity.
Qed.

Example adaptTags_example :
  adaptTags (Some [Some " rest "; None; Some "  "; Some "seated"; Some ""]%string)
  = ["rest"; "seated"]%string.
Proof. reflexivity. Qed.

Lemma existsb_truthy_clean a b c d :
  isCleanOrAbsent a -> isCleanOrAbsent b -> isCleanOrAbsent c -> isCleanOrAbsent d ->
  existsb stringTruthy [a; b; c; d] = true
  <-> a <> None \/ b <> None \/ c <> None \/ d <> None.
Proof.
  intros Ha Hb Hc Hd.
  assert (Htruthy : forall v, isCleanOrAbsent v -> stringTruthy v = true <-> v <> None).
  { intros [text |] Hv; simpl.
    - destruct Hv as [Hne _]. apply length_positive in Hne. rewrite Hne.
      split; [discriminate | reflexivity].
    - split; [discriminate | intros H; contradiction H; reflexivity]. }
  cbn [existsb]. rewrite orb_false_r, !orb_true_iff.
  rewrite (Htruthy a Ha), (Htruthy b Hb), (Htruthy c Hc), (Htruthy d Hd). tauto.
Qed.

Lemma adaptMetadata_some metadata m :
  adaptMetadata metadata = Some m ->
  existsb stringTruthy
    [SessionMetadata.activityLabel m; SessionMetadata.stressLevel m;
     SessionMetadata.sensorPlacement m; SessionMetadata.deviceModel m] = true
  /\ isCleanOrAbsent (SessionMetadata.activityLabel m)
  /\ isCleanOrAbsent (SessionMetadata.stressLevel m)
  /\ isCleanOrAbsent (SessionMetadata.sensorPlacement m)
  /\ isCleanOrAbsent (SessionMetadata.deviceModel m).
Proof.
  destruct metadata as [raw |]; [| discriminate].
  unfold adaptMetadata. cbn [SessionMetadata.activityLabel SessionMetadata.stressLevel
    SessionMetadata.sensorPlacement SessionMetadata.deviceModel].
  destruct (existsb stringTruthy _) eqn:Hsome; [| discriminate].
  intros [= <-]. cbn [SessionMetadata.activityLabel SessionMetadata.stressLevel
    SessionMetadata.sensorPlacement SessionMetadata.deviceModel].
  split; [exact Hsome |]. repeat split; apply sanitizeString_clean.
Qed.

Lemma adaptMetadata_idem metadata m :
  adaptMetadata metadata = Some m -> adaptMetadata (Some m) = Some m.
Proof.
  intros H. destruct (adaptMetadata_some _ _ H) as (Hsome & Ha & Hb & Hc & Hd).
  unfold adaptMetadata.
  rewrite !sanitizeString_fixed_option by assumption.
  cbn [SessionMetadata.activityLabel SessionMetadata.stressLevel
       SessionMetadata.sensorPlacement SessionMetadata.deviceModel].
  rewrite Hsome. destruct m; reflexivity.
Qed.

(** X9: adapted metadata, when present, has at least one field, every
    field it has is a text that is not empty and has no white space at
    either end, and adapting it again returns it unchanged. *)
Theorem adaptMetadata_result metadata m :
  adaptMetadata metadata = Some m ->
  (SessionMetadata.activityLabel m <> None \/ SessionMetadata.stressLevel m <> None
   \/ SessionMetadata.sensorPlacement m <> None \/ SessionMetadata.deviceModel m <> None)
  /\ isCleanOrAbsent (SessionMetadata.activityLabel m)
  /\ isCleanOrAbsent (SessionMetadata.stressLevel m)
  /\ isCleanOrAbsent (SessionMetadata.sensorPlacement m)
  /\ isCleanOrAbsent (SessionMetadata.deviceModel m)
  /\ adaptMetadata (Some m) = Some m.
Proof.
  intros H. destruct (adaptMetadata_some _ _ H) as (Hsome & Ha & Hb & Hc & Hd).
  split; [apply (existsb_truthy_clean _ _ _ _ Ha Hb Hc Hd); exact Hsome |].
  repeat (split; [assumption |]).
  exact (adaptMetadata_idem _ _ H).
Qed.

Lemma adaptMetadata_result_witness :
  let raw :=
    {| SessionMetadata.activityLabel := Some " walking "%string;
       SessionMetadata.stressLevel := Some "   "%string;
       SessionMetadata.sensorPlacement := None;
       SessionMetadata.deviceModel := Some ""%string |} in
  let m :=
    {| SessionMetadata.activityLabel := Some "walking"%string;
       SessionMetadata.stressLevel := None;
       SessionMetadata.sensorPlacement := None;
       SessionMetadata.deviceModel := None |} in
  adaptMetadata (Some raw) = Some m /\ adaptMetadata (Some m) = Some m
  /\ adaptMetadata
       (Some {| SessionMetadata.activityLabel := Some " "%string;
                SessionMetadata.stressLevel := None;
                SessionMetadata.sensorPlacement := None;
                SessionMetadata.deviceModel := None |}) = None.
Proof.
  intros raw m. split; [reflexivity |]. split; [| reflexivity].
  apply (adaptMetadata_result (Some raw) m). reflexivity.
Defined.

Lemma filter_trim_clean pieces :
  Forall isClean
    (List.filter (fun tag => (0 <? String.length tag)%nat) (map JS.trim pieces)).
Proof.
  induction pieces as [| piece pieces IH]; [constructor |].
  cbn [map List.filter].
  destruct (0 <? String.length (JS.trim piece))%nat eqn:Hlen; [| exact IH].
  constructor; [| exact IH].
  split; [apply length_positive; exact Hlen | apply trim_idem].
Qed.

(** X10: what the enrollment wizard sends is already in the form that the
    session adapter produces: its metadata, its tags and its notes are
    returned unchanged by [adaptMetadata], [adaptTags] and
    [sanitizeString], and it never carries an empty list of tags. *)
Theorem buildCapturePayload_stable metadataDraft tagsInput notes :
  let payload := buildCapturePayload metadataDraft tagsInput notes in
  SessionCapturePayload.metadata payload = adaptMetadata (Some metadataDraft)
  /\ adaptMetadata (SessionCapturePayload.metadata payload)
     = SessionCapturePayload.metadata payload
  /\ adaptTags (map Some <$> SessionCapturePayload.tags payload)
     = default [] (SessionCapturePayload.tags payload)
  /\ SessionCapturePayload.tags payload <> Some []
  /\ SessionCapturePayload.notes payload = sanitizeString (Some notes)
  /\ sanitizeString (SessionCapturePayload.notes payload)
     = SessionCapturePayload.notes payload.
Proof.
  intros payload. subst payload.
  assert (Hmeta : SessionCapturePayload.metadata
                    (buildCapturePayload metadataDraft tagsInput notes)
                  = adaptMetadata (Some metadataDraft)).
  { unfold buildCapturePayload, adaptMetadata.
    cbn [SessionCapturePayload.metadata SessionMetadata.activityLabel
         SessionMetadata.stressLevel SessionMetadata.sensorPlacement
         SessionMetadata.deviceModel].
    destruct metadataDraft as [[a |] [b |] [c |] [d |]]; reflexivity. }
  split; [exact Hmeta |]. split.
  { rewrite Hmeta. destruct (adaptMetadata (Some metadataDraft)) as [m |] eqn:Hm.
    - exact (adaptMetadata_idem _ _ Hm).
    - reflexivity. }
  unfold buildCapturePayload.
  cbn [SessionCapturePayload.tags SessionCapturePayload.notes].
  set (tags := List.filter _ (map JS.trim (JS.split "," tagsInput))).
  assert (Hclean : Forall isClean tags) by apply filter_trim_clean.
  split; [| split; [| split]].
  - destruct (0 <? JS.length tags)%Z; [| reflexivity].
    cbn [fmap option_fmap option_map default]. rewrite adaptTags_omap.
    apply omap_sanitize_clean. exact Hclean.
  - destruct tags as [| tag rest]; [discriminate | discriminate].
  - reflexivity.
  - apply sanitizeString_fixed_option.
    change (isCleanOrAbsent (sanitizeString (Some notes))).
    apply sanitizeString_clean.
Qed.

Example buildCapturePayload_example :
  buildCapturePayload
    {| SessionMetadata.activityLabel := Some " walking "%string;
       SessionMetadata.stressLevel := None;
       SessionMetadata.sensorPlacement := Some ""%string;
       SessionMetadata.deviceModel := None |}
    " rest, ,seated,," "  "
  = {| SessionCapturePayload.metadata :=
         Some {| SessionMetadata.activityLabel := Some "walking"%string;
                 SessionMetadata.stressLevel := None;
                 SessionMetadata.sensorPlacement := None;
                 SessionMetadata.deviceModel := None |};
       SessionCapturePayload.tags := Some ["rest"; "seated"]%string;
       SessionCapturePayload.notes := None |}
  /\ JS.split "," "a,,b," = [ "a"; ""; "b"; "" ]%string
  /\ JS.split "," "" = [""%string].
Proof. repeat split; reflexivity. Qed.

(** ** Comparison baselines *)

Lemma adaptVerifyComparisonsFrom_ids idx scores :
  map VerifyComparison.id (adaptVerifyComparisonsFrom idx scores)
  = map (fun i => "baseline-" +:+ pretty (i + 1)%nat) (seq idx (length scores)).
Proof.
  revert idx. induction scores as [| score scores IH]; intros idx; [reflexivity |].
  cbn [adaptVerifyComparisonsFrom map length seq VerifyComparison.id].
  rewrite IH. reflexivity.
Qed.

Lemma adaptVerifyComparisonsFrom_probabilities idx scores :
  map VerifyComparison.probability (adaptVerifyComparisonsFrom idx scores) = scores.
Proof.
  revert idx. induction scores as [| score scores IH]; intros idx; [reflexivity |].
  cbn [adaptVerifyComparisonsFrom map VerifyComparison.probability].
  rewrite IH. reflexivity.
Qed.

Lemma baseline_id_inj i j :
  "baseline-" +:+ pretty (i + 1)%nat = "baseline-" +:+ pretty (j + 1)%nat -> i = j.
Proof.
  intros H. injection H as H. cbn [String.append] in H.
  apply pretty_nat_inj in H. lia.
Qed.

(** X11: the comparison rows built from the scores of a verification keep
    the scores in their order, number the baselines from 1, and have
    pairwise distinct identities. *)
Theorem adaptVerifyComparisons_rows scores :
  map VerifyComparison.probability (adaptVerifyComparisons scores) = scores
  /\ length (adaptVerifyComparisons scores) = length scores
  /\ (forall i row, adaptVerifyComparisons scores !! i = Some row ->
        VerifyComparison.id row = "baseline-" +:+ pretty (i + 1)%nat)
  /\ NoDup (map VerifyComparison.id (adaptVerifyComparisons scores)).
Proof.
  unfold adaptVerifyComparisons.
  pose proof (adaptVerifyComparisonsFrom_probabilities 0 scores) as Hp.
  pose proof (adaptVerifyComparisonsFrom_ids 0 scores) as Hids.
  split; [exact Hp |]. split; [| split].
  - rewrite <- Hp at 2. symmetry. apply length_map.
  - intros i row Hrow.
    assert (Hi : map VerifyComparison.id (adaptVerifyComparisonsFrom 0 scores) !! i
                 = Some (VerifyComparison.id row)).
    { change (map VerifyComparison.id ?l) with (VerifyComparison.id <$> l).
      rewrite list_lookup_fmap, Hrow. reflexivity. }
    rewrite Hids in Hi.
    change (map ?f ?l) with (f <$> l) in Hi. rewrite list_lookup_fmap in Hi.
    destruct (seq 0 (length scores) !! i) as [k |] eqn:Hk; [| discriminate].
    apply lookup_seq in Hk as [-> _]. injection Hi as <-. reflexivity.
  - rewrite Hids. change (map ?f ?l) with (f <$> l).
    apply NoDup_fmap_2; [| apply NoDup_seq].
    intros i j. apply baseline_id_inj.
Qed.

Example adaptVerifyResponse_example :
  let attempt :=
    verifyAttempt "id-1" "2024-05-01T10:00:00Z"
      {| VerifyOptions.threshold := 0.85; VerifyOptions.label := Some impostor;
         VerifyOptions.notes := None; VerifyOptions.alias := Some "Alice"%string |}
      {| VerifyApiResponse.fitbitUserId := "u1"; VerifyApiResponse.authenticated := true;
         VerifyApiResponse.score := 0.8; VerifyApiResponse.threshold := 0.85;
         VerifyApiResponse.ecgStartTime := None; VerifyApiResponse.hrvDailyRmssd := None;
         VerifyApiResponse.comparisonScores := Some [0.5; 0.75] |} in
  map VerifyComparison.id (VerifyAttempt.comparisons attempt)
  = ["baseline-1"; "baseline-2"]%string
  /\ map VerifyComparison.timestampLabel (VerifyAttempt.comparisons attempt)
     = ["Baseline #1"; "Baseline #2"]%string
  /\ VerifyAttempt.timestamp attempt = "2024-05-01T10:00:00Z"%string
  /\ VerifyAttempt.passed attempt = true
  /\ VerifyAttempt.label attempt = Some impostor.
Proof. vm_compute. repeat split; reflexivity. Qed.

(** ** Attempt ledger, continued *)

(** X12: in every state reached from the initial one, the latest
    verification result is the newest entry of the ledger, label and notes
    included. *)
Theorem latestVerify_is_head st :
  reachable st -> AppState.latestVerify st = head (AppState.attemptLogs st).
Proof.
  induction 1 as [| st ev _ IH]; [reflexivity |].
  destruct ev as [attempt | attemptId label notes].
  - reflexivity.
  - cbn [step handleLabelUpdate AppState.latestVerify AppState.attemptLogs].
    rewrite IH. unfold relabel.
    destruct (AppState.attemptLogs st) as [| a rest]; [reflexivity |].
    cbn [head map]. destruct (String.eqb _ _); reflexivity.
Qed.

Lemma latestVerify_is_head_witness :
  let st := run (sampleRun 3 ++ [LabelUpdated "attempt-3" impostor None]) in
  AppState.latestVerify st = head (AppState.attemptLogs st)
  /\ (VerifyAttempt.label <$> AppState.latestVerify st) = Some (Some impostor).
Proof.
  intros st. split; [| reflexivity].
  apply latestVerify_is_head. apply reachable_run.
Defined.

Lemma relabel_map_id attemptId label notes prev :
  map VerifyAttempt.id (relabel attemptId label notes prev) = map VerifyAttempt.id prev.
Proof.
  unfold relabel. rewrite map_map. apply map_ext. intros a.
  destruct (String.eqb _ _); reflexivity.
Qed.

(** X13: relabelling keeps the identities of the ledger in their order; of
    two relabellings of the same attempt the later one decides; and
    relabellings of attempts with different identities can be swapped. *)
Theorem relabel_compose attemptId label notes prev :
  map VerifyAttempt.id (relabel attemptId label notes prev) = map VerifyAttempt.id prev
  /\ (forall label' notes',
        relabel attemptId label notes (relabel attemptId label' notes' prev)
        = relabel attemptId label notes prev)
  /\ (forall otherId label' notes',
        otherId <> attemptId ->
        relabel attemptId label notes (relabel otherId label' notes' prev)
        = relabel otherId label' notes' (relabel attemptId label notes prev)).
Proof.
  split; [apply relabel_map_id |]. split.
  - intros label' notes'. unfold relabel. rewrite map_map. apply map_ext. intros a.
    destruct (String.eqb (VerifyAttempt.id a) attemptId) eqn:Ha;
      cbn [VerifyAttempt.withLabelNotes VerifyAttempt.id]; rewrite Ha; reflexivity.
  - intros otherId label' notes' Hne. unfold relabel. rewrite !map_map.
    apply map_ext. intros a.
    destruct (String.eqb (VerifyAttempt.id a) attemptId) eqn:Ha;
      destruct (String.eqb (VerifyAttempt.id a) otherId) eqn:Hb;
      cbn [VerifyAttempt.withLabelNotes VerifyAttempt.id];
      rewrite ?Ha, ?Hb; try reflexivity.
    apply String.eqb_eq in Ha, Hb. congruence.
Qed.

(** X14: relabelling a ledger into which an attempt has just been recorded
    is recording the attempt, relabelled if it has the identity, into the
    relabelled ledger. *)
Theorem relabel_recordAttempt attemptId label notes attempt prev :
  relabel attemptId label notes (recordAttempt attempt prev)
  = recordAttempt
      (if String.eqb (VerifyAttempt.id attempt) attemptId
       then VerifyAttempt.withLabelNotes attempt (Some label) notes else attempt)
      (relabel attemptId label notes prev).
Proof.
  unfold relabel, recordAttempt.
  change (map ?f (take 400 ?l)) with (f <$> take 400 l).
  rewrite fmap_take. reflexivity.
Qed.

(** ** Participant aggregator, continued *)

Lemma JsMap_get_set {V} (m : JsMap.t V) k v k' :
  JsMap.get (JsMap.set m k v) k' = if String.eqb k k' then Some v else JsMap.get m k'.
Proof.
  induction m as [| [k0 v0] m IH]; cbn [JsMap.set JsMap.get]; [reflexivity |].
  destruct (String.eqb_spec k0 k) as [-> | Hne]; cbn [JsMap.get].
  - destruct (String.eqb k k'); reflexivity.
  - rewrite IH. destruct (String.eqb_spec k0 k') as [-> | Hne'].
    + apply String.eqb_neq in Hne. rewrite String.eqb_sym, Hne. reflexivity.
    + reflexivity.
Qed.

Lemma JsMap_get_entry {V} (m : JsMap.t V) k v :
  NoDup m.*1 -> In (k, v) m -> JsMap.get m k = Some v.
Proof.
  induction m as [| [k0 v0] m IH]; intros Hnd Hin; [contradiction |].
  rewrite fmap_cons in Hnd. apply NoDup_cons in Hnd as [Hk0 Hnd].
  cbn [JsMap.get]. destruct Hin as [[= -> ->] | Hin].
  - rewrite String.eqb_refl. reflexivity.
  - destruct (String.eqb_spec k0 k) as [-> | _]; [| apply IH; assumption].
    exfalso. apply Hk0. apply list_elem_of_In in Hin.
    apply (list_elem_of_fmap_2 fst) in Hin. exact Hin.
Qed.

Lemma identities_app sessions session :
  identities (sessions ++ [session])
  = identities sessions ++ match identityOf session with Some id => [id] | None => [] end.
Proof.
  unfold identities. rewrite omap_app. cbn [omap list_omap].
  destruct (identityOf session); reflexivity.
Qed.

Lemma sessionsOf_app id sessions session :
  sessionsOf id (sessions ++ [session])
  = (sessionsOf id sessions
     + match identityOf session with
       | Some id' => if String.eqb id id' then 1 else 0
       | None => 0
       end)%nat.
Proof.
  unfold sessionsOf. rewrite identities_app, List.filter_app, length_app.
  destruct (identityOf session) as [id' |]; cbn [List.filter]; [| reflexivity].
  destruct (String.eqb id id'); reflexivity.
Qed.

Section AggregatorMore.

Variable Date_getTime : string -> float.

Lemma grouped_snoc sessions session :
  fold_left (groupSession Date_getTime) (sessions ++ [session]) JsMap.empty
  = groupSession Date_getTime (fold_left (groupSession Date_getTime) sessions JsMap.empty) session.
Proof. rewrite fold_left_app. reflexivity. Qed.

Lemma groupSession_no_identity grouped session :
  identityOf session = None -> groupSession Date_getTime grouped session = grouped.
Proof.
  intros Hid. unfold groupSession.
  pose proof (stringTruthy_identityOf session) as H.
  destruct (stringTruthy (CollectSessionResponse.fitbitUserId session)); [| reflexivity].
  congruence.
Qed.

Lemma groupSession_get_other grouped session id :
  identityOf session <> Some id ->
  JsMap.get (groupSession Date_getTime grouped session) id = JsMap.get grouped id.
Proof.
  intros Hid. unfold groupSession.
  pose proof (stringTruthy_identityOf session) as H.
  destruct (stringTruthy (CollectSessionResponse.fitbitUserId session)); [| reflexivity].
  cbn [negb]. rewrite JsMap_get_set.
  destruct (String.eqb_spec
              (default EmptyString (CollectSessionResponse.fitbitUserId session)) id)
    as [Heq | _]; [| reflexivity].
  exfalso. apply Hid. rewrite H, Heq. reflexivity.
Qed.

Lemma groupSession_get_same grouped session id :
  identityOf session = Some id ->
  exists entry,
    JsMap.get (groupSession Date_getTime grouped session) id = Some entry
    /\ GroupInfo.sessionCount entry
       = default 0 (GroupInfo.sessionCount <$> JsMap.get grouped id) + 1
    /\ (GroupInfo.lastSessionAt entry
        = (JsMap.get grouped id ≫= GroupInfo.lastSessionAt)
        \/ stringTruthy (CollectSessionResponse.ecgStartTime session) = true
           /\ GroupInfo.lastSessionAt entry = CollectSessionResponse.ecgStartTime session)
    /\ (stringTruthy (CollectSessionResponse.ecgStartTime session) = true ->
        stringTruthy (GroupInfo.lastSessionAt entry) = true).
Proof.
  intros Hid. unfold groupSession.
  pose proof (stringTruthy_identityOf session) as H.
  destruct (stringTruthy (CollectSessionResponse.fitbitUserId session));
    [| congruence].
  rewrite Hid in H. injection H as <-. cbn [negb].
  rewrite JsMap_get_set, String.eqb_refl.
  eexists. split; [reflexivity |].
  destruct (JsMap.get grouped id) as [old |];
    cbn [default fmap option_fmap option_map mbind option_bind
         GroupInfo.sessionCount GroupInfo.lastSessionAt];
    destruct (CollectSessionResponse.ecgStartTime session) as [start |] eqn:Hstart;
    cbn [stringTruthy default];
    try destruct (0 <? String.length start)%nat eqn:Hlen;
    cbn [GroupInfo.sessionCount GroupInfo.lastSessionAt];
    try destruct (negb _ || JS.gtb _ _) eqn:Hnewer;
    cbn [GroupInfo.sessionCount GroupInfo.lastSessionAt stringTruthy];
    repeat split; auto; try discriminate.
  intros _. apply orb_false_iff in Hnewer as [Hold _].
  apply negb_false_iff in Hold. exact Hold.
Qed.

(** X15: a session without identity leaves the roster as it is; a session
    of a participant of the roster keeps the rows and their order; a
    session of another participant adds one row at the end. *)
Theorem roster_after_session sessions session :
  let before := buildParticipantsFromSessions Date_getTime sessions in
  let after := buildParticipantsFromSessions Date_getTime (sessions ++ [session]) in
  match identityOf session with
  | None => after = before
  | Some id =>
      map Participant.id after
      = if decide (id ∈ map Participant.id before)
        then map Participant.id before
        else map Participant.id before ++ [id]
  end.
Proof.
  intros before after. subst before after.
  destruct (identityOf session) as [id |] eqn:Hid.
  - rewrite !roster_ids, grouped_snoc, groupSession_keys, Hid. reflexivity.
  - unfold buildParticipantsFromSessions.
    rewrite grouped_snoc, groupSession_no_identity by exact Hid. reflexivity.
Qed.

Lemma grouped_count sessions id :
  default 0 (GroupInfo.sessionCount <$> JsMap.get (fold_left (groupSession Date_getTime) sessions JsMap.empty) id)
  = Nat.iter (sessionsOf id sessions) (fun count => count + 1) 0.
Proof.
  induction sessions as [| session sessions IH] using rev_ind; [reflexivity |].
  rewrite grouped_snoc, sessionsOf_app.
  destruct (identityOf session) as [id' |] eqn:Hid.
  - destruct (String.eqb_spec id id') as [<- | Hne].
    + destruct (groupSession_get_same (fold_left (groupSession Date_getTime) sessions JsMap.empty) session id Hid)
        as (entry & -> & Hcount & _).
      cbn [fmap option_fmap option_map default]. rewrite Hcount, IH.
      rewrite Nat.add_1_r. reflexivity.
    + rewrite groupSession_get_other by congruence.
      rewrite Nat.add_0_r. exact IH.
  - rewrite groupSession_get_other by congruence.
    rewrite Nat.add_0_r. exact IH.
Qed.

Lemma roster_entry sessions p :
  In p (buildParticipantsFromSessions Date_getTime sessions) ->
  exists info,
    JsMap.get (fold_left (groupSession Date_getTime) sessions JsMap.empty) (Participant.id p) = Some info
    /\ Participant.sessionCount p = GroupInfo.sessionCount info
    /\ Participant.lastSessionAt p = GroupInfo.lastSessionAt info
    /\ Participant.id p ∈ identities sessions.
Proof.
  intros Hp. unfold buildParticipantsFromSessions, JsMap.entries in Hp.
  apply in_map_iff in Hp as ([id info] & <- & Hin).
  destruct (grouped_keys Date_getTime sessions JsMap.empty) as [Hnd Hall];
    [apply NoDup_nil_2 |].
  exists info. cbn [Participant.id Participant.sessionCount Participant.lastSessionAt].
  split; [apply JsMap_get_entry; assumption |].
  split; [reflexivity |]. split; [reflexivity |].
  apply list_elem_of_In in Hin. apply (list_elem_of_fmap_2 fst) in Hin.
  apply Hall in Hin as [Hin | Hin]; [inversion Hin | exact Hin].
Qed.

(** X16: the session count of a roster row is 0 incremented once for each
    session of the list that carries the row's identity, and there is at
    least one such session. *)
Theorem roster_sessionCount sessions p :
  In p (buildParticipantsFromSessions Date_getTime sessions) ->
  Participant.sessionCount p
  = Nat.iter (sessionsOf (Participant.id p) sessions) (fun count => count + 1) 0
  /\ (1 <= sessionsOf (Participant.id p) sessions)%nat.
Proof.
  intros Hp. destruct (roster_entry sessions p Hp) as (info & Hget & Hcount & _ & Hid).
  split.
  - rewrite <- grouped_count, Hget, Hcount. reflexivity.
  - unfold sessionsOf. apply list_elem_of_In in Hid.
    induction (identities sessions) as [| x l IH]; [contradiction |].
    cbn [List.filter]. destruct Hid as [-> | Hid].
    + rewrite String.eqb_refl. simpl. lia.
    + specialize (IH Hid). destruct (String.eqb _ x); simpl; lia.
Qed.

End AggregatorMore.

Lemma startTimeOf_app id sessions session time :
  startTimeOf id (sessions ++ [session]) time
  <-> startTimeOf id sessions time
      \/ (identityOf session = Some id
          /\ CollectSessionResponse.ecgStartTime session = Some time
          /\ time <> EmptyString).
Proof.
  unfold startTimeOf. split.
  - intros (s & Hin & Hid & Hstart & Hne). apply in_app_or in Hin as [Hin | [<- | []]].
    + left. exists s. auto.
    + right. auto.
  - intros [(s & Hin & H) | H].
    + exists s. split; [apply in_or_app; left; exact Hin | exact H].
    + exists session. split; [apply in_or_app; right; left; reflexivity | exact H].
Qed.

Section AggregatorTimes.

Variable Date_getTime : string -> float.

Lemma grouped_last sessions id :
  match JsMap.get (fold_left (groupSession Date_getTime) sessions JsMap.empty) id
        ≫= GroupInfo.lastSessionAt with
  | Some time => startTimeOf id sessions time
  | None => forall time, ~ startTimeOf id sessions time
  end.
Proof.
  induction sessions as [| session sessions IH] using rev_ind.
  - cbn. intros time (s & [] & _).
  - rewrite grouped_snoc.
    destruct (decide (identityOf session = Some id)) as [Hid | Hid].
    + destruct (groupSession_get_same Date_getTime
                  (fold_left (groupSession Date_getTime) sessions JsMap.empty)
                  session id Hid) as (entry & -> & _ & Hlast & Htruthy).
      cbn [mbind option_bind].
      destruct Hlast as [Hold | [Hnew Hstart]].
      * rewrite Hold.
        destruct (JsMap.get _ id ≫= GroupInfo.lastSessionAt) as [time |] eqn:Hget.
        -- apply startTimeOf_app. left. exact IH.
        -- intros time Htime. apply startTimeOf_app in Htime as [Htime | (_ & Hs & Hne)].
           ++ exact (IH time Htime).
           ++ rewrite Hs, Hold in Htruthy. cbn [stringTruthy] in Htruthy.
              apply length_positive in Hne. specialize (Htruthy Hne). discriminate.
      * rewrite Hstart.
        destruct (CollectSessionResponse.ecgStartTime session) as [start |] eqn:Hs;
          [| discriminate].
        apply startTimeOf_app. right. split; [exact Hid |]. split; [exact Hs |].
        apply length_positive. exact Hnew.
    + rewrite groupSession_get_other by exact Hid.
      destruct (JsMap.get _ id ≫= GroupInfo.lastSessionAt) as [time |].
      * apply startTimeOf_app. left. exact IH.
      * intros time Htime. apply startTimeOf_app in Htime as [Htime | (Hid' & _)].
        -- exact (IH time Htime).
        -- contradiction.
Qed.

(** X17: the last session time of a roster row, when there is one, is the
    non-empty start time of a session of that participant; and there is
    none only when no session of that participant has a non-empty start
    time. *)
Theorem roster_lastSessionAt sessions p :
  In p (buildParticipantsFromSessions Date_getTime sessions) ->
  match Participant.lastSessionAt p with
  | Some time => startTimeOf (Participant.id p) sessions time
  | None => forall time, ~ startTimeOf (Participant.id p) sessions time
  end.
Proof.
  intros Hp.
  destruct (roster_entry Date_getTime sessions p Hp) as (info & Hget & _ & Hlast & _).
  pose proof (grouped_last sessions (Participant.id p)) as H.
  rewrite Hget in H. cbn [mbind option_bind] in H. rewrite <- Hlast in H. exact H.
Qed.

End AggregatorTimes.

(** Six sessions: the row of participant u2 counts three of them and shows
    one of their start times. *)
Lemma roster_sessionCount_witness :
  let sessions :=
    [sampleSession (Some "u2") (Some "200"); sampleSession (Some "") (Some "900");
     sampleSession None (Some "950"); sampleSession (Some "u1") None;
     sampleSession (Some "u2") (Some "300"); sampleSession (Some "u2") (Some "100")]%string in
  let p :=
    {| Participant.id := "u2"; Participant.alias := None; Participant.sessionCount := 3;
       Participant.lastSessionAt := Some "300"%string;
       Participant.enrollmentProgress := Some 0.25; Participant.modelStatus := None |} in
  Participant.sessionCount p = Nat.iter 3 (fun count => count + 1) 0
  /\ sessionsOf "u2" sessions = 3%nat.
Proof.
  intros sessions p. split; [| reflexivity].
  apply (roster_sessionCount JS.StringToNumber sessions p).
  vm_compute. left. reflexivity.
Defined.

Lemma roster_lastSessionAt_witness :
  let sessions :=
    [sampleSession (Some "u2") (Some "200"); sampleSession (Some "u1") None;
     sampleSession (Some "u2") (Some "300"); sampleSession (Some "u2") (Some "")]%string in
  let p2 :=
    {| Participant.id := "u2"; Participant.alias := None; Participant.sessionCount := 3;
       Participant.lastSessionAt := Some "300"%string;
       Participant.enrollmentProgress := Some 0.25; Participant.modelStatus := None |} in
  startTimeOf "u2" sessions "300".
Proof.
  intros sessions p2.
  apply (roster_lastSessionAt JS.StringToNumber sessions p2).
  vm_compute. left. reflexivity.
Defined.

(** ** Analytics engine, continued *)

Lemma countWhere_split {A} (p q : A -> bool) l :
  (countWhere (fun x => p x && q x) l + countWhere (fun x => p x && negb (q x)) l
   = countWhere p l)%Z.
Proof.
  induction l as [| x l IH]; cbn [countWhere]; [reflexivity |].
  destruct (p x), (q x); cbn [andb negb]; lia.
Qed.

Lemma countWhere_labelled (attempts : list VerifyAttempt.t) :
  (countWhere (labelIs genuine) attempts + countWhere (labelIs impostor) attempts
   = countWhere isLabelled attempts)%Z.
Proof.
  induction attempts as [| a attempts IH]; cbn [countWhere]; [reflexivity |].
  unfold labelIs at 1 3, isLabelled at 1.
  destruct (VerifyAttempt.label a) as [[|] |]; cbn [Label_eqb]; lia.
Qed.

(** X18: the label distribution has a Genuine and an Impostor row; pass and
    fail of a row add up to the number of attempts with that label, the
    four bars add up to the number of labelled attempts, and FAR is the
    pass bar of the Impostor row over the height of that row. *)
Theorem distributionData_totals attempts :
  exists g i,
    distributionData attempts = [g; i]
    /\ DistributionRow.label g = "Genuine"%string
    /\ DistributionRow.label i = "Impostor"%string
    /\ (DistributionRow.pass g + DistributionRow.fail g
        = countWhere (labelIs genuine) attempts)%Z
    /\ (DistributionRow.pass i + DistributionRow.fail i
        = countWhere (labelIs impostor) attempts)%Z
    /\ (DistributionRow.pass g + DistributionRow.fail g
        + (DistributionRow.pass i + DistributionRow.fail i)
        = countWhere isLabelled attempts)%Z
    /\ far attempts
       = (if (DistributionRow.pass i + DistributionRow.fail i =? 0)%Z then 0
          else JS.ofZ (DistributionRow.pass i)
               / JS.ofZ (DistributionRow.pass i + DistributionRow.fail i))
    /\ frr attempts
       = (if (DistributionRow.pass g + DistributionRow.fail g =? 0)%Z then 0
          else JS.ofZ (DistributionRow.fail g)
               / JS.ofZ (DistributionRow.pass g + DistributionRow.fail g)).
Proof.
  unfold distributionData, genuineAttempts, impostorAttempts.
  eexists. eexists. split; [reflexivity |].
  cbn [DistributionRow.label DistributionRow.pass DistributionRow.fail].
  rewrite !filter_filter_andb, !length_filter_countWhere, !countWhere_split.
  split; [reflexivity |]. split; [reflexivity |].
  split; [reflexivity |]. split; [reflexivity |].
  split; [apply countWhere_labelled |].
  split; [apply far_spec | apply frr_spec].
Qed.

Lemma countWhere_Permutation {A} (p : A -> bool) l l' :
  Permutation l l' -> countWhere p l = countWhere p l'.
Proof.
  induction 1 as [| x l l' _ IH | x y l | l l' l'' _ IH1 _ IH2]; cbn [countWhere].
  - reflexivity.
  - rewrite IH. reflexivity.
  - lia.
  - congruence.
Qed.

(** X19: the rates and the label distribution do not depend on the order
    of the attempts. *)
Theorem analytics_order_independent attempts attempts' :
  Permutation attempts attempts' ->
  far attempts = far attempts'
  /\ frr attempts = frr attempts'
  /\ eer attempts = eer attempts'
  /\ distributionData attempts = distributionData attempts'.
Proof.
  intros Hperm.
  assert (Hfar : far attempts = far attempts').
  { rewrite !far_spec.
    rewrite (countWhere_Permutation (labelIs impostor) _ _ Hperm).
    rewrite (countWhere_Permutation (fun a => labelIs impostor a && _) _ _ Hperm).
    reflexivity. }
  assert (Hfrr : frr attempts = frr attempts').
  { rewrite !frr_spec.
    rewrite (countWhere_Permutation (labelIs genuine) _ _ Hperm).
    rewrite (countWhere_Permutation (fun a => labelIs genuine a && _) _ _ Hperm).
    reflexivity. }
  split; [exact Hfar |]. split; [exact Hfrr |].
  split; [unfold eer; rewrite Hfar, Hfrr; reflexivity |].
  unfold distributionData, genuineAttempts, impostorAttempts.
  rewrite !filter_filter_andb, !length_filter_countWhere.
  rewrite (countWhere_Permutation (fun x => labelIs genuine x && _) _ _ Hperm).
  rewrite (countWhere_Permutation
             (fun x => labelIs genuine x && negb _) _ _ Hperm).
  rewrite (countWhere_Permutation (fun x => labelIs impostor x && VerifyAttempt.passed x)
             _ _ Hperm).
  rewrite (countWhere_Permutation
             (fun x => labelIs impostor x && negb (VerifyAttempt.passed x)) _ _ Hperm).
  reflexivity.
Qed.

Lemma analytics_order_independent_witness :
  let a := labelled (Some impostor) true in
  let b := labelled (Some impostor) false in
  let c := labelled (Some genuine) true in
  far [a; b; c] = far [b; a; c] /\ far [a; b; c] = 0.5.
Proof.
  intros a b c. split; [| reflexivity].
  apply (analytics_order_independent [a; b; c] [b; a; c]). apply perm_swap.
Defined.

(** ** Continuous monitor, continued *)

Lemma countWhere_range {A} (p : A -> bool) l :
  (0 <= countWhere p l <= JS.length l)%Z.
Proof.
  unfold JS.length. induction l as [| x l IH]; cbn [countWhere List.length].
  - lia.
  - destruct (p x); lia.
Qed.

Section SummaryMore.

Variable Date_getTime : string -> float.
Variable formatTime : float -> string.

(** X20: a summary is produced exactly when there is no sample or the start
    of the first window and the end of the last one are valid dates; in
    every summary produced the passing and failing counts lie between 0 and
    the count and add up to it, and the window range is absent exactly when
    there is no sample; without a result the summary is produced and is
    that of no sample. *)
Theorem summary_bounds latestResult :
  (windowDatesValid Date_getTime (samplesOf latestResult)
   <-> is_Some (summary Date_getTime formatTime latestResult))
  /\ (forall s,
        summary Date_getTime formatTime latestResult = Some s ->
        (0 <= Summary.passCount s <= Summary.count s)%Z
        /\ (0 <= Summary.failCount s <= Summary.count s)%Z
        /\ (Summary.passCount s + Summary.failCount s = Summary.count s)%Z
        /\ (Summary.windowRange s = None <-> Summary.count s = 0%Z))
  /\ (latestResult = None ->
      exists s,
        summary Date_getTime formatTime latestResult = Some s
        /\ Summary.count s = 0%Z /\ Summary.passRate s = 0
        /\ Summary.windowRange s = None).
Proof.
  split; [| split].
  - split; [apply summary_produced |].
    intros [s Hs]. apply (summary_fields _ _ _ _ Hs).
  - intros s Hs.
    destruct (summary_fields _ _ _ _ Hs) as (Hcount & Hpass & Hfail & _ & Hrange & _).
    rewrite length_filter_countWhere in Hpass.
    pose proof (countWhere_range ContinuousVerifySample.passes (samplesOf latestResult))
      as Hbounds.
    split; [lia |]. split; [lia |]. split; [lia |].
    rewrite Hrange, Hcount. unfold JS.length.
    destruct (samplesOf latestResult); simpl; split; intros H;
      try reflexivity; try discriminate H; lia.
  - intros ->. eexists. split; [reflexivity |]. repeat split; reflexivity.
Qed.

End SummaryMore.

(** The summary of two windows with valid dates, one of them passing. *)
Lemma summary_bounds_witness :
  let response :=
    {| ContinuousVerifyResponse.authenticated := false;
       ContinuousVerifyResponse.rollingMeanScore := 0.9;
       ContinuousVerifyResponse.rollingWorstScore := 0.9;
       ContinuousVerifyResponse.samples := [sampleWindow true; sampleWindow false] |} in
  exists s,
    summary sampleClock sampleFormat (Some response) = Some s
    /\ (Summary.passCount s + Summary.failCount s = Summary.count s)%Z
    /\ Summary.count s = 2%Z.
Proof.
  intros response.
  destruct (summary_bounds sampleClock sampleFormat (Some response))
    as (Hvalid & Hfields & _).
  destruct (proj1 Hvalid) as [s Hs].
  { intros first final [= <-] [= <-]. split; reflexivity. }
  exists s. split; [exact Hs |].
  destruct (Hfields s Hs) as (_ & _ & Hsum & _).
  split; [exact Hsum |].
  vm_compute in Hs. injection Hs as <-. reflexivity.
Defined.

Lemma Permutation_length_Z {A} (l l' : list A) :
  Permutation l l' -> JS.length l = JS.length l'.
Proof. intros H. unfold JS.length. rewrite (Permutation_length H). reflexivity. Qed.

Section AdapterProperties.

Variable Date_getTime : string -> float.
Variable formatTime : float -> string.
Variable Array_sort :
  (ContinuousVerifySample.t -> ContinuousVerifySample.t -> float) ->
  list ContinuousVerifySample.t -> list ContinuousVerifySample.t.

(** Sorting rearranges the elements of an array. *)
Hypothesis Array_sort_permutation :
  forall compare samples, Permutation (Array_sort compare samples) samples.

(** Every adapted sample carries the two dates of a sample of the
    response. *)
Lemma adaptContinuousSamples_dates raw sample :
  In sample (adaptContinuousSamples Date_getTime Array_sort raw) ->
  exists source,
    In source raw
    /\ ContinuousVerifySample.windowStartUtc sample
       = ContinuousSampleApi.windowStartUtc source
    /\ ContinuousVerifySample.windowEndUtc sample
       = ContinuousSampleApi.windowEndUtc source.
Proof.
  unfold adaptContinuousSamples. intros Hin.
  apply (Permutation_in _ (Array_sort_permutation _ _)) in Hin.
  apply in_map_iff in Hin. destruct Hin as (source & <- & Hsource).
  exists source. split; [exact Hsource |]. split; reflexivity.
Qed.

(** X21: adapting a continuous-verification response keeps every sample.
    When the dates of all samples of the response are valid, the summary of
    the adapted response is produced; whenever it is produced, it counts
    the samples of the response and, as passing, those whose flag is
    truthy; and the adapted scores are the coerced scores of the response,
    rearranged. *)
Theorem adaptContinuousResponse_summary response :
  let raw := default [] (ContinuousVerifyApiResponse.samples response) in
  let adapted := adaptContinuousResponse Date_getTime Array_sort response in
  (Forall (fun sample =>
             PrimFloat.is_nan
               (Date_getTime (ContinuousSampleApi.windowStartUtc sample)) = false
             /\ PrimFloat.is_nan
                  (Date_getTime (ContinuousSampleApi.windowEndUtc sample)) = false)
          raw ->
   is_Some (summary Date_getTime formatTime (Some adapted)))
  /\ (forall s,
        summary Date_getTime formatTime (Some adapted) = Some s ->
        Summary.count s = JS.length raw
        /\ Summary.passCount s
           = countWhere (fun sample => JS.toBoolean (ContinuousSampleApi.passes sample))
                        raw)
  /\ Permutation
       (map ContinuousVerifySample.score (ContinuousVerifyResponse.samples adapted))
       (map (fun sample => coerceNumber (ContinuousSampleApi.score sample)) raw).
Proof.
  intros raw adapted. split; [| split].
  - intros Hvalid. apply summary_produced.
    intros first final Hfirst Hfinal.
    assert (Hdates : forall sample,
               In sample (adaptContinuousSamples Date_getTime Array_sort raw) ->
               PrimFloat.is_nan
                 (Date_getTime (ContinuousVerifySample.windowStartUtc sample)) = false
               /\ PrimFloat.is_nan
                    (Date_getTime (ContinuousVerifySample.windowEndUtc sample)) = false).
    { intros sample Hin.
      destruct (adaptContinuousSamples_dates raw sample Hin)
        as (source & Hsource & -> & ->).
      rewrite List.Forall_forall in Hvalid. exact (Hvalid source Hsource). }
    change (samplesOf (Some adapted))
      with (adaptContinuousSamples Date_getTime Array_sort raw) in Hfirst, Hfinal.
    split.
    + apply Hdates. apply list_elem_of_In. apply head_Some_elem_of. exact Hfirst.
    + apply Hdates. apply list_elem_of_In. apply last_Some_elem_of. exact Hfinal.
  - intros s Hs.
    destruct (summary_fields _ _ _ _ Hs) as (Hcount & Hpass & _).
    change (samplesOf (Some adapted))
      with (adaptContinuousSamples Date_getTime Array_sort raw) in Hcount, Hpass.
    unfold adaptContinuousSamples in Hcount, Hpass.
    rewrite length_filter_countWhere in Hpass.
    rewrite (Permutation_length_Z _ _ (Array_sort_permutation _ _)) in Hcount.
    rewrite (countWhere_Permutation _ _ _ (Array_sort_permutation _ _)) in Hpass.
    split.
    + rewrite Hcount. unfold JS.length. rewrite length_map. reflexivity.
    + rewrite Hpass. clear.
      induction raw as [| x l IH]; cbn [map countWhere ContinuousVerifySample.passes];
        [reflexivity | rewrite IH; reflexivity].
  - subst adapted. unfold adaptContinuousResponse, adaptContinuousSamples.
    cbn [ContinuousVerifyResponse.samples]. fold raw.
    rewrite (Permutation_map _ (Array_sort_permutation _ _)).
    rewrite map_map. reflexivity.
Qed.

End AdapterProperties.

(** A response with three samples, one of them flagged by a number and one
    by nothing; all windows start at the same time, so that sorting leaves
    the samples in the order of the response. *)
Lemma adaptContinuousResponse_summary_witness :
  let sample flag :=
    {| ContinuousSampleApi.windowStartUtc := "2024-01-01T00:00:00Z";
       ContinuousSampleApi.windowEndUtc := "2024-01-01T00:15:00Z";
       ContinuousSampleApi.score := JS.VString "0.9";
       ContinuousSampleApi.passes := flag |} in
  let response :=
    {| ContinuousVerifyApiResponse.authenticated := JS.VBoolean false;
       ContinuousVerifyApiResponse.rollingMeanScore := JS.VNumber 0.9;
       ContinuousVerifyApiResponse.rollingWorstScore := JS.VUndefined;
       ContinuousVerifyApiResponse.samples :=
         Some [sample (JS.VBoolean true); sample JS.VUndefined; sample (JS.VNumber 1)] |} in
  exists s,
    summary sampleClock sampleFormat
      (Some (adaptContinuousResponse sampleClock (fun _ l => l) response)) = Some s
    /\ Summary.count s = 3%Z /\ Summary.passCount s = 2%Z.
Proof.
  intros sample response.
  destruct (adaptContinuousResponse_summary sampleClock sampleFormat
              (fun _ l => l) (fun _ l => Permutation_refl l) response)
    as (Hproduced & Hfields & _).
  destruct Hproduced as [s Hs].
  { repeat constructor. }
  exists s. split; [exact Hs |].
  destruct (Hfields s Hs) as [Hcount Hpass].
  split; [exact Hcount | exact Hpass].
Defined.

(** ** Verification panel *)

Lemma bestComparison_fold rows : forall acc,
  let best :=
    fold_left
      (fun prev current =>
         if JS.gtb (VerifyComparison.probability current)
                   (default 0 (VerifyComparison.probability <$> prev))
         then Some current else prev)
      rows acc in
  (best = None
   <-> acc = None
       /\ forall row, In row rows -> JS.gtb (VerifyComparison.probability row) 0 = false)
  /\ (forall row, best = Some row -> acc = Some row \/ In row rows).
Proof.
  induction rows as [| x rows IH]; intros acc; cbn [fold_left].
  - split; [| intros row H; left; exact H].
    split; [intros H; split; [exact H | intros row []] | intros [H _]; exact H].
  - specialize (IH (if JS.gtb (VerifyComparison.probability x)
                             (default 0 (VerifyComparison.probability <$> acc))
                    then Some x else acc)).
    cbv zeta in IH. destruct IH as [IHnone IHsome]. split.
    + rewrite IHnone. destruct acc as [a |]; cbn [fmap option_fmap option_map default].
      * split; [| intros [H _]; discriminate H].
        destruct (JS.gtb _ _); intros [H _]; discriminate H.
      * destruct (JS.gtb (VerifyComparison.probability x) 0) eqn:Hx.
        -- split; [intros [H _]; discriminate H |].
           intros [_ H]. rewrite (H x) in Hx by (left; reflexivity). discriminate Hx.
        -- split; intros [_ H]; (split; [reflexivity |]).
           ++ intros row [<- | Hrow]; [exact Hx | apply H; exact Hrow].
           ++ intros row Hrow. apply H. right. exact Hrow.
    + intros row Hrow. destruct (IHsome row Hrow) as [Hacc | Hin].
      * destruct (JS.gtb _ _).
        -- injection Hacc as <-. right. left. reflexivity.
        -- left. exact Hacc.
      * right. right. exact Hin.
Qed.

(** X22: the best comparison shown for a result is one of its comparison
    rows, and none is shown exactly when no row has a probability above 0;
    without a result none is shown. *)
Theorem bestComparison_spec latestResult :
  let rows := default [] (VerifyAttempt.comparisons <$> latestResult) in
  (bestComparison latestResult = None
   <-> forall row, In row rows -> JS.gtb (VerifyComparison.probability row) 0 = false)
  /\ (forall row, bestComparison latestResult = Some row -> In row rows).
Proof.
  destruct latestResult as [attempt |]; cbn [fmap option_fmap option_map default].
  - unfold bestComparison.
    destruct (bestComparison_fold (VerifyAttempt.comparisons attempt) None)
      as [Hnone Hsome].
    split.
    + rewrite Hnone. split; [intros [_ H]; exact H | intros H; split; [reflexivity | exact H]].
    + intros row Hrow. destruct (Hsome row Hrow) as [H | H]; [discriminate H | exact H].
  - split; [split; [intros _ row [] | reflexivity] | intros row H; discriminate H].
Qed.

Example bestComparison_example :
  let rows := adaptVerifyComparisons [0.5; 0.75; 0.75; 0.25] in
  (VerifyComparison.id <$> bestComparison (Some (VerifyAttempt.withLabelNotes
      (VerifyAttempt.mk "a" "u1" None "t" 0.9 0.85 true None None None rows) None None)))
  = Some "baseline-2"%string
  /\ bestComparison (Some (VerifyAttempt.mk "a" "u1" None "t" 0.9 0.85 true None None None
                             (adaptVerifyComparisons [0; -1]))) = None
  /\ map snd (sweepResults (Some (sampleAttempt 1))) = [true; true; true; true; true]
  /\ map snd (sweepResults None) = [false; false; false; false; false]
  /\ panelHandleVerify 0.7 true "  " = (0.7, Some impostor, None)
  /\ panelHandleLabelChange None "note" genuine = None.
Proof. vm_compute. repeat split; reflexivity. Qed.

(** ** Continuous monitor controls *)

Lemma monitorStep_lastRun st ev :
  ev <> RunClicked -> MonitorState.lastRun (monitorStep st ev) = MonitorState.lastRun st.
Proof. destruct ev; intros H; first [reflexivity | contradiction H; reflexivity]. Qed.

Lemma monitor_lastRun_kept evs : forall st,
  Forall (fun ev => ev <> RunClicked) evs ->
  MonitorState.lastRun (fold_left monitorStep evs st) = MonitorState.lastRun st.
Proof.
  induction evs as [| ev evs IH]; intros st Hevs; [reflexivity |].
  apply Forall_cons in Hevs as [Hev Hevs]. cbn [fold_left].
  rewrite IH by exact Hevs. apply monitorStep_lastRun. exact Hev.
Qed.

(** X23: once a sweep has been run, the applied threshold is the threshold
    of that run, however the controls are moved afterwards, until the next
    run; before any run it is the threshold of the slider. *)
Theorem appliedThreshold_of_last_run st evs :
  Forall (fun ev => ev <> RunClicked) evs ->
  appliedThreshold (fold_left monitorStep evs (monitorStep st RunClicked))
  = MonitorState.threshold st
  /\ ContinuousVerifyOptions.threshold (snd (handleRun st)) = MonitorState.threshold st
  /\ (MonitorState.lastRun st = None ->
      appliedThreshold (fold_left monitorStep evs st)
      = MonitorState.threshold (fold_left monitorStep evs st)).
Proof.
  intros Hevs. unfold appliedThreshold. split; [| split].
  - rewrite monitor_lastRun_kept by exact Hevs. reflexivity.
  - reflexivity.
  - intros Hnone. rewrite monitor_lastRun_kept by exact Hevs.
    rewrite Hnone. reflexivity.
Qed.

Lemma appliedThreshold_of_last_run_witness :
  let evs := [ThresholdChanged "0.6"; WindowMinutesChanged "30"]%string in
  appliedThreshold (fold_left monitorStep evs (monitorStep MonitorState.initial RunClicked))
  = 0.85
  /\ MonitorState.threshold
       (fold_left monitorStep evs (monitorStep MonitorState.initial RunClicked)) = 0.6
  /\ appliedThreshold (fold_left monitorStep evs MonitorState.initial) = 0.6.
Proof.
  intros evs. split; [| split; reflexivity].
  apply (appliedThreshold_of_last_run MonitorState.initial evs).
  repeat constructor; discriminate.
Defined.

(** ** The order of numbers *)

Ltac compare_cases :=
  repeat match goal with
         | H : context [Z.compare ?a ?b] |- _ => destruct (Z.compare_spec a b)
         | |- context [Z.compare ?a ?b] => destruct (Z.compare_spec a b)
         | H : context [Pos.compare ?a ?b] |- _ => destruct (Pos.compare_spec a b)
         | |- context [Pos.compare ?a ?b] => destruct (Pos.compare_spec a b)
         end.

Lemma SFltb_trans x y z :
  SFltb x y = true -> SFltb y z = true -> SFltb x z = true.
Proof.
  unfold SFltb.
  destruct x as [sx | sx | | sx mx ex], y as [sy | sy | | sy my ey],
    z as [sz | sz | | sz mz ez]; cbn [SFcompare];
    try destruct sx; try destruct sy; try destruct sz;
    cbn [CompOpp]; try discriminate; try reflexivity;
    change (Pos.compare_cont Eq) with Pos.compare;
    intros H1 H2; compare_cases; cbn [CompOpp] in *;
    try discriminate; try reflexivity; try lia.
Qed.

Lemma SFltb_leb_trans x y z :
  SFltb x y = true -> SFleb y z = true -> SFleb x z = true.
Proof.
  unfold SFltb, SFleb.
  destruct x as [sx | sx | | sx mx ex], y as [sy | sy | | sy my ey],
    z as [sz | sz | | sz mz ez]; cbn [SFcompare];
    try destruct sx; try destruct sy; try destruct sz;
    cbn [CompOpp]; try discriminate; try reflexivity;
    change (Pos.compare_cont Eq) with Pos.compare;
    intros H1 H2; compare_cases; cbn [CompOpp] in *;
    try discriminate; try reflexivity; try lia.
Qed.

Lemma SFltb_irrefl x : SFltb x x = false.
Proof.
  unfold SFltb. destruct x as [sx | sx | | sx mx ex]; cbn [SFcompare];
    try destruct sx; try reflexivity;
    rewrite Z.compare_refl; change (Pos.compare_cont Eq) with Pos.compare;
    rewrite Pos.compare_refl; reflexivity.
Qed.

Lemma ltb_trans a b c : (a <? b) = true -> (b <? c) = true -> (a <? c) = true.
Proof. rewrite !FloatAxioms.ltb_spec. apply SFltb_trans. Qed.

Lemma ltb_leb_trans a b c : (a <? b) = true -> (b <=? c) = true -> (a <=? c) = true.
Proof. rewrite FloatAxioms.ltb_spec, !FloatAxioms.leb_spec. apply SFltb_leb_trans. Qed.

Lemma ltb_irrefl a : (a <? a) = false.
Proof. rewrite FloatAxioms.ltb_spec. apply SFltb_irrefl. Qed.

(** If [b] is later than [a], nothing that is not later than [a] is later
    than [b]. *)
Lemma gtb_replaced a b c :
  JS.gtb b a = true -> JS.gtb c a = false -> JS.gtb c b = false.
Proof.
  unfold JS.gtb. intros Hab Hca.
  destruct (b <? c) eqn:Hbc; [| reflexivity].
  rewrite (ltb_trans a b c Hab Hbc) in Hca. discriminate Hca.
Qed.

(** ** The last session time is the latest one *)

Section AggregatorLatest.

Variable Date_getTime : string -> float.

Lemma groupSession_get_last grouped session id :
  identityOf session = Some id ->
  JsMap.get (groupSession Date_getTime grouped session) id ≫= GroupInfo.lastSessionAt
  = let old := JsMap.get grouped id ≫= GroupInfo.lastSessionAt in
    let start := CollectSessionResponse.ecgStartTime session in
    if stringTruthy start then
      if negb (stringTruthy old)
         || JS.gtb (Date_getTime (default EmptyString start))
                   (Date_getTime (default EmptyString old))
      then start else old
    else old.
Proof.
  intros Hid. unfold groupSession.
  pose proof (stringTruthy_identityOf session) as H.
  destruct (stringTruthy (CollectSessionResponse.fitbitUserId session));
    [| congruence].
  rewrite Hid in H. injection H as <-. cbn [negb].
  rewrite JsMap_get_set, String.eqb_refl. cbv zeta.
  destruct (JsMap.get grouped id) as [old |];
    cbn [default fmap option_fmap option_map mbind option_bind
         GroupInfo.sessionCount GroupInfo.lastSessionAt];
    destruct (CollectSessionResponse.ecgStartTime session) as [start |];
    cbn [stringTruthy default];
    try destruct (0 <? String.length start)%nat;
    cbn [GroupInfo.sessionCount GroupInfo.lastSessionAt];
    try destruct (negb _ || JS.gtb _ _);
    reflexivity.
Qed.

Lemma grouped_latest sessions id :
  forall latest,
    JsMap.get (fold_left (groupSession Date_getTime) sessions JsMap.empty) id
    ≫= GroupInfo.lastSessionAt = Some latest ->
    forall time, startTimeOf id sessions time ->
                 JS.gtb (Date_getTime time) (Date_getTime latest) = false.
Proof.
  induction sessions as [| session sessions IH] using rev_ind.
  - intros latest _ time (s & [] & _).
  - intros latest. rewrite grouped_snoc.
    destruct (decide (identityOf session = Some id)) as [Hid | Hid].
    + rewrite (groupSession_get_last _ _ _ Hid). cbv zeta.
      pose proof (grouped_last Date_getTime sessions id) as Hold.
      set (old := JsMap.get _ id ≫= GroupInfo.lastSessionAt) in *.
      destruct (CollectSessionResponse.ecgStartTime session) as [start |] eqn:Hstart;
        cbn [stringTruthy default].
      * destruct (0 <? String.length start)%nat eqn:Hlen.
        -- destruct old as [prev |] eqn:Hprev; cbn [stringTruthy default];
             unfold Datatypes.id.
           ++ assert (Hp : (0 <? String.length prev)%nat = true).
              { destruct Hold as (_ & _ & _ & _ & Hne). apply length_positive. exact Hne. }
              rewrite Hp. cbn [negb orb].
              destruct (JS.gtb (Date_getTime start) (Date_getTime prev)) eqn:Hnewer;
                cbv iota; intros [= <-] time Htime;
                apply startTimeOf_app in Htime as [Htime | (_ & Hs & _)].
              ** apply (gtb_replaced (Date_getTime prev)); [exact Hnewer |].
                 apply (IH prev eq_refl). exact Htime.
              ** rewrite Hstart in Hs. injection Hs as <-. unfold JS.gtb. apply ltb_irrefl.
              ** apply (IH prev eq_refl). exact Htime.
              ** rewrite Hstart in Hs. injection Hs as <-. exact Hnewer.
           ++ cbn [negb orb]. cbv iota. intros [= <-] time Htime.
              apply startTimeOf_app in Htime as [Htime | (_ & Hs & _)].
              ** contradiction (Hold time).
              ** rewrite Hstart in Hs. injection Hs as <-. unfold JS.gtb. apply ltb_irrefl.
        -- intros Hl time Htime.
           apply startTimeOf_app in Htime as [Htime | (_ & Hs & Hne)].
           ++ apply (IH latest Hl). exact Htime.
           ++ rewrite Hstart in Hs. injection Hs as <-. apply length_positive in Hne. congruence.
      * intros Hl time Htime.
        apply startTimeOf_app in Htime as [Htime | (_ & Hs & _)]; [| rewrite Hstart in Hs; discriminate Hs].
        apply (IH latest Hl). exact Htime.
    + rewrite groupSession_get_other by exact Hid.
      intros Hl time Htime.
      apply startTimeOf_app in Htime as [Htime | (Hid' & _)]; [| contradiction].
      apply (IH latest Hl). exact Htime.
Qed.

(** X24: the last session time of a roster row is the latest start time of
    that participant: no session of the participant has a start time that
    is later, as dates compare. *)
Theorem roster_lastSessionAt_latest sessions p latest :
  In p (buildParticipantsFromSessions Date_getTime sessions) ->
  Participant.lastSessionAt p = Some latest ->
  forall time,
    startTimeOf (Participant.id p) sessions time ->
    JS.gtb (Date_getTime time) (Date_getTime latest) = false.
Proof.
  intros Hp Hlatest.
  destruct (roster_entry Date_getTime sessions p Hp) as (info & Hget & _ & Hlast & _).
  apply grouped_latest. rewrite Hget. cbn [mbind option_bind].
  rewrite <- Hlast. exact Hlatest.
Qed.

End AggregatorLatest.

Lemma roster_lastSessionAt_latest_witness :
  let sessions :=
    [sampleSession (Some "u2") (Some "200"); sampleSession (Some "u1") (Some "900");
     sampleSession (Some "u2") (Some "300"); sampleSession (Some "u2") (Some "100")]%string in
  JS.gtb (JS.StringToNumber "100") (JS.StringToNumber "300") = false.
Proof.
  intros sessions.
  apply (roster_lastSessionAt_latest JS.StringToNumber sessions
           {| Participant.id := "u2"; Participant.alias := None;
              Participant.sessionCount := 3;
              Participant.lastSessionAt := Some "300"%string;
              Participant.enrollmentProgress := Some 0.25;
              Participant.modelStatus := None |} "300").
  - vm_compute. left. reflexivity.
  - reflexivity.
  - exists (sampleSession (Some "u2") (Some "100"))%string.
    split; [right; right; right; left; reflexivity |].
    split; [reflexivity |]. split; [reflexivity | discriminate].
Defined.

(** ** Threshold sweep and panel handlers *)

(** X25: the threshold sweep has a single cut-off: a result that passes at
    one of the five thresholds passes at every lower one, so the pass
    flags are a run of passes followed by a run of failures. *)
Theorem sweepResults_cutoff latestResult :
  map fst (sweepResults latestResult) = [0.6; 0.7; 0.8; 0.85; 0.9]
  /\ exists k, (k <= 5)%nat
               /\ map snd (sweepResults latestResult)
                  = replicate k true ++ replicate (5 - k) false.
Proof.
  split; [reflexivity |].
  unfold sweepResults, thresholds. cbn [map snd].
  set (score := default 0 (VerifyAttempt.score <$> latestResult)).
  assert (H1 : JS.geb score 0.7 = true -> JS.geb score 0.6 = true)
    by (apply ltb_leb_trans; reflexivity).
  assert (H2 : JS.geb score 0.8 = true -> JS.geb score 0.7 = true)
    by (apply ltb_leb_trans; reflexivity).
  assert (H3 : JS.geb score 0.85 = true -> JS.geb score 0.8 = true)
    by (apply ltb_leb_trans; reflexivity).
  assert (H4 : JS.geb score 0.9 = true -> JS.geb score 0.85 = true)
    by (apply ltb_leb_trans; reflexivity).
  destruct (JS.geb score 0.9).
  - rewrite H4, H3, H2, H1 by auto. exists 5%nat. split; [lia | reflexivity].
  - destruct (JS.geb score 0.85).
    + rewrite H3, H2, H1 by auto. exists 4%nat. split; [lia | reflexivity].
    + destruct (JS.geb score 0.8).
      * rewrite H2, H1 by auto. exists 3%nat. split; [lia | reflexivity].
      * destruct (JS.geb score 0.7).
        -- rewrite H1 by auto. exists 2%nat. split; [lia | reflexivity].
        -- destruct (JS.geb score 0.6).
           ++ exists 1%nat. split; [lia | reflexivity].
           ++ exists 0%nat. split; [lia | reflexivity].
Qed.

(** X26: an attempt verified from the panel is always labelled: it is an
    impostor attempt in impostor mode and a genuine one otherwise, so it
    counts in exactly one of the two rates; its notes are absent or a text
    without white space at either end; and its verdict is the one that the
    backend reported. *)
Theorem panel_attempt_labelled id now selected threshold impostorMode notes data :
  let '(threshold', label, notes') := panelHandleVerify threshold impostorMode notes in
  let attempt :=
    verifyAttempt id now (appHandleVerify selected threshold' label notes') data in
  VerifyAttempt.label attempt = Some (if impostorMode then impostor else genuine)
  /\ isLabelled attempt = true
  /\ labelIs impostor attempt = impostorMode
  /\ labelIs genuine attempt = negb impostorMode
  /\ isCleanOrAbsent (VerifyAttempt.notes attempt)
  /\ VerifyAttempt.passed attempt = VerifyApiResponse.authenticated data
  /\ isLabelled (adaptVerifyResponse id now data) = false.
Proof.
  unfold panelHandleVerify.
  cbn [verifyAttempt appHandleVerify VerifyAttempt.label VerifyAttempt.notes
       VerifyAttempt.passed VerifyOptions.label VerifyOptions.notes].
  split; [reflexivity |].
  split; [reflexivity |].
  split; [destruct impostorMode; reflexivity |].
  split; [destruct impostorMode; reflexivity |].
  split; [rewrite trimmedOrUndefined_sanitize; apply sanitizeString_clean |].
  split; reflexivity.
Qed.
